(** * EXTERES dashboard statistics: a shallow embedding of [app.py]

    The development models the one piece of computation of the application,
    the statistics block of the [dashboard] view (lines 240-332 of
    [src/EXTERES/app.py]) together with [parse_timestamp] (lines 208-214).

    - Python values are the decoded JSON scalars of the store rows; rows are
      dictionaries ([gmap string value]).
    - Exceptions are explicit: every fallible step returns [res].
    - Python [float] is IEEE-754 binary64 with round-to-nearest-even; finite
      floats are carried by their exact rational value.
    - An aware UTC [datetime] is its number of microseconds since
      0001-01-01T00:00:00Z; the library calls [datetime.fromisoformat] and the
      host's local-zone lookup are parameters of the model, with a concrete
      instance for evaluation.

    Around the statistics block, the rows that [add_task], [complete_task]
    and [add_focus_session] hand to the store and the three figures of the
    [focus] page (lines 352-370) are modelled as well, to relate what the
    handlers write to what the dashboard shows. *)

From Stdlib Require Import ZArith QArith Qround Qabs Qpower Lqa Lia List Bool.
From Stdlib Require Import String Ascii DecimalString Permutation Sorted.
From stdpp Require Import gmap strings.
Import ListNotations.

Local Open Scope Z_scope.

(** ** Exceptions and results *)

Module Py.

Inductive exn : Type :=
| TypeError
| ValueError
| KeyError
| AttributeError
| OverflowError
| ZeroDivisionError.

Inductive res (A : Type) : Type :=
| Ok (a : A)
| Raise (e : exn).
Arguments Ok {A} a.
Arguments Raise {A} e.

Definition bind {A B : Type} (m : res A) (k : A -> res B) : res B :=
  match m with
  | Ok a => k a
  | Raise e => Raise e
  end.

Definition is_ok {A : Type} (m : res A) : bool :=
  match m with
  | Ok _ => true
  | Raise _ => false
  end.

(** [for x in l: s = body(s, x)] with the loop variables threaded as [s]. *)
Fixpoint for_each {A S : Type} (body : S -> A -> res S) (l : list A) (s : S)
  : res S :=
  match l with
  | [] => Ok s
  | x :: l' => bind (body s x) (for_each body l')
  end.

(** Decoded JSON scalars held by a row of the store.  Numbers are the
    integers of the store's integer columns; fractional numbers and nested
    values do not occur in the columns the aggregator reads. *)
Inductive value : Type :=
| VNone
| VBool (b : bool)
| VInt (n : Z)
| VStr (s : string).

(** Python truth value: [None], [False], [0] and [''] are false. *)
Definition truthy (v : value) : bool :=
  match v with
  | VNone => false
  | VBool b => b
  | VInt n => negb (n =? 0)
  | VStr s => negb (String.eqb s EmptyString)
  end.

(** [d.get(k)] and [d.get(k, dflt)]. *)
Definition get (d : gmap string value) (k : string) : value :=
  default VNone (d !! k).

Definition get_default (d : gmap string value) (k : string) (dflt : value)
  : value :=
  default dflt (d !! k).

(** [d[k]] raises [KeyError] on a missing key. *)
Definition getitem (d : gmap string value) (k : string) : res value :=
  match d !! k with
  | Some v => Ok v
  | None => Raise KeyError
  end.

(** [acc + v] for an [int] accumulator: [bool] is an [int] subclass,
    [None] and [str] operands raise [TypeError]. *)
Definition int_add (acc : Z) (v : value) : res Z :=
  match v with
  | VInt n => Ok (acc + n)
  | VBool b => Ok (acc + (if b then 1 else 0))
  | VNone | VStr _ => Raise TypeError
  end.

(** [str(v)], as used by an f-string replacement field. *)
Definition str (v : value) : string :=
  match v with
  | VNone => "None"
  | VBool true => "True"
  | VBool false => "False"
  | VInt n => NilZero.string_of_int (Z.to_int n)
  | VStr s => s
  end.

(** [s.replace(old, new)] for a one-character [old].  Strings are UTF-8
    byte sequences; an ASCII byte never occurs inside a multi-byte
    character, so the byte-wise substitution is the character-wise one. *)
Fixpoint replace_char (old : ascii) (new : string) (s : string) : string :=
  match s with
  | EmptyString => EmptyString
  | String c s' =>
      if Ascii.eqb c old then String.append new (replace_char old new s')
      else String c (replace_char old new s')
  end.

End Py.
Export Py.

#[export] Instance res_ret : MRet Py.res := @Py.Ok.
#[export] Instance res_bind : MBind Py.res := fun A B k m => Py.bind m k.

(** ** Python floats: binary64, round to nearest, ties to even *)

Module Float.

Definition prec : Z := 53.
Definition emin : Z := -1074.
Definition emax : Z := 1024.

Definition pow2 (e : Z) : Q := (2 ^ e)%Q.

(** Floor of the base-2 logarithm of a positive rational. *)
Definition ilog2 (x : Q) : Z :=
  let k := Z.log2 (Qnum x) - Z.log2 (Zpos (Qden x)) in
  if Qle_bool (pow2 k) x then k else k - 1.

(** Nearest integer, ties to the even one: Python's [round(x)]. *)
Definition round_half_even (x : Q) : Z :=
  let f := Qfloor x in
  match Qcompare (x - inject_Z f) (1 # 2) with
  | Lt => f
  | Gt => f + 1
  | Eq => if Z.even f then f else f + 1
  end.

(** Exponent of the last place of the binade of [x], clamped at the
    subnormal exponent. *)
Definition ulp_exp (x : Q) : Z := Z.max (ilog2 x - (prec - 1)) emin.

Definition rnd_pos (x : Q) : Q :=
  let e := ulp_exp x in
  (inject_Z (round_half_even (x / pow2 e)) * pow2 e)%Q.

(** The binary64 number nearest to [x], before the overflow test. *)
Definition rnd (x : Q) : Q :=
  match Qcompare x 0 with
  | Eq => 0%Q
  | Gt => Qred (rnd_pos x)
  | Lt => Qred (- rnd_pos (- x))
  end.

Definition max_float : Q := (inject_Z (2 ^ prec - 1) * pow2 (emax - prec))%Q.

Inductive t : Type :=
| Fin (q : Q)
| Inf (negative : bool)
| NaN.

(** Rounding of an exact result; overflow gives an infinity. *)
Definition of_Q (x : Q) : t :=
  let r := rnd x in
  if Qle_bool (Qabs r) max_float then Fin r
  else Inf (negb (Qle_bool 0 r)).

Definition is_neg (q : Q) : bool := negb (Qle_bool 0 q).
Definition is_zero (q : Q) : bool := Qeq_bool q 0.

Definition mul (a b : t) : t :=
  match a, b with
  | NaN, _ | _, NaN => NaN
  | Fin x, Fin y => of_Q (x * y)
  | Inf s, Fin y | Fin y, Inf s =>
      if is_zero y then NaN else Inf (xorb s (is_neg y))
  | Inf s1, Inf s2 => Inf (xorb s1 s2)
  end.

Definition add (a b : t) : t :=
  match a, b with
  | NaN, _ | _, NaN => NaN
  | Fin x, Fin y => of_Q (x + y)
  | Inf s, Fin _ | Fin _, Inf s => Inf s
  | Inf s1, Inf s2 => if Bool.eqb s1 s2 then Inf s1 else NaN
  end.

(** [a < b]; every comparison with a NaN is false. *)
Definition ltb (a b : t) : bool :=
  match a, b with
  | NaN, _ | _, NaN => false
  | Fin x, Fin y => negb (Qle_bool y x)
  | Fin _, Inf s => negb s
  | Inf s, Fin _ => s
  | Inf s1, Inf s2 => s1 && negb s2
  end.

(** [min(a, b)]: the first argument unless the second is smaller. *)
Definition min (a b : t) : t := if ltb b a then b else a.

(** [n / d] on two [int]s: the correctly rounded quotient. *)
Definition int_truediv (n d : Z) : res t :=
  if d =? 0 then Raise ZeroDivisionError
  else
    match of_Q (inject_Z n / inject_Z d) with
    | Fin r => Ok (Fin r)
    | _ => Raise OverflowError
    end.

(** [round(x)]: to an [int]. *)
Definition round (x : t) : res Z :=
  match x with
  | Fin q => Ok (round_half_even q)
  | Inf _ => Raise OverflowError
  | NaN => Raise ValueError
  end.

(** [round(x, 1)]: the float nearest to the one-decimal rounding of the
    exact value of [x]. *)
Definition round1 (x : t) : res t :=
  match x with
  | Fin q =>
      match of_Q (inject_Z (round_half_even (q * 10)) / 10) with
      | Fin r => Ok (Fin r)
      | _ => Raise OverflowError
      end
  | _ => Ok x
  end.

(** The literals of the source. *)
Definition c100 : t := Fin 100.
Definition c5 : t := Fin 5.
Definition c0 : t := Fin 0.
Definition c0_7 : t := of_Q (7 # 10).
Definition c0_3 : t := of_Q (3 # 10).

(** [lo <= x <= hi] for a finite [x]. *)
Definition between (lo hi : Q) (x : t) : Prop :=
  match x with
  | Fin q => (lo <= q /\ q <= hi)%Q
  | _ => False
  end.

End Float.

(** ** Datetimes *)

Module Datetime.

Definition us_per_second : Z := 1000000.
Definition us_per_day : Z := 86400 * us_per_second.

(** [date.max.toordinal()]. *)
Definition max_ordinal : Z := 3652059.

(** First instant after [datetime.max]. *)
Definition end_us : Z := max_ordinal * us_per_day.

Definition in_range (t : Z) : bool := (0 <=? t) && (t <? end_us).

(** A [datetime] as [fromisoformat] builds it: the wall-clock reading in
    microseconds since 0001-01-01T00:00:00, and the UTC offset of its
    [tzinfo] in microseconds ([None] for a naive value). *)
Record t : Type := mk { wall : Z; utcoffset : option Z }.

(** [timedelta(days=n)]. *)
Definition timedelta_days (n : Z) : Z := n * us_per_day.

(** [dt - delta]; a result outside [datetime.min .. datetime.max] raises. *)
Definition sub (t delta : Z) : res Z :=
  let r := t - delta in
  if in_range r then Ok r else Raise OverflowError.

(** [dt.weekday()]: Monday is 0; 0001-01-01 is a Monday. *)
Definition weekday (t : Z) : Z := (t / us_per_day) mod 7.

(** Proleptic Gregorian calendar. *)
Definition is_leap (y : Z) : bool :=
  ((y mod 4 =? 0) && negb (y mod 100 =? 0)) || (y mod 400 =? 0).

Definition days_in_month (y m : Z) : Z :=
  if m =? 2 then (if is_leap y then 29 else 28)
  else if (m =? 4) || (m =? 6) || (m =? 9) || (m =? 11) then 30
  else 31.

Definition days_before_year (y : Z) : Z :=
  let p := y - 1 in p * 365 + p / 4 - p / 100 + p / 400.

Fixpoint days_before_month (y : Z) (m : nat) : Z :=
  match m with
  | O => 0
  | S k => days_before_month y k + days_in_month y (Z.of_nat (S k))
  end.

(** Days from 0001-01-01 to the given date. *)
Definition days_from_civil (y m d : Z) : Z :=
  days_before_year y + days_before_month y (Z.to_nat (m - 1)) + (d - 1).

Definition valid_date (y m d : Z) : bool :=
  (1 <=? y) && (y <=? 9999) && (1 <=? m) && (m <=? 12)
  && (1 <=? d) && (d <=? days_in_month y m).

Definition valid_time (h mi s us : Z) : bool :=
  (h <? 24) && (mi <? 60) && (s <? 60) && (us <? us_per_second).

Definition of_fields (y m d h mi s us : Z) : Z :=
  days_from_civil y m d * us_per_day
  + ((h * 60 + mi) * 60 + s) * us_per_second + us.

End Datetime.

(** ** [datetime.fromisoformat]: the format written by [isoformat()]

    The documented domain of the library parser,
    [YYYY-MM-DD[*HH[:MM[:SS[.fff[fff]]]][+HH:MM[:SS[.ffffff]]]]], where [*] is
    any single character.  Later interpreters also read other ISO 8601
    spellings; such strings are rejected here.  The aggregator below takes the
    parser as a parameter, this one is the instance used for evaluation. *)

Module Iso.

Definition digit (c : ascii) : option Z :=
  let n := Z.of_N (N_of_ascii c) in
  if (48 <=? n) && (n <=? 57) then Some (n - 48) else None.

(** Exactly [n] decimal digits. *)
Fixpoint digits (n : nat) (acc : Z) (s : string) : option (Z * string) :=
  match n with
  | O => Some (acc, s)
  | S k =>
      match s with
      | String c s' => d ← digit c; digits k (acc * 10 + d) s'
      | EmptyString => None
      end
  end.

Definition expect (c : ascii) (s : string) : option string :=
  match s with
  | String c' s' => if Ascii.eqb c c' then Some s' else None
  | EmptyString => None
  end.

Definition all_of (p : option (Z * string)) : option Z :=
  match p with
  | Some (n, EmptyString) => Some n
  | _ => None
  end.

(** [.fff] or [.ffffff], to the end of the string, in microseconds. *)
Definition fraction (s : string) : option Z :=
  match String.length s with
  | 3%nat => n ← all_of (digits 3 0 s); Some (n * 1000)
  | 6%nat => all_of (digits 6 0 s)
  | _ => None
  end.

(** [HH[:MM[:SS[.fff[fff]]]]], to the end of the string. *)
Definition hh_mm_ss_ff (s : string) : option (Z * Z * Z * Z) :=
  '(h, s1) ← digits 2 0 s;
  match s1 with
  | EmptyString => Some (h, 0, 0, 0)
  | String c1 s2 =>
      if negb (Ascii.eqb c1 ":") then None else
      '(mi, s3) ← digits 2 0 s2;
      match s3 with
      | EmptyString => Some (h, mi, 0, 0)
      | String c2 s4 =>
          if negb (Ascii.eqb c2 ":") then None else
          '(sec, s5) ← digits 2 0 s4;
          match s5 with
          | EmptyString => Some (h, mi, sec, 0)
          | String c3 s6 =>
              if negb (Ascii.eqb c3 ".") then None else
              us ← fraction s6; Some (h, mi, sec, us)
          end
      end
  end.

(** Split a time string at its first [+] or [-]. *)
Fixpoint split_sign (s : string) : string * option (bool * string) :=
  match s with
  | EmptyString => (EmptyString, None)
  | String c s' =>
      if Ascii.eqb c "+" then (EmptyString, Some (false, s'))
      else if Ascii.eqb c "-" then (EmptyString, Some (true, s'))
      else let '(t, z) := split_sign s' in (String c t, z)
  end.

(** The offset after the sign, in microseconds east of UTC.  An offset of
    zero whole seconds is read as UTC whatever its fraction; otherwise
    [timezone] wants it strictly inside one day. *)
Definition offset (negative : bool) (s : string) : option Z :=
  let n := String.length s in
  if negb (Nat.eqb n 5 || Nat.eqb n 8 || Nat.eqb n 15) then None else
  '(h, mi, sec, us) ← hh_mm_ss_ff s;
  let seconds := (h * 60 + mi) * 60 + sec in
  if seconds =? 0 then Some 0 else
  let o := seconds * Datetime.us_per_second + us in
  if o <? Datetime.us_per_day then Some (if negative then - o else o)
  else None.

Definition parse (s : string) : option Datetime.t :=
  '(y, s1) ← digits 4 0 s;
  s2 ← expect "-" s1;
  '(m, s3) ← digits 2 0 s2;
  s4 ← expect "-" s3;
  '(d, s5) ← digits 2 0 s4;
  if negb (Datetime.valid_date y m d) then None else
  match s5 with
  | EmptyString => Some (Datetime.mk (Datetime.of_fields y m d 0 0 0 0) None)
  | String _ ts =>
      let '(tpart, tz) := split_sign ts in
      '(h, mi, sec, us) ← hh_mm_ss_ff tpart;
      if negb (Datetime.valid_time h mi sec us) then None else
      let w := Datetime.of_fields y m d h mi sec us in
      match tz with
      | None => Some (Datetime.mk w None)
      | Some (negative, zs) => o ← offset negative zs; Some (Datetime.mk w (Some o))
      end
  end.

(** A string outside the format raises [ValueError]. *)
Definition fromisoformat (s : string) : res Datetime.t :=
  match parse s with
  | Some d => Ok d
  | None => Raise ValueError
  end.

(** A host whose local zone is UTC.  The lookup of the zone of a naive
    reading in the first day of the calendar fails with [ValueError] (the
    library steps one day back first, into year 0). *)
Definition utc_host (wall : Z) : res Z :=
  if wall <? Datetime.us_per_day then Raise ValueError else Ok 0.

End Iso.

(** ** The statistics block of [dashboard] *)

Record activity : Type := { description : string; timestamp : Z }.

(** The local variables of [dashboard] once the statistics are computed. *)
Record locals : Type := {
  tasks_completed : list (gmap string value);
  tasks_completed_count : Z;
  active_tasks_count : Z;
  total_tasks : Z;
  start_of_this_week : Z;
  start_of_last_week : Z;
  tasks_this_week_count : Z;
  tasks_last_week_count : Z;
  task_percentage_change : Z;
  total_focus_minutes : Z;
  focus_this_week_min : Z;
  focus_last_week_min : Z;
  total_focus_hours : Float.t;
  focus_percentage_change : Z;
  task_score : Float.t;
  focus_score : Float.t;
  productivity_score : Z;
  recent_activities : list activity
}.

(** [recent_activities[:10]], the feed handed to the template. *)
Definition feed (l : locals) : list activity := firstn 10 (recent_activities l).

Definition dquote : string := String (ascii_of_nat 34) EmptyString.

(** [list.sort(key=lambda x: x['timestamp'], reverse=True)]: the sort is
    stable, records with equal timestamps keep their order. *)
Fixpoint insert_desc (a : activity) (l : list activity) : list activity :=
  match l with
  | [] => [a]
  | b :: l' =>
      if timestamp b <=? timestamp a then a :: l else b :: insert_desc a l'
  end.

Definition sort_desc (l : list activity) : list activity :=
  foldr insert_desc [] l.

(** Lines 260-264 and 292-296: the week-over-week change. *)
Definition percentage_change (this_week last_week : Z) : res Z :=
  if 0 <? last_week then
    q ← Float.int_truediv (this_week - last_week) last_week;
    Float.round (Float.mul q Float.c100)
  else if 0 <? this_week then Ok 100
  else Ok 0.

Section Aggregator.

(** [datetime.fromisoformat], and the UTC offset the host gives a naive
    wall-clock reading (either may raise). *)
Context (fromisoformat : string -> res Datetime.t).
Context (local_utcoffset : Z -> res Z).

(** [dt.astimezone(timezone.utc)]: the identity on a value already in UTC,
    else the wall clock minus the offset, which must stay in range. *)
Definition astimezone_utc (d : Datetime.t) : res Z :=
  match Datetime.utcoffset d with
  | Some off =>
      if off =? 0 then Ok (Datetime.wall d)
      else Datetime.sub (Datetime.wall d) off
  | None =>
      off ← local_utcoffset (Datetime.wall d);
      Datetime.sub (Datetime.wall d) off
  end.

(** Lines 208-214. *)
Definition parse_timestamp (ts_str : value) : res (option Z) :=
  if negb (truthy ts_str) then Ok None
  else
    match ts_str with
    | VStr s =>
        match
          d ← fromisoformat (replace_char "Z" "+00:00" s); astimezone_utc d
        with
        | Ok t => Ok (Some t)
        | Raise ValueError | Raise TypeError => Ok None
        | Raise e => Raise e
        end
    | _ => Raise AttributeError
    end.

Definition is_complete (task : gmap string value) : bool :=
  truthy (get task "is_complete").

(** Lines 252-258: the body of the loop over the completed tasks. *)
Definition count_task (start_of_this_week start_of_last_week : Z)
    (counts : Z * Z) (task : gmap string value) : res (Z * Z) :=
  let '(tasks_this_week_count, tasks_last_week_count) := counts in
  completed_at ← parse_timestamp (get task "completed_at");
  match completed_at with
  | Some t =>
      if start_of_this_week <=? t then
        Ok (tasks_this_week_count + 1, tasks_last_week_count)
      else if (start_of_last_week <=? t) && (t <? start_of_this_week) then
        Ok (tasks_this_week_count, tasks_last_week_count + 1)
      else Ok counts
  | None => Ok counts
  end.

(** Lines 278-288: the body of the loop over the focus sessions. *)
Definition add_session (start_of_this_week start_of_last_week : Z)
    (sums : Z * Z * Z) (focus_session : gmap string value) : res (Z * Z * Z) :=
  let '(total_focus_minutes, focus_this_week_min, focus_last_week_min) :=
    sums in
  let duration := get_default focus_session "duration_minutes" (VInt 0) in
  total_focus_minutes ← int_add total_focus_minutes duration;
  created_at ← parse_timestamp (get focus_session "created_at");
  match created_at with
  | Some t =>
      if start_of_this_week <=? t then
        focus_this_week_min ← int_add focus_this_week_min duration;
        Ok (total_focus_minutes, focus_this_week_min, focus_last_week_min)
      else if (start_of_last_week <=? t) && (t <? start_of_this_week) then
        focus_last_week_min ← int_add focus_last_week_min duration;
        Ok (total_focus_minutes, focus_this_week_min, focus_last_week_min)
      else Ok (total_focus_minutes, focus_this_week_min, focus_last_week_min)
  | None => Ok (total_focus_minutes, focus_this_week_min, focus_last_week_min)
  end.

(** Lines 314-320: the body of the loop building the activity list. *)
Definition add_activity (acc : list activity) (task : gmap string value)
  : res (list activity) :=
  completed_at ← parse_timestamp (get task "completed_at");
  match completed_at with
  | Some t =>
      title ← getitem task "title";
      Ok (acc ++ [ {| description :=
                        String.append "You completed task "
                          (String.append dquote
                             (String.append (str title) dquote));
                      timestamp := t |} ])
  | None => Ok acc
  end.

(** Lines 240-321, with [today] the reading of [datetime.now(timezone.utc)]
    and the two row lists as fetched from the store. *)
Definition dashboard (today : Z) (tasks focus_sessions : list (gmap string value))
  : res locals :=
  let tasks_completed := List.filter is_complete tasks in
  let tasks_completed_count := Z.of_nat (length tasks_completed) in
  let active_tasks_count := Z.of_nat (length tasks) - tasks_completed_count in
  let total_tasks := Z.of_nat (length tasks) in
  start_of_this_week ←
    Datetime.sub today (Datetime.timedelta_days (Datetime.weekday today));
  start_of_last_week ←
    Datetime.sub start_of_this_week (Datetime.timedelta_days 7);
  '(tasks_this_week_count, tasks_last_week_count) ←
    for_each (count_task start_of_this_week start_of_last_week)
      tasks_completed (0, 0);
  task_percentage_change ←
    percentage_change tasks_this_week_count tasks_last_week_count;
  '(total_focus_minutes, focus_this_week_min, focus_last_week_min) ←
    for_each (add_session start_of_this_week start_of_last_week)
      focus_sessions (0, 0, 0);
  total_focus_hours ←
    (q ← Float.int_truediv total_focus_minutes 60; Float.round1 q);
  focus_percentage_change ←
    percentage_change focus_this_week_min focus_last_week_min;
  task_score ←
    (if 0 <? total_tasks then
       q ← Float.int_truediv tasks_completed_count total_tasks;
       Ok (Float.mul q Float.c100)
     else Ok Float.c0);
  let focus_score :=
    Float.min (Float.mul total_focus_hours Float.c5) Float.c100 in
  productivity_score ←
    Float.round
      (Float.add (Float.mul task_score Float.c0_7)
                 (Float.mul focus_score Float.c0_3));
  recent_activities ← for_each add_activity tasks_completed [];
  Ok {| tasks_completed := tasks_completed;
        tasks_completed_count := tasks_completed_count;
        active_tasks_count := active_tasks_count;
        total_tasks := total_tasks;
        start_of_this_week := start_of_this_week;
        start_of_last_week := start_of_last_week;
        tasks_this_week_count := tasks_this_week_count;
        tasks_last_week_count := tasks_last_week_count;
        task_percentage_change := task_percentage_change;
        total_focus_minutes := total_focus_minutes;
        focus_this_week_min := focus_this_week_min;
        focus_last_week_min := focus_last_week_min;
        total_focus_hours := total_focus_hours;
        focus_percentage_change := focus_percentage_change;
        task_score := task_score;
        focus_score := focus_score;
        productivity_score := productivity_score;
        recent_activities := sort_desc recent_activities |}.

(** *** The quantities of the specification (section 4.1)

    These follow the wording of the specification; the theorems relate
    them to what [dashboard] computes. *)

(** The timestamp of a field when it parses, else nothing. *)
Definition parsed (v : value) : option Z :=
  match parse_timestamp v with
  | Ok (Some t) => Some t
  | _ => None
  end.

(** Completion instants of the completed tasks that carry a parseable one. *)
Definition completion_times (tasks : list (gmap string value)) : list Z :=
  omap (fun task => parsed (get task "completed_at")) tasks.

(** The duration a session contributes, 0 when the key is absent. *)
Definition duration_minutes (focus_session : gmap string value) : Z :=
  match get_default focus_session "duration_minutes" (VInt 0) with
  | VInt n => n
  | VBool b => if b then 1 else 0
  | _ => 0
  end.

(** Sum of the durations of the sessions whose creation instant parses and
    satisfies [p]. *)
Definition minutes_where (p : Z -> bool) (focus_sessions : list (gmap string value))
  : Z :=
  foldr Z.add 0
    (map (fun s =>
            match parsed (get s "created_at") with
            | Some t => if p t then duration_minutes s else 0
            | None => 0
            end) focus_sessions).

Definition activity_of (task : gmap string value) : option activity :=
  t ← parsed (get task "completed_at");
  title ← task !! "title";
  Some {| description :=
            String.append "You completed task "
              (String.append dquote (String.append (str title) dquote));
          timestamp := t |}.

(** *** Well-formed inputs *)

(** A completed task does not stop the aggregation: its completion
    timestamp parses or is dropped, and it has a title when it is listed. *)
Definition task_ok (task : gmap string value) : bool :=
  match parse_timestamp (get task "completed_at") with
  | Ok (Some _) =>
      match task !! "title" with
      | Some _ => true
      | None => false
      end
  | Ok None => true
  | Raise _ => false
  end.

(** The largest integer of a 64-bit store column and the largest length
    of a list ([sys.maxsize]). *)
Definition max_int64 : Z := 2 ^ 63 - 1.

(** A session with an absent or non-negative integer duration whose
    creation timestamp parses or is dropped. *)
Definition session_ok (focus_session : gmap string value) : bool :=
  match get_default focus_session "duration_minutes" (VInt 0) with
  | VInt n => (0 <=? n) && (n <=? max_int64)
  | VBool _ => true
  | _ => false
  end
  && is_ok (parse_timestamp (get focus_session "created_at")).

(** [today] is a [datetime] at least a week after [datetime.min]: the two
    subtractions of lines 246-247 stay in range. *)
Definition now_ok (today : Z) : bool :=
  (7 * Datetime.us_per_day <=? today) && (today <? Datetime.end_us).

Definition inputs_ok (today : Z) (tasks focus_sessions : list (gmap string value))
  : bool :=
  now_ok today
  && forallb task_ok (List.filter is_complete tasks)
  && forallb session_ok focus_sessions
  && (Z.of_nat (length tasks) <=? max_int64)
  && (Z.of_nat (length focus_sessions) <=? max_int64).

(** The rows on which the aggregator completes, durations of either sign
    included: a session whose duration is absent, a boolean or an integer of
    a 64-bit column and whose creation timestamp does not make
    [parse_timestamp] raise. *)
Definition session_fine (focus_session : gmap string value) : bool :=
  match get_default focus_session "duration_minutes" (VInt 0) with
  | VInt n => (- max_int64 - 1 <=? n) && (n <=? max_int64)
  | VBool _ => true
  | _ => false
  end
  && is_ok (parse_timestamp (get focus_session "created_at")).

Definition records_ok (today : Z) (tasks focus_sessions : list (gmap string value))
  : bool :=
  now_ok today
  && forallb task_ok (List.filter is_complete tasks)
  && forallb session_fine focus_sessions
  && (Z.of_nat (length tasks) <=? max_int64)
  && (Z.of_nat (length focus_sessions) <=? max_int64).

(** What a completed run of [dashboard] has computed, step by step. *)
Definition computed (today : Z) (tasks focus_sessions : list (gmap string value))
    (l : locals) : Prop :=
  tasks_completed l = List.filter is_complete tasks
  /\ tasks_completed_count l = Z.of_nat (length (tasks_completed l))
  /\ active_tasks_count l = Z.of_nat (length tasks) - tasks_completed_count l
  /\ total_tasks l = Z.of_nat (length tasks)
  /\ Datetime.sub today (Datetime.timedelta_days (Datetime.weekday today))
     = Ok (start_of_this_week l)
  /\ Datetime.sub (start_of_this_week l) (Datetime.timedelta_days 7)
     = Ok (start_of_last_week l)
  /\ for_each (count_task (start_of_this_week l) (start_of_last_week l))
       (tasks_completed l) (0, 0)
     = Ok (tasks_this_week_count l, tasks_last_week_count l)
  /\ percentage_change (tasks_this_week_count l) (tasks_last_week_count l)
     = Ok (task_percentage_change l)
  /\ for_each (add_session (start_of_this_week l) (start_of_last_week l))
       focus_sessions (0, 0, 0)
     = Ok (total_focus_minutes l, focus_this_week_min l, focus_last_week_min l)
  /\ (q ← Float.int_truediv (total_focus_minutes l) 60; Float.round1 q)
     = Ok (total_focus_hours l)
  /\ percentage_change (focus_this_week_min l) (focus_last_week_min l)
     = Ok (focus_percentage_change l)
  /\ (if 0 <? total_tasks l then
        q ← Float.int_truediv (tasks_completed_count l) (total_tasks l);
        Ok (Float.mul q Float.c100)
      else Ok Float.c0) = Ok (task_score l)
  /\ focus_score l
     = Float.min (Float.mul (total_focus_hours l) Float.c5) Float.c100
  /\ Float.round
       (Float.add (Float.mul (task_score l) Float.c0_7)
                  (Float.mul (focus_score l) Float.c0_3))
     = Ok (productivity_score l)
  /\ exists acts,
       for_each add_activity (tasks_completed l) [] = Ok acts
       /\ recent_activities l = sort_desc acts.

End Aggregator.

(** The change as the specification words it: the rounded relative change
    when last week is positive, 100 when last week is zero and this week is
    positive, 0 otherwise. *)
Definition spec_percentage_change (this_week last_week : Z) : res Z :=
  if last_week >? 0 then
    q ← Float.int_truediv (this_week - last_week) last_week;
    Float.round (Float.mul q Float.c100)
  else if (last_week =? 0) && (this_week >? 0) then Ok 100
  else Ok 0.

(** The change with the middle case widened to what the code does: 100
    when last week is zero or negative and this week is positive. *)
Definition amended_percentage_change (this_week last_week : Z) : res Z :=
  if last_week >? 0 then
    q ← Float.int_truediv (this_week - last_week) last_week;
    Float.round (Float.mul q Float.c100)
  else if (last_week <=? 0) && (this_week >? 0) then Ok 100
  else Ok 0.

(** The focus score as the specification words it: the smaller of
    [total_focus_hours * 5] and 100 in the order of the extended reals, a
    product that overflowed being an infinity. *)
Definition spec_focus_score (total_focus_hours : Float.t) : Float.t :=
  match Float.mul total_focus_hours Float.c5 with
  | Float.Fin x => Float.Fin (if Qle_bool x 100 then x else 100)
  | Float.Inf true => Float.Inf true
  | Float.Inf false => Float.Fin 100
  | Float.NaN => Float.NaN
  end.

(** Week windows as the specification words them. *)
Definition in_this_week (start_of_this_week t : Z) : bool :=
  start_of_this_week <=? t.

Definition in_last_week (start_of_this_week start_of_last_week t : Z) : bool :=
  (start_of_last_week <=? t) && (t <? start_of_this_week).

Definition count (p : Z -> bool) (l : list Z) : Z :=
  Z.of_nat (length (List.filter p l)).

(** Non-increasing and strictly decreasing timestamps. *)
Definition descending (l : list activity) : Prop :=
  StronglySorted (fun a b => timestamp b <= timestamp a) l.

Definition strictly_descending (l : list activity) : Prop :=
  StronglySorted (fun a b => timestamp b < timestamp a) l.

(** ** Sample rows *)

Module Sample.

(** Thursday 2024-01-04T12:00:00Z. *)
Definition today : Z := Datetime.of_fields 2024 1 4 12 0 0 0.

Definition task_a : gmap string value :=
  {[ "is_complete" := VBool true;
     "completed_at" := VStr "2024-01-03T10:00:00Z";
     "title" := VStr "write report" ]}.

Definition task_b : gmap string value :=
  {[ "is_complete" := VBool true;
     "completed_at" := VStr "2023-12-27T10:00:00+00:00";
     "title" := VStr "book room" ]}.

Definition task_c : gmap string value :=
  {[ "is_complete" := VBool false; "title" := VStr "call back" ]}.

(** Completed, with a timestamp that does not parse. *)
Definition task_d : gmap string value :=
  {[ "is_complete" := VBool true;
     "completed_at" := VStr "yesterday";
     "title" := VStr "tidy desk" ]}.

(** Completed at the same instant as [task_a]. *)
Definition task_e : gmap string value :=
  {[ "is_complete" := VBool true;
     "completed_at" := VStr "2024-01-03T10:00:00+00:00";
     "title" := VStr "send invoice" ]}.

(** Completed in the future. *)
Definition task_f : gmap string value :=
  {[ "is_complete" := VBool true;
     "completed_at" := VStr "2031-05-06T07:08:09+00:00";
     "title" := VStr "renew passport" ]}.

Definition session_a : gmap string value :=
  {[ "duration_minutes" := VInt 1200;
     "created_at" := VStr "2024-01-03T10:00:00.123456+00:00" ]}.

(** No duration, no parseable timestamp. *)
Definition session_b : gmap string value :=
  {[ "created_at" := VStr "garbage" ]}.

Definition session_c : gmap string value :=
  {[ "duration_minutes" := VInt 25;
     "created_at" := VStr "2023-12-28T08:30:00+00:00" ]}.

(** A null duration. *)
Definition session_null : gmap string value :=
  {[ "duration_minutes" := VNone;
     "created_at" := VStr "2024-01-03T10:00:00+00:00" ]}.

(** A session created in the future. *)
Definition session_f : gmap string value :=
  {[ "duration_minutes" := VInt 40;
     "created_at" := VStr "2031-05-06T07:08:09+00:00" ]}.

Definition tasks : list (gmap string value) :=
  [task_a; task_b; task_c; task_d].

Definition focus_sessions : list (gmap string value) :=
  [session_a; session_b; session_c].

(** Midnight of the first day of year 1, one hour east of UTC: an instant
    before [datetime.min] once converted to UTC. *)
Definition early : string := "0001-01-01T00:00:00+01:00".

Definition task_early : gmap string value :=
  {[ "is_complete" := VBool true;
     "completed_at" := VStr early;
     "title" := VStr "found the city" ]}.

(** Completed, with a parseable timestamp and no title. *)
Definition task_untitled : gmap string value :=
  {[ "is_complete" := VBool true;
     "completed_at" := VStr "2024-01-03T10:00:00Z" ]}.

Definition run := dashboard Iso.fromisoformat Iso.utc_host.

(** A correction entered as a session of negative duration, last week. *)
Definition session_refund : gmap string value :=
  {[ "duration_minutes" := VInt (-30);
     "created_at" := VStr "2023-12-28T09:00:00+00:00" ]}.

(** Ten minutes, this week. *)
Definition session_short : gmap string value :=
  {[ "duration_minutes" := VInt 10;
     "created_at" := VStr "2024-01-03T11:00:00+00:00" ]}.

(** A naive timestamp in the first day of the calendar. *)
Definition task_naive : gmap string value :=
  {[ "is_complete" := VBool true;
     "completed_at" := VStr "0001-01-01T12:00:00";
     "title" := VStr "lay the first stone" ]}.

End Sample.

(** ** Order on the floats *)

(** [a <= b] on finite floats. *)
Definition float_le (a b : Float.t) : Prop :=
  match a, b with
  | Float.Fin x, Float.Fin y => (x <= y)%Q
  | _, _ => False
  end.

(** ** [datetime.isoformat]: the text of an aware UTC datetime

    Library code, modelled from its documentation: the calendar fields of
    an instant and the text [isoformat()] writes for an aware UTC datetime,
    [YYYY-MM-DDTHH:MM:SS[.ffffff]+00:00], the fraction being left out when
    the microseconds are zero.  The application calls it on
    [datetime.now(timezone.utc)] in [complete_task] (line 519),
    [update_event] (line 447) and [handle_profile] (line 110). *)

Module Isoformat.

(** The year holding day [n] (day 0 is 0001-01-01): the last year that
    starts on or before [n], searched downwards from [y]. *)
Fixpoint year_from (fuel : nat) (y n : Z) : Z :=
  match fuel with
  | O => y
  | S k =>
      if Datetime.days_before_year y <=? n then y else year_from k (y - 1) n
  end.

(** [n / 365 + 1] is the year of day [n] or one of the seven after it, the
    leap days of 9999 years being fewer than seven years. *)
Definition year_of (n : Z) : Z := year_from 8 (n / 365 + 1) n.

(** The month holding day [r] of year [y]: the last month that starts on or
    before [r], searched downwards from [m]. *)
Fixpoint month_from (fuel : nat) (y m r : Z) : Z :=
  match fuel with
  | O => m
  | S k =>
      if Datetime.days_before_month y (Z.to_nat (m - 1)) <=? r then m
      else month_from k y (m - 1) r
  end.

(** Year, month and day of day number [n]. *)
Definition civil_from_days (n : Z) : Z * Z * Z :=
  let y := year_of n in
  let r := n - Datetime.days_before_year y in
  let m := month_from 11 y 12 r in
  (y, m, r - Datetime.days_before_month y (Z.to_nat (m - 1)) + 1).

(** The character of the last decimal digit of [k]. *)
(** The character of the last decimal digit of [k]. *)
Definition digit_char (k : Z) : ascii := ascii_of_N (Z.to_N (48 + k mod 10)).

(** [v] in [n] decimal digits, zero padded: [%0nd] for [0 <= v < 10^n]. *)
Fixpoint pad (n : nat) (v : Z) : string :=
  match n with
  | O => EmptyString
  | S k =>
      String (digit_char (v / 10 ^ Z.of_nat k)) (pad k (v mod 10 ^ Z.of_nat k))
  end.

(** The text of an aware UTC datetime with the given fields:
    [YYYY-MM-DDTHH:MM:SS+00:00], with [.ffffff] after the seconds when the
    microseconds are not zero. *)
Definition write (y m d h mi s us : Z) : string :=
  String.append (pad 4 y)
    (String "-" (String.append (pad 2 m)
    (String "-" (String.append (pad 2 d)
    (String "T" (String.append (pad 2 h)
    (String ":" (String.append (pad 2 mi)
    (String ":" (String.append (pad 2 s)
    (String.append
       (if us =? 0 then EmptyString else String "." (pad 6 us))
       "+00:00"))))))))))).

(** [dt.isoformat()] for the aware UTC datetime at instant [t]. *)
Definition isoformat (t : Z) : string :=
  let '(y, m, d) := civil_from_days (t / Datetime.us_per_day) in
  let rem := t mod Datetime.us_per_day in
  let secs := rem / Datetime.us_per_second in
  write y m d (secs / 3600) (secs / 60 mod 60) (secs mod 60)
    (rem mod Datetime.us_per_second).

End Isoformat.

(** ** The handlers that write the rows

    Each handler is modelled up to the row it hands to the store; [None]
    stands for the 400 answer given without touching the store.  [data] is
    the decoded JSON object of the request body, an absent body being the
    empty object (both are false for [not data]), and [user_id] is the
    value of [session['user']['id']]. *)

(** Lines 476-489 of [add_task]. *)
Definition add_task_row (data : gmap string value) (user_id : value)
  : option (gmap string value) :=
  if bool_decide (data = ∅) || negb (bool_decide (is_Some (data !! "title")))
  then None
  else
    title ← data !! "title";
    let priority := get_default data "priority" (VStr "Medium") in
    Some {[ "title" := title;
            "user_id" := user_id;
            "is_complete" := VBool false;
            "priority" := priority ]}.

(** Lines 517-520 of [complete_task]: the columns written at instant [now],
    the reading of [datetime.now(timezone.utc)]. *)
Definition complete_task_update (now : Z) : gmap string value :=
  {[ "is_complete" := VBool true;
     "completed_at" := VStr (Isoformat.isoformat now) ]}.

(** Lines 559-571 of [add_focus_session]. *)
Definition add_focus_session_row (data : gmap string value) (user_id : value)
  : option (gmap string value) :=
  if bool_decide (data = ∅)
     || negb (bool_decide (is_Some (data !! "duration_minutes")))
  then None
  else
    duration ← data !! "duration_minutes";
    let focus_data : gmap string value :=
      {[ "user_id" := user_id; "duration_minutes" := duration ]} in
    let focus_data :=
      if truthy (get data "task_id")
      then <["task_id" := get data "task_id"]> focus_data else focus_data in
    let focus_data :=
      if truthy (get data "project_id")
      then <["project_id" := get data "project_id"]> focus_data
      else focus_data in
    Some focus_data.

(** The store's [update] on the row it selects: the given columns replace
    the row's, the other columns stay. *)
Definition update_row (fields row : gmap string value) : gmap string value :=
  fields ∪ row.

(** ** The figures of the focus page

    Lines 352-370 of [focus].  The two arguments are the outcomes of the two
    store queries, [select("is_complete")] on the tasks and
    [select("duration_minutes")] on the sessions; the block catches every
    exception and the variables keep what was assigned before it. *)

(** [sum(...)] over integers, from 0. *)
Definition sum_Z (l : list Z) : Z := fold_left Z.add l 0.

(** [sum(sess.get('duration_minutes', 0) for sess in data)]. *)
Definition sum_durations (data : list (gmap string value)) : res Z :=
  for_each
    (fun acc sess => int_add acc (get_default sess "duration_minutes" (VInt 0)))
    data 0.

(** A list is true when it is not empty. *)
Definition nonempty {A} (l : list A) : bool :=
  match l with
  | [] => false
  | _ :: _ => true
  end.

Definition focus_stats
    (task_response focus_response : res (list (gmap string value)))
  : Z * Z * Z :=
  let tasks_completed_count := 0 in
  let sessions_completed_count := 0 in
  let total_focus_minutes := 0 in
  match task_response with
  | Raise _ =>
      (tasks_completed_count, sessions_completed_count, total_focus_minutes)
  | Ok task_data =>
      let tasks_completed_count :=
        if nonempty task_data
        then sum_Z (map (fun _ => 1) (List.filter is_complete task_data))
        else tasks_completed_count in
      match focus_response with
      | Raise _ =>
          (tasks_completed_count, sessions_completed_count,
           total_focus_minutes)
      | Ok focus_data =>
          if nonempty focus_data then
            let sessions_completed_count := Z.of_nat (length focus_data) in
            match sum_durations focus_data with
            | Ok total_focus_minutes =>
                (tasks_completed_count, sessions_completed_count,
                 total_focus_minutes)
            | Raise _ =>
                (tasks_completed_count, sessions_completed_count,
                 total_focus_minutes)
            end
          else
            (tasks_completed_count, sessions_completed_count,
             total_focus_minutes)
      end
  end.

(** [select(columns)]: the rows of the answer carry those columns only. *)
Definition select (columns : list string) (row : gmap string value)
  : gmap string value :=
  filter (fun kv => kv.1 ∈ columns) row.

(** ** Locals up to the rows kept *)

(** The locals with another list of completed rows. *)
Definition with_tasks_completed (rows : list (gmap string value)) (l : locals)
  : locals :=
  {| tasks_completed := rows;
     tasks_completed_count := tasks_completed_count l;
     active_tasks_count := active_tasks_count l;
     total_tasks := total_tasks l;
     start_of_this_week := start_of_this_week l;
     start_of_last_week := start_of_last_week l;
     tasks_this_week_count := tasks_this_week_count l;
     tasks_last_week_count := tasks_last_week_count l;
     task_percentage_change := task_percentage_change l;
     total_focus_minutes := total_focus_minutes l;
     focus_this_week_min := focus_this_week_min l;
     focus_last_week_min := focus_last_week_min l;
     total_focus_hours := total_focus_hours l;
     focus_percentage_change := focus_percentage_change l;
     task_score := task_score l;
     focus_score := focus_score l;
     productivity_score := productivity_score l;
     recent_activities := recent_activities l |}.

(** ** Proof automation for the error monad *)

Ltac step_bind H :=
  match type of H with
  | mbind _ ?m = Ok _ =>
      let E := fresh "E" in
      destruct m eqn:E;
      [ cbn [mbind res_bind Py.bind] in H
      | cbn [mbind res_bind Py.bind] in H; discriminate H ]
  end.

Ltac tuple_eq :=
  repeat match goal with
         | |- (_, _) = (_, _) => apply pair_equal_spec; split
         end;
  lia.

Ltac step_all H :=
  repeat (step_bind H;
          repeat match goal with
                 | p : (_ * _)%type |- _ => destruct p
                 end;
          cbn [mbind res_bind Py.bind] in H).

(** * Properties

    ** Rounding to binary64 is monotone *)

Section FloatFacts.
Local Open Scope Q_scope.

Lemma pow2_pos e : 0 < Float.pow2 e.
Proof. unfold Float.pow2. apply Qpower_0_lt. reflexivity. Qed.

Lemma pow2_add a b : Float.pow2 (a + b) == Float.pow2 a * Float.pow2 b.
Proof. unfold Float.pow2. apply Qpower_plus. discriminate. Qed.

Lemma pow2_le a b : (a <= b)%Z -> Float.pow2 a <= Float.pow2 b.
Proof. intros H. unfold Float.pow2. apply Qpower_le_compat_l; [exact H | discriminate]. Qed.

Lemma pow2_lt a b : (a < b)%Z -> Float.pow2 a < Float.pow2 b.
Proof. intros H. unfold Float.pow2. apply Qpower_lt_compat_l; [exact H | reflexivity]. Qed.

Lemma pow2_lt_inv a b : Float.pow2 a < Float.pow2 b -> (a < b)%Z.
Proof. intros H. unfold Float.pow2 in H. eapply Qpower_lt_compat_l_inv; [exact H | reflexivity]. Qed.

Lemma pow2_inject n : (0 <= n)%Z -> Float.pow2 n == inject_Z (2 ^ n).
Proof. intros H. unfold Float.pow2. rewrite Zpower_Qpower by exact H. reflexivity. Qed.

Lemma pow2_sub a b : Float.pow2 (a - b) == Float.pow2 a / Float.pow2 b.
Proof.
  unfold Z.sub. rewrite pow2_add. unfold Float.pow2 at 2. rewrite Qpower_opp. reflexivity.
Qed.

Lemma ilog2_rough (p : Z) (q : positive) :
  (0 < p)%Z ->
  let k := (Z.log2 p - Z.log2 (Zpos q))%Z in
  Float.pow2 (k - 1) < p # q /\ p # q < Float.pow2 (k + 1).
Proof.
  intros Hp k.
  destruct (Z.log2_spec p Hp) as [Hp1 Hp2].
  destruct (Z.log2_spec (Zpos q) eq_refl) as [Hq1 Hq2].
  pose proof (Z.log2_nonneg p) as Ha. pose proof (Z.log2_nonneg (Zpos q)) as Hb.
  set (a := Z.log2 p) in *. set (b := Z.log2 (Zpos q)) in *.
  assert (Ea : Float.pow2 a == inject_Z (2 ^ a)) by (apply pow2_inject; lia).
  assert (Eb : Float.pow2 b == inject_Z (2 ^ b)) by (apply pow2_inject; lia).
  assert (Ea1 : Float.pow2 (a + 1) == inject_Z (2 ^ Z.succ a)) by (rewrite pow2_inject by lia; reflexivity).
  assert (Eb1 : Float.pow2 (b + 1) == inject_Z (2 ^ Z.succ b)) by (rewrite pow2_inject by lia; reflexivity).
  assert (H2a : (0 < 2 ^ a)%Z) by (apply Z.pow_pos_nonneg; lia).
  assert (H2b : (0 < 2 ^ b)%Z) by (apply Z.pow_pos_nonneg; lia).
  split.
  - replace (k - 1)%Z with (a - (b + 1))%Z by (unfold k; lia).
    rewrite pow2_sub, Ea, Eb1.
    apply Qlt_shift_div_r.
    + unfold Qlt; simpl. lia.
    + unfold Qlt, Qmult, inject_Z; simpl. nia.
  - replace (k + 1)%Z with ((a + 1) - b)%Z by (unfold k; lia).
    rewrite pow2_sub, Ea1, Eb.
    apply Qlt_shift_div_l.
    + unfold Qlt; simpl. lia.
    + unfold Qlt, Qmult, inject_Z; simpl. nia.
Qed.

Lemma ilog2_spec x : 0 < x -> Float.pow2 (Float.ilog2 x) <= x /\ x < Float.pow2 (Float.ilog2 x + 1).
Proof.
  intros Hx. destruct x as [p q].
  assert (Hp : (0 < p)%Z) by (unfold Qlt in Hx; simpl in Hx; lia).
  destruct (ilog2_rough p q Hp) as [H1 H2].
  unfold Float.ilog2. cbn [Qnum Qden].
  set (k := (Z.log2 p - Z.log2 (Zpos q))%Z) in *.
  destruct (Qle_bool (Float.pow2 k) (p # q)) eqn:E.
  - apply Qle_bool_iff in E. split; assumption.
  - split.
    + apply Qlt_le_weak. exact H1.
    + replace (k - 1 + 1)%Z with k by lia.
      apply Qnot_le_lt. intros C. apply Qle_bool_iff in C. congruence.
Qed.

Lemma ilog2_mono x y : 0 < x -> x <= y -> (Float.ilog2 x <= Float.ilog2 y)%Z.
Proof.
  intros Hx Hxy.
  assert (Hy : 0 < y) by (eapply Qlt_le_trans; eassumption).
  destruct (ilog2_spec x Hx) as [A _]. destruct (ilog2_spec y Hy) as [_ B].
  assert (C : Float.pow2 (Float.ilog2 x) < Float.pow2 (Float.ilog2 y + 1)).
  { eapply Qle_lt_trans; [exact A|]. eapply Qle_lt_trans; eassumption. }
  apply pow2_lt_inv in C. lia.
Qed.

Lemma round_half_even_bounds x :
  (Qfloor x <= Float.round_half_even x <= Qfloor x + 1)%Z.
Proof.
  unfold Float.round_half_even.
  destruct (Qcompare _ _); [destruct (Z.even _)| |]; lia.
Qed.

Lemma round_half_even_mono x y : x <= y -> (Float.round_half_even x <= Float.round_half_even y)%Z.
Proof.
  intros Hxy.
  pose proof (Qfloor_resp_le x y Hxy) as Hf.
  pose proof (round_half_even_bounds x) as Bx.
  pose proof (round_half_even_bounds y) as By.
  destruct (Z.eq_dec (Qfloor x) (Qfloor y)) as [E|NE]; [|lia].
  unfold Float.round_half_even in *. rewrite <- E in *.
  destruct (Qcompare_spec (x - inject_Z (Qfloor x)) (1 # 2)) as [Ex|Ex|Ex];
  destruct (Qcompare_spec (y - inject_Z (Qfloor x)) (1 # 2)) as [Ey|Ey|Ey];
  destruct (Z.even (Qfloor x)); try lia; exfalso; lra.
Qed.

Lemma round_half_even_Z n : Float.round_half_even (inject_Z n) = n.
Proof.
  unfold Float.round_half_even. rewrite Qfloor_Z.
  destruct (Qcompare_spec (inject_Z n - inject_Z n) (1 # 2)) as [E|E|E];
    [exfalso; lra | reflexivity | exfalso; lra].
Qed.

Lemma round_half_even_near x :
  x - (1 # 2) <= inject_Z (Float.round_half_even x) <= x + (1 # 2).
Proof.
  pose proof (Qfloor_le x) as L. pose proof (Qlt_floor x) as U.
  rewrite inject_Z_plus in U. change (inject_Z 1) with 1 in U.
  unfold Float.round_half_even.
  destruct (Qcompare_spec (x - inject_Z (Qfloor x)) (1 # 2)) as [E|E|E];
    [destruct (Z.even (Qfloor x))| |];
    rewrite ?inject_Z_plus; change (inject_Z 1) with 1; lra.
Qed.

Lemma ulp_exp_mono x y : 0 < x -> x <= y -> (Float.ulp_exp x <= Float.ulp_exp y)%Z.
Proof. intros Hx Hxy. pose proof (ilog2_mono x y Hx Hxy). unfold Float.ulp_exp. lia. Qed.

Lemma scaled_upper x : 0 < x -> x / Float.pow2 (Float.ulp_exp x) <= inject_Z (2 ^ Float.prec).
Proof.
  intros Hx. destruct (ilog2_spec x Hx) as [_ U].
  apply Qle_shift_div_r; [apply pow2_pos|].
  rewrite <- pow2_inject by (unfold Float.prec; lia). rewrite <- pow2_add.
  apply Qlt_le_weak. eapply Qlt_le_trans; [exact U|].
  apply pow2_le. unfold Float.ulp_exp, Float.prec. lia.
Qed.

Lemma scaled_lower x :
  0 < x -> (Float.emin < Float.ulp_exp x)%Z -> inject_Z (2 ^ (Float.prec - 1)) <= x / Float.pow2 (Float.ulp_exp x).
Proof.
  intros Hx He. destruct (ilog2_spec x Hx) as [L _].
  apply Qle_shift_div_l; [apply pow2_pos|].
  rewrite <- pow2_inject by (unfold Float.prec; lia). rewrite <- pow2_add.
  eapply Qle_trans; [|exact L].
  apply pow2_le. unfold Float.ulp_exp, Float.prec in *. lia.
Qed.

Lemma rnd_pos_upper x : 0 < x -> Float.rnd_pos x <= Float.pow2 (Float.ulp_exp x + Float.prec).
Proof.
  intros Hx. unfold Float.rnd_pos.
  pose proof (round_half_even_mono _ _ (scaled_upper x Hx)) as H.
  rewrite round_half_even_Z in H.
  rewrite Z.add_comm, pow2_add, (pow2_inject Float.prec) by (unfold Float.prec; lia).
  apply Qmult_le_compat_r; [|apply Qlt_le_weak, pow2_pos].
  rewrite <- Zle_Qle. exact H.
Qed.

Lemma rnd_pos_lower x :
  0 < x -> (Float.emin < Float.ulp_exp x)%Z -> Float.pow2 (Float.ulp_exp x + (Float.prec - 1)) <= Float.rnd_pos x.
Proof.
  intros Hx He. unfold Float.rnd_pos.
  pose proof (round_half_even_mono _ _ (scaled_lower x Hx He)) as H.
  rewrite round_half_even_Z in H.
  rewrite Z.add_comm, pow2_add, (pow2_inject (Float.prec - 1)) by (unfold Float.prec; lia).
  apply Qmult_le_compat_r; [|apply Qlt_le_weak, pow2_pos].
  rewrite <- Zle_Qle. exact H.
Qed.

Lemma rnd_pos_nonneg x : 0 < x -> 0 <= Float.rnd_pos x.
Proof.
  intros Hx. unfold Float.rnd_pos.
  assert (H : (0 <= Float.round_half_even (x / Float.pow2 (Float.ulp_exp x)))%Z).
  { rewrite <- (round_half_even_Z 0) at 1. apply round_half_even_mono.
    apply Qle_shift_div_l; [apply pow2_pos|].
    change (inject_Z 0) with 0. lra. }
  apply Qmult_le_0_compat; [|apply Qlt_le_weak, pow2_pos].
  rewrite Zle_Qle in H. exact H.
Qed.

Lemma rnd_pos_mono x y : 0 < x -> x <= y -> Float.rnd_pos x <= Float.rnd_pos y.
Proof.
  intros Hx Hxy.
  assert (Hy : 0 < y) by (eapply Qlt_le_trans; eassumption).
  pose proof (ulp_exp_mono x y Hx Hxy) as He.
  destruct (Z.eq_dec (Float.ulp_exp x) (Float.ulp_exp y)) as [E|NE].
  - unfold Float.rnd_pos. rewrite E.
    apply Qmult_le_compat_r; [|apply Qlt_le_weak, pow2_pos].
    rewrite <- Zle_Qle. apply round_half_even_mono.
    apply Qmult_le_compat_r; [exact Hxy|].
    apply Qlt_le_weak, Qinv_lt_0_compat, pow2_pos.
  - assert (Hlt : (Float.ulp_exp x < Float.ulp_exp y)%Z) by lia.
    assert (Hmin : (Float.emin < Float.ulp_exp y)%Z) by (unfold Float.ulp_exp in *; lia).
    eapply Qle_trans; [apply rnd_pos_upper; exact Hx|].
    eapply Qle_trans; [|apply rnd_pos_lower; assumption].
    apply pow2_le. unfold Float.prec. lia.
Qed.

Lemma rnd_nonneg x : 0 <= x -> 0 <= Float.rnd x.
Proof.
  intros Hx. unfold Float.rnd.
  destruct (Qcompare_spec x 0) as [E|E|E].
  - apply Qle_refl.
  - exfalso. lra.
  - rewrite Qred_correct. apply rnd_pos_nonneg. exact E.
Qed.

Lemma rnd_nonpos x : x <= 0 -> Float.rnd x <= 0.
Proof.
  intros Hx. unfold Float.rnd.
  destruct (Qcompare_spec x 0) as [E|E|E].
  - apply Qle_refl.
  - rewrite Qred_correct.
    assert (H : 0 <= Float.rnd_pos (- x)) by (apply rnd_pos_nonneg; lra). lra.
  - exfalso. lra.
Qed.

Lemma rnd_mono x y : x <= y -> Float.rnd x <= Float.rnd y.
Proof.
  intros Hxy.
  destruct (Qlt_le_dec 0 x) as [Hx|Hx].
  - assert (Hy : 0 < y) by lra.
    unfold Float.rnd.
    destruct (Qcompare_spec x 0) as [E|E|E]; [exfalso; lra | exfalso; lra |].
    destruct (Qcompare_spec y 0) as [F|F|F]; [exfalso; lra | exfalso; lra |].
    rewrite !Qred_correct. apply rnd_pos_mono; assumption.
  - destruct (Qlt_le_dec y 0) as [Hy|Hy].
    + unfold Float.rnd.
      destruct (Qcompare_spec x 0) as [E|E|E]; [exfalso; lra | | exfalso; lra].
      destruct (Qcompare_spec y 0) as [F|F|F]; [exfalso; lra | | exfalso; lra].
      rewrite !Qred_correct. apply Qopp_le_compat.
      apply rnd_pos_mono; lra.
    + eapply Qle_trans; [apply rnd_nonpos; exact Hx | apply rnd_nonneg; exact Hy].
Qed.

Lemma rnd_compat x y : x == y -> Float.rnd x == Float.rnd y.
Proof.
  intros E. apply Qle_antisym; apply rnd_mono; rewrite E; apply Qle_refl.
Qed.
End FloatFacts.

(** ** Float operations on bounded arguments *)

Section FloatOps.
Local Open Scope Q_scope.

Lemma of_Q_inv x r : Float.of_Q x = Float.Fin r -> r = Float.rnd x.
Proof.
  unfold Float.of_Q. destruct (Qle_bool _ _); intros H; inversion H. reflexivity.
Qed.

Lemma of_Q_cases x :
  Float.of_Q x = Float.Fin (Float.rnd x)
  \/ exists s, Float.of_Q x = Float.Inf s /\ s = negb (Qle_bool 0 (Float.rnd x)).
Proof.
  unfold Float.of_Q. destruct (Qle_bool _ _); [left | right; eexists]; eauto.
Qed.

Lemma of_Q_ok lo hi x :
  lo <= x <= hi ->
  Qle_bool (- Float.max_float) (Float.rnd lo)
  && Qle_bool (Float.rnd hi) Float.max_float = true ->
  Float.of_Q x = Float.Fin (Float.rnd x)
  /\ Float.rnd lo <= Float.rnd x <= Float.rnd hi.
Proof.
  intros [Hlo Hhi] Hb. apply andb_true_iff in Hb as [B1 B2].
  apply Qle_bool_iff in B1, B2.
  pose proof (rnd_mono _ _ Hlo) as M1. pose proof (rnd_mono _ _ Hhi) as M2.
  split; [|split; assumption].
  unfold Float.of_Q.
  assert (A : Qabs (Float.rnd x) <= Float.max_float).
  { apply Qabs_Qle_condition. split; lra. }
  apply Qle_bool_iff in A. rewrite A. reflexivity.
Qed.

Lemma int_truediv_inv n d x :
  Float.int_truediv n d = Ok x ->
  d <> 0%Z /\ x = Float.Fin (Float.rnd (inject_Z n / inject_Z d)).
Proof.
  unfold Float.int_truediv. destruct (Z.eqb_spec d 0) as [E|NE]; [discriminate|].
  destruct (Float.of_Q _) as [r| |] eqn:E; try discriminate.
  intros H. inversion H. apply of_Q_inv in E. subst. split; [assumption|reflexivity].
Qed.

Lemma int_truediv_ok lo hi n d :
  d <> 0%Z ->
  lo <= inject_Z n / inject_Z d <= hi ->
  Qle_bool (- Float.max_float) (Float.rnd lo)
  && Qle_bool (Float.rnd hi) Float.max_float = true ->
  Float.int_truediv n d = Ok (Float.Fin (Float.rnd (inject_Z n / inject_Z d)))
  /\ Float.rnd lo <= Float.rnd (inject_Z n / inject_Z d) <= Float.rnd hi.
Proof.
  intros Hd Hx Hb. destruct (of_Q_ok lo hi _ Hx Hb) as [E B].
  split; [|exact B].
  unfold Float.int_truediv. destruct (Z.eqb_spec d 0) as [E0|_]; [contradiction|].
  rewrite E. reflexivity.
Qed.

Lemma round_inv x z :
  Float.round x = Ok z -> exists q, x = Float.Fin q /\ z = Float.round_half_even q.
Proof.
  destruct x as [q| |]; simpl; intros H; inversion H. exists q. split; reflexivity.
Qed.

Lemma mul_fin_inv a b q :
  Float.mul a b = Float.Fin q ->
  exists x y, a = Float.Fin x /\ b = Float.Fin y /\ q = Float.rnd (x * y).
Proof.
  destruct a as [x|s|], b as [y|s'|]; simpl; intros H; try discriminate.
  - exists x, y. apply of_Q_inv in H. repeat split; assumption.
  - destruct (Float.is_zero x); discriminate.
  - destruct (Float.is_zero y); discriminate.
Qed.

Lemma add_fin_inv a b q :
  Float.add a b = Float.Fin q ->
  exists x y, a = Float.Fin x /\ b = Float.Fin y /\ q = Float.rnd (x + y).
Proof.
  destruct a as [x|s|], b as [y|s'|]; simpl; intros H; try discriminate.
  - exists x, y. apply of_Q_inv in H. repeat split; assumption.
  - destruct (Bool.eqb s s'); discriminate.
Qed.

Lemma round1_inv x y :
  Float.round1 x = Ok y ->
  forall q, x = Float.Fin q ->
  y = Float.Fin (Float.rnd (inject_Z (Float.round_half_even (q * 10)) / 10)).
Proof.
  intros H q ->. simpl in H.
  destruct (Float.of_Q _) as [r| |] eqn:E; try discriminate.
  inversion H. apply of_Q_inv in E. subst. reflexivity.
Qed.

Lemma c0_7_value : Float.c0_7 = Float.Fin (3152519739159347 # 4503599627370496).
Proof. vm_compute. reflexivity. Qed.

Lemma c0_3_value : Float.c0_3 = Float.Fin (5404319552844595 # 18014398509481984).
Proof. vm_compute. reflexivity. Qed.

Lemma rnd_0 : Float.rnd 0 = 0.
Proof. reflexivity. Qed.

Lemma quotient_bounds (n d : Z) :
  (0 <= n <= d)%Z -> (0 < d)%Z -> 0 <= inject_Z n / inject_Z d <= 1.
Proof.
  intros Hn Hd.
  assert (D : 0 < inject_Z d) by (change 0 with (inject_Z 0); rewrite <- Zlt_Qlt; lia).
  split.
  - apply Qle_shift_div_l; [exact D|]. rewrite Qmult_0_l.
    change 0 with (inject_Z 0). rewrite <- Zle_Qle. lia.
  - apply Qle_shift_div_r; [exact D|]. rewrite Qmult_1_l.
    rewrite <- Zle_Qle. lia.
Qed.

(** [task_score] lies between 0 and 100 (line 305). *)
Lemma task_score_between (c t : Z) x :
  (0 <= c <= t)%Z ->
  (if (0 <? t)%Z then
     q ← Float.int_truediv c t; Ok (Float.mul q Float.c100)
   else Ok Float.c0) = Ok x ->
  Float.between 0 100 x.
Proof.
  intros Hc H. destruct (Z.ltb_spec 0 t) as [Ht|Ht].
  - destruct (Float.int_truediv c t) as [q|e] eqn:E; [|discriminate].
    simpl in H. inversion H; subst x; clear H.
    apply int_truediv_inv in E as [_ ->].
    pose proof (quotient_bounds c t Hc Ht) as [B0 B1].
    pose proof (rnd_mono _ _ B0) as R0. pose proof (rnd_mono _ _ B1) as R1.
    assert (E1 : Float.rnd 1 == 1) by (apply Qeq_bool_eq; vm_compute; reflexivity).
    rewrite rnd_0 in R0. rewrite E1 in R1.
    set (r := Float.rnd (inject_Z c / inject_Z t)) in *.
    unfold Float.mul, Float.c100.
    destruct (of_Q_ok 0 100 (r * 100)) as [-> [L U]].
    + split; nra.
    + vm_compute. reflexivity.
    + assert (E100 : Float.rnd 100 == 100) by (apply Qeq_bool_eq; vm_compute; reflexivity).
      rewrite rnd_0 in L. rewrite E100 in U. simpl. split; assumption.
  - inversion H. simpl. split; lra.
Qed.

Lemma task_score_ok (c t : Z) :
  (0 <= c <= t)%Z ->
  exists x,
    (if (0 <? t)%Z then
       q ← Float.int_truediv c t; Ok (Float.mul q Float.c100)
     else Ok Float.c0) = Ok x.
Proof.
  intros Hc. destruct (Z.ltb_spec 0 t) as [Ht|Ht]; [|eexists; reflexivity].
  destruct (int_truediv_ok 0 1 c t) as [E _].
  - lia.
  - apply quotient_bounds; assumption.
  - vm_compute. reflexivity.
  - rewrite E. simpl. eexists. reflexivity.
Qed.

(** [focus_score] lies between 0 and 100 (line 308). *)
Lemma focus_score_between h lo hi :
  0 <= lo -> Float.between lo hi h ->
  Float.between 0 100 (Float.min (Float.mul h Float.c5) Float.c100).
Proof.
  intros Hlo Hh. destruct h as [q| |]; simpl in Hh; try contradiction.
  destruct Hh as [Hq _].
  assert (P : 0 <= q * 5) by nra.
  pose proof (rnd_mono _ _ P) as R. rewrite rnd_0 in R.
  unfold Float.mul, Float.c5, Float.c100.
  destruct (of_Q_cases (q * 5)) as [->|(s & -> & Hs)].
  - unfold Float.min, Float.ltb.
    destruct (Qle_bool (Float.rnd (q * 5)) 100) eqn:E; simpl.
    + apply Qle_bool_iff in E. split; assumption.
    + split; lra.
  - apply Qle_bool_iff in R. rewrite R in Hs. subst s.
    simpl. split; lra.
Qed.

(** The weighted sum rounds into 0..100 (line 310). *)
Lemma productivity_between ts fs :
  Float.between 0 100 ts -> Float.between 0 100 fs ->
  exists z,
    Float.round
      (Float.add (Float.mul ts Float.c0_7) (Float.mul fs Float.c0_3)) = Ok z
    /\ (0 <= z <= 100)%Z.
Proof.
  intros Ht Hf.
  destruct ts as [a| |]; simpl in Ht; try contradiction.
  destruct fs as [b| |]; simpl in Hf; try contradiction.
  rewrite c0_7_value, c0_3_value. unfold Float.mul.
  set (k7 := 3152519739159347 # 4503599627370496).
  set (k3 := 5404319552844595 # 18014398509481984).
  assert (K7 : 0 <= k7) by (unfold k7, Qle; simpl; lia).
  assert (K3 : 0 <= k3) by (unfold k3, Qle; simpl; lia).
  destruct (of_Q_ok 0 (100 * k7) (a * k7)) as [-> [L7 U7]];
    [split; nra | vm_compute; reflexivity |].
  destruct (of_Q_ok 0 (100 * k3) (b * k3)) as [-> [L3 U3]];
    [split; nra | vm_compute; reflexivity |].
  assert (E7 : Float.rnd (100 * k7) == 70) by (apply Qeq_bool_eq; vm_compute; reflexivity).
  assert (E3 : Float.rnd (100 * k3) == 30) by (apply Qeq_bool_eq; vm_compute; reflexivity).
  rewrite rnd_0 in L7, L3. rewrite E7 in U7. rewrite E3 in U3.
  set (x := Float.rnd (a * k7)) in *. set (y := Float.rnd (b * k3)) in *.
  unfold Float.add.
  destruct (of_Q_ok 0 100 (x + y)) as [-> [L U]];
    [split; lra | vm_compute; reflexivity |].
  assert (E100 : Float.rnd 100 == 100) by (apply Qeq_bool_eq; vm_compute; reflexivity).
  rewrite rnd_0 in L. rewrite E100 in U.
  simpl. eexists. split; [reflexivity|].
  pose proof (round_half_even_mono _ _ L) as Z0.
  pose proof (round_half_even_mono _ _ U) as Z1.
  change 0 with (inject_Z 0) in Z0. change 100 with (inject_Z 100) in Z1.
  rewrite round_half_even_Z in Z0, Z1. lia.
Qed.

End FloatOps.

Section Bounded.
Local Open Scope Q_scope.

Lemma inject_Z_pos (n : Z) : (0 < n)%Z -> 0 < inject_Z n.
Proof. intros H. change 0 with (inject_Z 0). rewrite <- Zlt_Qlt. exact H. Qed.

Lemma div_le_bound (n d M : Z) :
  (0 < d)%Z -> (n <= M * d)%Z -> inject_Z n / inject_Z d <= inject_Z M.
Proof.
  intros Hd H. apply Qle_shift_div_r; [apply inject_Z_pos; exact Hd|].
  rewrite <- inject_Z_mult, <- Zle_Qle. exact H.
Qed.

Lemma div_ge_bound (n d M : Z) :
  (0 < d)%Z -> (M * d <= n)%Z -> inject_Z M <= inject_Z n / inject_Z d.
Proof.
  intros Hd H. apply Qle_shift_div_l; [apply inject_Z_pos; exact Hd|].
  rewrite <- inject_Z_mult, <- Zle_Qle. exact H.
Qed.

(** Lines 290: the hours of a bounded non-negative minute total. *)
Lemma total_focus_hours_ok (m : Z) :
  (0 <= m <= 2 ^ 126)%Z ->
  exists h,
    (q ← Float.int_truediv m 60; Float.round1 q) = Ok h
    /\ Float.between 0 (inject_Z (2 ^ 127)) h.
Proof.
  intros Hm.
  destruct (int_truediv_ok 0 (inject_Z (2 ^ 126)) m 60) as [E [L U]].
  - lia.
  - split.
    + change 0 with (inject_Z 0). apply div_ge_bound; lia.
    + apply div_le_bound; lia.
  - vm_compute. reflexivity.
  - rewrite E. simpl. clear E.
    assert (EM : Float.rnd (inject_Z (2 ^ 126)) == inject_Z (2 ^ 126))
      by (apply Qeq_bool_eq; vm_compute; reflexivity).
    rewrite rnd_0 in L. rewrite EM in U.
    set (r := Float.rnd (inject_Z m / inject_Z 60)) in *.
    pose proof (round_half_even_near (r * 10)) as [_ N].
    assert (P : (0 <= Float.round_half_even (r * 10))%Z).
    { rewrite <- (round_half_even_Z 0) at 1. apply round_half_even_mono.
      change (inject_Z 0) with 0. lra. }
    rewrite Zle_Qle in P. change (inject_Z 0) with 0 in P.
    set (k := inject_Z (Float.round_half_even (r * 10))) in *.
    assert (B : inject_Z (2 ^ 127) == 2 * inject_Z (2 ^ 126)) by reflexivity.
    assert (One : 1 <= inject_Z (2 ^ 126)) by (unfold Qle; simpl; lia).
    destruct (of_Q_ok 0 (inject_Z (2 ^ 127)) (k / 10)) as [-> [L' U']].
    + split.
      * apply Qle_shift_div_l; [reflexivity|]. lra.
      * apply Qle_shift_div_r; [reflexivity|]. lra.
    + vm_compute. reflexivity.
    + eexists. split; [reflexivity|].
      assert (E2 : Float.rnd (inject_Z (2 ^ 127)) == inject_Z (2 ^ 127))
        by (apply Qeq_bool_eq; vm_compute; reflexivity).
      rewrite rnd_0 in L'. rewrite E2 in U'. simpl. split; assumption.
Qed.

(** Lines 260-264 and 292-296 on bounded non-negative counts. *)
Lemma percentage_change_ok (this_week last_week : Z) :
  (0 <= this_week <= 2 ^ 126)%Z -> (0 <= last_week <= 2 ^ 126)%Z ->
  exists z, percentage_change this_week last_week = Ok z.
Proof.
  intros Ht Hl. unfold percentage_change.
  destruct (Z.ltb_spec 0 last_week) as [Hpos|Hle].
  - destruct (int_truediv_ok (inject_Z (-1)) (inject_Z (2 ^ 126))
                (this_week - last_week) last_week) as [E [L U]].
    + lia.
    + split; [apply div_ge_bound | apply div_le_bound]; nia.
    + vm_compute. reflexivity.
    + rewrite E. simpl. clear E.
      assert (E1 : Float.rnd (inject_Z (-1)) == -1)
        by (apply Qeq_bool_eq; vm_compute; reflexivity).
      assert (EM : Float.rnd (inject_Z (2 ^ 126)) == inject_Z (2 ^ 126))
        by (apply Qeq_bool_eq; vm_compute; reflexivity).
      rewrite E1 in L. rewrite EM in U.
      set (r := Float.rnd _) in *.
      unfold Float.c100.
      destruct (of_Q_ok (-100) (100 * inject_Z (2 ^ 126)) (r * 100)) as [-> _].
      * split; lra.
      * vm_compute. reflexivity.
      * simpl. eexists. reflexivity.
  - destruct (0 <? this_week)%Z; eexists; reflexivity.
Qed.

Lemma percentage_change_inv (this_week last_week z : Z) :
  percentage_change this_week last_week = Ok z ->
  ((0 < last_week)%Z ->
     z = Float.round_half_even
           (Float.rnd
              (Float.rnd (inject_Z (this_week - last_week) / inject_Z last_week)
               * 100)))
  /\ ((last_week <= 0)%Z -> (0 < this_week)%Z -> z = 100%Z)
  /\ ((last_week <= 0)%Z -> (this_week <= 0)%Z -> z = 0%Z).
Proof.
  unfold percentage_change. intros H.
  destruct (Z.ltb_spec 0 last_week) as [Hpos|Hle].
  - split; [|split; intros; lia]. intros _.
    destruct (Float.int_truediv _ _) as [q|e] eqn:E; [|discriminate].
    simpl in H. apply int_truediv_inv in E as [_ ->].
    apply round_inv in H as (q & Hq & ->).
    apply mul_fin_inv in Hq as (x & y & Hx & Hy & ->).
    inversion Hx; inversion Hy; subst. reflexivity.
  - destruct (Z.ltb_spec 0 this_week); inversion H;
      (split; [|split]); intros; lia.
Qed.

Lemma percentage_change_as_spec (this_week last_week : Z) :
  (0 <= last_week)%Z ->
  percentage_change this_week last_week
  = spec_percentage_change this_week last_week.
Proof.
  intros Hl. unfold percentage_change, spec_percentage_change.
  rewrite !Z.gtb_ltb.
  destruct (Z.ltb_spec 0 last_week) as [Hpos|Hle]; [reflexivity|].
  assert (E : last_week = 0%Z) by lia. subst. reflexivity.
Qed.

End Bounded.

(** ** The loops of [dashboard] in closed form *)

Section Loops.

Context (fromisoformat : string -> res Datetime.t).
Context (local_utcoffset : Z -> res Z).

Local Abbreviation parse_timestamp :=
  (parse_timestamp fromisoformat local_utcoffset).
Local Abbreviation parsed := (parsed fromisoformat local_utcoffset).
Local Abbreviation completion_times :=
  (completion_times fromisoformat local_utcoffset).
Local Abbreviation minutes_where := (minutes_where fromisoformat local_utcoffset).
Local Abbreviation count_task := (count_task fromisoformat local_utcoffset).
Local Abbreviation add_session := (add_session fromisoformat local_utcoffset).
Local Abbreviation add_activity := (add_activity fromisoformat local_utcoffset).
Local Abbreviation activity_of := (activity_of fromisoformat local_utcoffset).
Local Abbreviation task_ok := (task_ok fromisoformat local_utcoffset).
Local Abbreviation session_ok := (session_ok fromisoformat local_utcoffset).

Lemma parsed_ok v o : parse_timestamp v = Ok o -> parsed v = o.
Proof. unfold parsed. intros ->. destruct o; reflexivity. Qed.

Lemma completion_times_cons task l :
  completion_times (task :: l)
  = match parsed (get task "completed_at") with
    | Some t => t :: completion_times l
    | None => completion_times l
    end.
Proof. reflexivity. Qed.

Lemma completion_times_app l1 l2 :
  completion_times (l1 ++ l2) = completion_times l1 ++ completion_times l2.
Proof.
  induction l1 as [|x l1 IH]; [reflexivity|].
  rewrite <- app_comm_cons, !completion_times_cons, IH.
  destruct (parsed _); reflexivity.
Qed.

Lemma count_cons p t l :
  count p (t :: l) = (if p t then 1 else 0) + count p l.
Proof. unfold count. simpl. destruct (p t); simpl; lia. Qed.

Lemma count_app p l1 l2 : count p (l1 ++ l2) = count p l1 + count p l2.
Proof. unfold count. rewrite List.filter_app, length_app. lia. Qed.

Lemma count_bounds p l : 0 <= count p l <= Z.of_nat (length l).
Proof.
  unfold count. pose proof (List.filter_length_le p l). lia.
Qed.

Lemma completion_times_length l :
  (length (completion_times l) <= length l)%nat.
Proof.
  induction l as [|x l IH]; [simpl; lia|].
  rewrite completion_times_cons. destruct (parsed _); simpl; lia.
Qed.

(** Lines 252-258. *)
Lemma count_task_loop st sl l : forall a b r,
  for_each (count_task st sl) l (a, b) = Ok r ->
  r = (a + count (in_this_week st) (completion_times l),
       b + count (in_last_week st sl) (completion_times l)).
Proof.
  induction l as [|task l IH]; intros a b r H.
  - inversion H. unfold count. simpl. tuple_eq.
  - cbn [for_each] in H. unfold count_task at 1 in H.
    rewrite completion_times_cons.
    destruct (parse_timestamp (get task "completed_at")) as [o|e] eqn:E;
      [|discriminate H].
    rewrite (parsed_ok _ _ E).
    cbn [mbind res_bind Py.bind] in H.
    destruct o as [t|]; [|apply IH in H; exact H].
    rewrite !count_cons. unfold in_this_week at 1, in_last_week at 1.
    destruct (st <=? t) eqn:L1.
    + apply IH in H. subst r. apply Z.leb_le in L1.
      replace (t <? st) with false by (symmetry; apply Z.ltb_ge; lia).
      rewrite andb_false_r. tuple_eq.
    + destruct ((sl <=? t) && (t <? st));
        apply IH in H; subst r; tuple_eq.
Qed.

Lemma count_task_loop_ok st sl l : forall a b,
  forallb task_ok l = true ->
  exists r, for_each (count_task st sl) l (a, b) = Ok r.
Proof.
  induction l as [|task l IH]; intros a b H.
  - eexists. reflexivity.
  - cbn [forallb] in H. apply andb_true_iff in H as [H1 H2].
    cbn [for_each]. unfold count_task at 1.
    unfold task_ok in H1.
    destruct (parse_timestamp (get task "completed_at")) as [[t|]|e];
      [| |discriminate H1]; cbn [mbind res_bind Py.bind].
    + destruct (st <=? t); [|destruct ((sl <=? t) && (t <? st))];
        cbn [Py.bind]; apply IH; exact H2.
    + apply IH; exact H2.
Qed.

Lemma minutes_where_cons p s l :
  minutes_where p (s :: l)
  = match parsed (get s "created_at") with
    | Some t => if p t then duration_minutes s else 0
    | None => 0
    end + minutes_where p l.
Proof. reflexivity. Qed.

Lemma minutes_where_app p l1 l2 :
  minutes_where p (l1 ++ l2) = minutes_where p l1 + minutes_where p l2.
Proof.
  induction l1 as [|x l1 IH]; [reflexivity|].
  rewrite <- app_comm_cons, !minutes_where_cons, IH. lia.
Qed.

Lemma int_add_duration acc s r :
  int_add acc (get_default s "duration_minutes" (VInt 0)) = Ok r ->
  r = acc + duration_minutes s.
Proof.
  unfold duration_minutes.
  destruct (get_default s "duration_minutes" (VInt 0)) as [|b|n|x];
    simpl; intros H; inversion H; reflexivity.
Qed.

(** Lines 278-288. *)
Lemma add_session_loop st sl l : forall x y z r,
  for_each (add_session st sl) l (x, y, z) = Ok r ->
  r = (x + foldr Z.add 0 (map duration_minutes l),
       y + minutes_where (in_this_week st) l,
       z + minutes_where (in_last_week st sl) l).
Proof.
  induction l as [|s l IH]; intros x y z r H.
  - inversion H. simpl. unfold minutes_where. simpl. tuple_eq.
  - cbn [for_each] in H. unfold add_session at 1 in H.
    rewrite !minutes_where_cons. cbn [map foldr].
    destruct (int_add x _) as [x'|e] eqn:Ex; [|discriminate H].
    apply int_add_duration in Ex. subst x'.
    cbn [mbind res_bind Py.bind] in H.
    destruct (parse_timestamp (get s "created_at")) as [o|e] eqn:E;
      [|discriminate H].
    rewrite (parsed_ok _ _ E). cbn [mbind res_bind Py.bind] in H.
    destruct o as [t|];
      [|apply IH in H; subst r; tuple_eq].
    unfold in_this_week at 1, in_last_week at 1.
    destruct (st <=? t) eqn:L1.
    + destruct (int_add y _) as [y'|e] eqn:Ey;
        cbn [mbind res_bind Py.bind] in H; [|discriminate H].
      apply int_add_duration in Ey. subst y'.
      apply IH in H. subst r. apply Z.leb_le in L1.
      replace (t <? st) with false by (symmetry; apply Z.ltb_ge; lia).
      rewrite andb_false_r. tuple_eq.
    + destruct ((sl <=? t) && (t <? st)).
      * destruct (int_add z _) as [z'|e] eqn:Ez;
          cbn [mbind res_bind Py.bind] in H; [|discriminate H].
        apply int_add_duration in Ez. subst z'.
        apply IH in H. subst r. tuple_eq.
      * apply IH in H. subst r. tuple_eq.
Qed.

Lemma session_ok_duration s :
  session_ok s = true ->
  (forall acc,
     int_add acc (get_default s "duration_minutes" (VInt 0))
     = Ok (acc + duration_minutes s))
  /\ 0 <= duration_minutes s <= max_int64
  /\ is_ok (parse_timestamp (get s "created_at")) = true.
Proof.
  unfold session_ok, duration_minutes. intros H.
  apply andb_true_iff in H as [H1 H2].
  destruct (get_default s "duration_minutes" (VInt 0)) as [|b|n|x];
    try discriminate H1.
  - repeat split; try assumption; destruct b; unfold max_int64; lia.
  - apply andb_true_iff in H1 as [A B].
    apply Z.leb_le in A, B. repeat split; assumption.
Qed.

Lemma add_session_loop_ok st sl l : forall x y z,
  forallb session_ok l = true ->
  exists r, for_each (add_session st sl) l (x, y, z) = Ok r.
Proof.
  induction l as [|s l IH]; intros x y z H.
  - eexists. reflexivity.
  - cbn [forallb] in H. apply andb_true_iff in H as [H1 H2].
    apply session_ok_duration in H1 as (A & _ & P).
    cbn [for_each]. unfold add_session at 1.
    rewrite !A. cbn [mbind res_bind Py.bind].
    destruct (parse_timestamp (get s "created_at")) as [[t|]|e];
      [| |discriminate P]; cbn [mbind res_bind Py.bind].
    + destruct (st <=? t); [|destruct ((sl <=? t) && (t <? st))];
        cbn [mbind res_bind Py.bind]; apply IH; exact H2.
    + apply IH; exact H2.
Qed.

Lemma minutes_bounds p l :
  forallb session_ok l = true ->
  0 <= minutes_where p l
  /\ minutes_where p l <= foldr Z.add 0 (map duration_minutes l)
  /\ foldr Z.add 0 (map duration_minutes l)
     <= max_int64 * Z.of_nat (length l).
Proof.
  induction l as [|s l IH]; intros H.
  - unfold minutes_where. simpl. lia.
  - cbn [forallb] in H. apply andb_true_iff in H as [H1 H2].
    apply session_ok_duration in H1 as (_ & B & _).
    specialize (IH H2). rewrite minutes_where_cons.
    cbn [map foldr length]. rewrite Nat2Z.inj_succ.
    destruct (parsed _) as [t|]; [destruct (p t)|]; lia.
Qed.

(** Lines 314-320. *)
Lemma add_activity_loop l : forall acc r,
  for_each add_activity l acc = Ok r -> r = acc ++ omap activity_of l.
Proof.
  induction l as [|task l IH]; intros acc r H.
  - inversion H. simpl. rewrite app_nil_r. reflexivity.
  - cbn [for_each] in H. unfold add_activity at 1 in H.
    change (omap activity_of (task :: l))
      with (match activity_of task with
            | Some a => a :: omap activity_of l
            | None => omap activity_of l
            end).
    unfold activity_of at 1.
    destruct (parse_timestamp (get task "completed_at")) as [o|e] eqn:E;
      [|discriminate H].
    rewrite (parsed_ok _ _ E). cbn [mbind res_bind Py.bind] in H.
    destruct o as [t|]; [|apply IH in H; exact H].
    unfold getitem in H. cbn [mbind option_bind].
    destruct (task !! "title") as [title|]; [|discriminate H].
    cbn [Py.bind] in H. apply IH in H. subst r.
    cbn [mbind option_bind]. rewrite <- app_assoc. reflexivity.
Qed.

Lemma add_activity_loop_ok l : forall acc,
  forallb task_ok l = true ->
  exists r, for_each add_activity l acc = Ok r.
Proof.
  induction l as [|task l IH]; intros acc H.
  - eexists. reflexivity.
  - cbn [forallb] in H. apply andb_true_iff in H as [H1 H2].
    cbn [for_each]. unfold add_activity at 1.
    unfold task_ok in H1.
    destruct (parse_timestamp (get task "completed_at")) as [[t|]|e];
      [| |discriminate H1]; cbn [mbind res_bind Py.bind].
    + unfold getitem. destruct (task !! "title"); [|discriminate H1].
      cbn [Py.bind]. apply IH; exact H2.
    + apply IH; exact H2.
Qed.

End Loops.

(** ** The stable descending sort *)

Section Sorting.

Lemma insert_desc_perm a l : Permutation (insert_desc a l) (a :: l).
Proof.
  induction l as [|b l IH]; simpl; [reflexivity|].
  destruct (timestamp b <=? timestamp a); [reflexivity|].
  rewrite IH. apply perm_swap.
Qed.

Lemma sort_desc_perm l : Permutation (sort_desc l) l.
Proof.
  induction l as [|a l IH]; simpl; [reflexivity|].
  rewrite insert_desc_perm. apply perm_skip. exact IH.
Qed.

Lemma insert_desc_sorted a l : descending l -> descending (insert_desc a l).
Proof.
  unfold descending. induction l as [|b l IH]; intros H; simpl.
  - constructor; constructor.
  - inversion H as [|? ? Hl Hb]; subst.
    destruct (Z.leb_spec (timestamp b) (timestamp a)) as [L|L].
    + constructor; [exact H|].
      constructor; [exact L|].
      eapply List.Forall_impl; [|exact Hb]. simpl. intros c Hc. lia.
    + constructor; [apply IH; exact Hl|].
      eapply Permutation_Forall; [symmetry; apply insert_desc_perm|].
      constructor; [lia|exact Hb].
Qed.

Lemma sort_desc_sorted l : descending (sort_desc l).
Proof.
  induction l as [|a l IH]; simpl.
  - constructor.
  - apply insert_desc_sorted. exact IH.
Qed.

Lemma descending_app l1 l2 :
  descending (l1 ++ l2) ->
  descending l1 /\ descending l2
  /\ forall a b, In a l1 -> In b l2 -> timestamp b <= timestamp a.
Proof.
  unfold descending. induction l1 as [|x l1 IH]; simpl; intros H.
  - repeat split; [constructor|exact H|intros a b []].
  - inversion H as [|? ? Hl Hx]; subst.
    destruct (IH Hl) as (S1 & S2 & C).
    apply Forall_app in Hx as [F1 F2].
    repeat split.
    + constructor; assumption.
    + exact S2.
    + intros a b [<-|Ha] Hb.
      * rewrite Forall_forall in F2. apply F2. apply list_elem_of_In. exact Hb.
      * apply C; assumption.
Qed.

(** Records with the same timestamp stay in their order of insertion. *)
Lemma insert_desc_head a l :
  (forall b, In b l -> timestamp b <= timestamp a) ->
  insert_desc a l = a :: l.
Proof.
  destruct l as [|b l]; intros H; simpl; [reflexivity|].
  destruct (Z.leb_spec (timestamp b) (timestamp a)) as [L|L]; [reflexivity|].
  specialize (H b (or_introl eq_refl)). lia.
Qed.

End Sorting.

(** ** The week window *)

Section Week.

Lemma sub_inv t d r :
  Datetime.sub t d = Ok r -> r = t - d /\ 0 <= r < Datetime.end_us.
Proof.
  unfold Datetime.sub, Datetime.in_range.
  destruct ((0 <=? t - d) && (t - d <? Datetime.end_us)) eqn:E; [|discriminate].
  intros H. inversion H. apply andb_true_iff in E as [A B].
  apply Z.leb_le in A. apply Z.ltb_lt in B. subst. auto.
Qed.

Lemma sub_ok t d :
  0 <= t - d < Datetime.end_us -> Datetime.sub t d = Ok (t - d).
Proof.
  intros [A B]. unfold Datetime.sub, Datetime.in_range.
  apply Z.leb_le in A. apply Z.ltb_lt in B. rewrite A, B. reflexivity.
Qed.

Lemma weekday_bounds t : 0 <= Datetime.weekday t <= 6.
Proof.
  unfold Datetime.weekday.
  pose proof (Z.mod_pos_bound (t / Datetime.us_per_day) 7). lia.
Qed.

Lemma us_per_day_value : Datetime.us_per_day = 86400000000.
Proof. reflexivity. Qed.

Lemma end_us_value : Datetime.end_us = 315537897600000000.
Proof. reflexivity. Qed.

Lemma week_start_ok today :
  now_ok today = true ->
  Datetime.sub today (Datetime.timedelta_days (Datetime.weekday today))
  = Ok (today - Datetime.weekday today * Datetime.us_per_day)
  /\ Datetime.sub (today - Datetime.weekday today * Datetime.us_per_day)
       (Datetime.timedelta_days 7)
     = Ok (today - Datetime.weekday today * Datetime.us_per_day
           - 7 * Datetime.us_per_day).
Proof.
  unfold now_ok. intros H. apply andb_true_iff in H as [A B].
  apply Z.leb_le in A. apply Z.ltb_lt in B.
  unfold Datetime.timedelta_days, Datetime.weekday.
  rewrite us_per_day_value in *. rewrite end_us_value in B.
  set (D := today / 86400000000).
  assert (L : 86400000000 * D <= today) by (apply Z.mul_div_le; lia).
  assert (D7 : 7 <= D) by (apply Z.div_le_lower_bound; lia).
  pose proof (Z.mod_pos_bound D 7) as R.
  pose proof (Z.div_mod D 7) as Q.
  assert (Q1 : 1 <= D / 7) by (apply Z.div_le_lower_bound; lia).
  split; apply sub_ok; rewrite end_us_value; lia.
Qed.

(** Going back by the weekday index lands on a Monday and keeps the time
    of day. *)
Lemma week_start_monday today :
  let start := today - Datetime.weekday today * Datetime.us_per_day in
  Datetime.weekday start = 0
  /\ start mod Datetime.us_per_day = today mod Datetime.us_per_day.
Proof.
  intros start. unfold start, Datetime.weekday.
  rewrite us_per_day_value.
  set (d := 86400000000).
  assert (D : d <> 0) by (unfold d; lia).
  split.
  - replace (today - today / d mod 7 * d) with (today + (- (today / d mod 7)) * d)
      by lia.
    rewrite Z.div_add by exact D.
    rewrite Z.add_opp_r, Zminus_mod_idemp_r, Z.sub_diag. reflexivity.
  - replace (today - today / d mod 7 * d) with (today + (- (today / d mod 7)) * d)
      by lia.
    apply Z.mod_add. exact D.
Qed.

End Week.

(** ** The whole computation *)

Section Whole.

Context (fromisoformat : string -> res Datetime.t).
Context (local_utcoffset : Z -> res Z).

Local Abbreviation dashboard := (dashboard fromisoformat local_utcoffset).
Local Abbreviation computed := (computed fromisoformat local_utcoffset).
Local Abbreviation inputs_ok := (inputs_ok fromisoformat local_utcoffset).
Local Abbreviation is_complete := is_complete.
Local Abbreviation completion_times :=
  (completion_times fromisoformat local_utcoffset).
Local Abbreviation minutes_where := (minutes_where fromisoformat local_utcoffset).
Local Abbreviation activity_of := (activity_of fromisoformat local_utcoffset).

Lemma dashboard_inv today tasks focus_sessions l :
  dashboard today tasks focus_sessions = Ok l ->
  computed today tasks focus_sessions l.
Proof.
  unfold dashboard. intros H.
  step_all H.
  inversion H; subst l; clear H.
  unfold computed. cbn -[Z.of_nat Float.int_truediv Float.mul Float.add Float.min
                        Float.round Float.round1 percentage_change for_each
                        Datetime.sub Datetime.timedelta_days Datetime.weekday
                        List.filter length Z.ltb Z.sub sort_desc].
  repeat (split; [first [assumption | reflexivity]|]).
  eexists. split; [eassumption | reflexivity].
Qed.

Lemma completed_le_total (tasks : list (gmap string value)) :
  0 <= Z.of_nat (length (List.filter is_complete tasks))
    <= Z.of_nat (length tasks).
Proof.
  pose proof (List.filter_length_le is_complete tasks). lia.
Qed.

Lemma max_int64_sq : max_int64 * max_int64 <= 2 ^ 126.
Proof. apply Z.leb_le. vm_compute. reflexivity. Qed.

Lemma max_int64_le : max_int64 <= 2 ^ 126.
Proof. apply Z.leb_le. vm_compute. reflexivity. Qed.

Lemma max_int64_pos : 0 < max_int64.
Proof. reflexivity. Qed.

Lemma dashboard_total today tasks focus_sessions :
  inputs_ok today tasks focus_sessions = true ->
  exists l, dashboard today tasks focus_sessions = Ok l.
Proof.
  unfold inputs_ok. intros H.
  do 4 (apply andb_true_iff in H as [H ?]).
  rename H into Hnow, H0 into Hlen2, H1 into Hlen1, H2 into Hsess, H3 into Htasks.
  apply Z.leb_le in Hlen1, Hlen2.
  pose proof max_int64_sq as SQ. pose proof max_int64_le as LE.
  pose proof max_int64_pos as POS.
  set (M := max_int64) in *. set (B := 2 ^ 126) in *.
  unfold dashboard.
  destruct (week_start_ok today Hnow) as [E1 E2].
  rewrite E1. cbn [mbind res_bind Py.bind]. rewrite E2.
  cbn [mbind res_bind Py.bind].
  set (st := today - Datetime.weekday today * Datetime.us_per_day).
  set (sl := st - 7 * Datetime.us_per_day).
  destruct (count_task_loop_ok fromisoformat local_utcoffset st sl _ 0 0 Htasks)
    as [[tw lw] Ec].
  rewrite Ec. cbn [mbind res_bind Py.bind].
  apply count_task_loop in Ec. apply pair_equal_spec in Ec as [Etw Elw].
  pose proof (completed_le_total tasks) as CT.
  pose proof (completion_times_length fromisoformat local_utcoffset
                (List.filter is_complete tasks)) as CL.
  pose proof (count_bounds (in_this_week st)
                (completion_times (List.filter is_complete tasks))) as C1.
  pose proof (count_bounds (in_last_week st sl)
                (completion_times (List.filter is_complete tasks))) as C2.
  destruct (percentage_change_ok tw lw) as [p1 Ep1]; [lia | lia |].
  rewrite Ep1. cbn [mbind res_bind Py.bind].
  destruct (add_session_loop_ok fromisoformat local_utcoffset st sl
              focus_sessions 0 0 0 Hsess) as [[[tot fw] fl] Es].
  rewrite Es. cbn [mbind res_bind Py.bind].
  apply add_session_loop in Es. apply pair_equal_spec in Es as [Es Efl].
  apply pair_equal_spec in Es as [Etot Efw].
  pose proof (minutes_bounds fromisoformat local_utcoffset (in_this_week st)
                focus_sessions Hsess) as (M1 & M2 & M3).
  pose proof (minutes_bounds fromisoformat local_utcoffset (in_last_week st sl)
                focus_sessions Hsess) as (M4 & M5 & _).
  assert (TB : foldr Z.add 0 (map duration_minutes focus_sessions) <= B) by nia.
  destruct (total_focus_hours_ok tot) as (h & Eh & Bh); [lia|].
  rewrite Eh. cbn [mbind res_bind Py.bind].
  destruct (percentage_change_ok fw fl) as [p2 Ep2]; [lia | lia |].
  rewrite Ep2. cbn [mbind res_bind Py.bind].
  destruct (task_score_ok (Z.of_nat (length (List.filter is_complete tasks)))
              (Z.of_nat (length tasks)) CT) as [ts Ets].
  rewrite Ets. cbn [mbind res_bind Py.bind].
  pose proof (task_score_between _ _ _ CT Ets) as Bts.
  pose proof (focus_score_between h 0 _ (Qle_refl 0) Bh) as Bfs.
  destruct (productivity_between _ _ Bts Bfs) as (z & Ez & _).
  rewrite Ez. cbn [mbind res_bind Py.bind].
  destruct (add_activity_loop_ok fromisoformat local_utcoffset _ [] Htasks)
    as [acts Ea].
  rewrite Ea. cbn [mbind res_bind Py.bind].
  eexists. reflexivity.
Qed.

End Whole.

(** ** Shapes of the rounded quantities *)

Section Shapes.
Local Open Scope Q_scope.

Lemma total_focus_hours_inv (m : Z) h :
  (q ← Float.int_truediv m 60; Float.round1 q) = Ok h ->
  h = Float.Fin
        (Float.rnd
           (inject_Z
              (Float.round_half_even
                 (Float.rnd (inject_Z m / inject_Z 60) * 10)) / 10)).
Proof.
  intros H. destruct (Float.int_truediv m 60) as [q|e] eqn:E; [|discriminate H].
  cbn [mbind res_bind Py.bind] in H.
  apply int_truediv_inv in E as [_ ->].
  eapply round1_inv in H; [exact H | reflexivity].
Qed.

Lemma total_focus_hours_nonneg (m : Z) h :
  (q ← Float.int_truediv m 60; Float.round1 q) = Ok h ->
  (0 <= m)%Z ->
  exists q, h = Float.Fin q /\ 0 <= q.
Proof.
  intros H Hm. apply total_focus_hours_inv in H. subst h.
  eexists. split; [reflexivity|].
  apply rnd_nonneg.
  assert (R : 0 <= Float.rnd (inject_Z m / inject_Z 60)).
  { apply rnd_nonneg. change 0 with (inject_Z 0). apply div_ge_bound; lia. }
  set (r := Float.rnd (inject_Z m / inject_Z 60)) in *.
  assert (P : (0 <= Float.round_half_even (r * 10))%Z).
  { rewrite <- (round_half_even_Z 0) at 1. apply round_half_even_mono.
    change (inject_Z 0) with 0. lra. }
  rewrite Zle_Qle in P. change (inject_Z 0) with 0 in P.
  apply Qle_shift_div_l; [reflexivity|]. lra.
Qed.

End Shapes.

(** ** Durations of either sign *)

Section Signed.
Local Open Scope Q_scope.

Lemma rnd_pow2_126 : Float.rnd (inject_Z (2 ^ 126)) == inject_Z (2 ^ 126).
Proof. apply Qeq_bool_eq. vm_compute. reflexivity. Qed.

Lemma rnd_pow2_127 : Float.rnd (inject_Z (2 ^ 127)) == inject_Z (2 ^ 127).
Proof. apply Qeq_bool_eq. vm_compute. reflexivity. Qed.

Lemma rnd_opp_pow2_127 :
  Float.rnd (- inject_Z (2 ^ 127)) == - inject_Z (2 ^ 127).
Proof. apply Qeq_bool_eq. vm_compute. reflexivity. Qed.

(** Line 290 on a bounded minute total of either sign. *)
Lemma total_focus_hours_signed (m : Z) :
  (- 2 ^ 126 <= m <= 2 ^ 126)%Z ->
  exists h,
    (q ← Float.int_truediv m 60; Float.round1 q) = Ok (Float.Fin h)
    /\ - inject_Z (2 ^ 127) <= h <= inject_Z (2 ^ 127).
Proof.
  intros Hm.
  destruct (int_truediv_ok (- inject_Z (2 ^ 126)) (inject_Z (2 ^ 126)) m 60)
    as [E [L U]].
  - lia.
  - split.
    + change (- inject_Z (2 ^ 126)) with (inject_Z (- 2 ^ 126)).
      apply div_ge_bound; lia.
    + apply div_le_bound; lia.
  - vm_compute. reflexivity.
  - rewrite E. simpl. clear E.
    assert (EL : Float.rnd (- inject_Z (2 ^ 126)) == - inject_Z (2 ^ 126))
      by (apply Qeq_bool_eq; vm_compute; reflexivity).
    rewrite EL in L. rewrite rnd_pow2_126 in U.
    set (r := Float.rnd (inject_Z m / inject_Z 60)) in *.
    pose proof (round_half_even_near (r * 10)) as [N1 N2].
    set (k := inject_Z (Float.round_half_even (r * 10))) in *.
    assert (B : inject_Z (2 ^ 127) == 2 * inject_Z (2 ^ 126)) by reflexivity.
    assert (One : 1 <= inject_Z (2 ^ 126)) by (unfold Qle; simpl; lia).
    destruct (of_Q_ok (- inject_Z (2 ^ 127)) (inject_Z (2 ^ 127)) (k / 10))
      as [-> [L' U']].
    + split.
      * apply Qle_shift_div_l; [reflexivity|]. lra.
      * apply Qle_shift_div_r; [reflexivity|]. lra.
    + vm_compute. reflexivity.
    + eexists. split; [reflexivity|].
      rewrite rnd_opp_pow2_127 in L'. rewrite rnd_pow2_127 in U'.
      split; assumption.
Qed.

(** Lines 260-264 and 292-296 on bounded figures of either sign. *)
Lemma percentage_change_signed (this_week last_week : Z) :
  (- 2 ^ 126 <= this_week <= 2 ^ 126)%Z ->
  (- 2 ^ 126 <= last_week <= 2 ^ 126)%Z ->
  exists z, percentage_change this_week last_week = Ok z.
Proof.
  intros Ht Hl. unfold percentage_change.
  destruct (Z.ltb_spec 0 last_week) as [Hpos|Hle].
  - destruct (int_truediv_ok (- inject_Z (2 ^ 127)) (inject_Z (2 ^ 127))
                (this_week - last_week) last_week) as [E [L U]].
    + lia.
    + split.
      * change (- inject_Z (2 ^ 127)) with (inject_Z (- 2 ^ 127)).
        apply div_ge_bound; [exact Hpos|].
        change (2 ^ 127)%Z with (2 * 2 ^ 126)%Z. nia.
      * apply div_le_bound; [exact Hpos|].
        change (2 ^ 127)%Z with (2 * 2 ^ 126)%Z. nia.
    + vm_compute. reflexivity.
    + rewrite E. simpl. clear E.
      rewrite rnd_opp_pow2_127 in L. rewrite rnd_pow2_127 in U.
      set (r := Float.rnd _) in *.
      unfold Float.c100.
      destruct (of_Q_ok (-100 * inject_Z (2 ^ 127)) (100 * inject_Z (2 ^ 127))
                  (r * 100)) as [-> _].
      * split; lra.
      * vm_compute. reflexivity.
      * simpl. eexists. reflexivity.
  - destruct (0 <? this_week)%Z; eexists; reflexivity.
Qed.

(** Line 308 on bounded hours of either sign. *)
Lemma focus_score_signed (h : Q) :
  - inject_Z (2 ^ 127) <= h <= inject_Z (2 ^ 127) ->
  exists q,
    Float.min (Float.mul (Float.Fin h) Float.c5) Float.c100 = Float.Fin q
    /\ -5 * inject_Z (2 ^ 127) <= q <= 100.
Proof.
  intros Hh. unfold Float.mul, Float.c5, Float.c100.
  destruct (of_Q_ok (-5 * inject_Z (2 ^ 127)) (5 * inject_Z (2 ^ 127)) (h * 5))
    as [-> [L U]].
  - split; lra.
  - vm_compute. reflexivity.
  - assert (EL : Float.rnd (-5 * inject_Z (2 ^ 127)) == -5 * inject_Z (2 ^ 127))
      by (apply Qeq_bool_eq; vm_compute; reflexivity).
    rewrite EL in L.
    unfold Float.min, Float.ltb.
    destruct (Qle_bool (Float.rnd (h * 5)) 100) eqn:E; cbn [negb].
    + apply Qle_bool_iff in E. eexists. split; [reflexivity|].
      split; assumption.
    + eexists. split; [reflexivity|].
      assert (0 < inject_Z (2 ^ 127)) by reflexivity. split; lra.
Qed.

(** Line 310 on a task score in 0..100 and a bounded focus score. *)
Lemma productivity_signed ts (fs : Q) :
  Float.between 0 100 ts ->
  -5 * inject_Z (2 ^ 127) <= fs <= 100 ->
  exists z,
    Float.round
      (Float.add (Float.mul ts Float.c0_7) (Float.mul (Float.Fin fs) Float.c0_3))
    = Ok z.
Proof.
  intros Ht Hf.
  destruct ts as [a| |]; simpl in Ht; try contradiction.
  rewrite c0_7_value, c0_3_value. unfold Float.mul.
  set (k7 := 3152519739159347 # 4503599627370496).
  set (k3 := 5404319552844595 # 18014398509481984).
  assert (K7 : 0 <= k7) by (unfold k7, Qle; simpl; lia).
  assert (K3 : 0 <= k3) by (unfold k3, Qle; simpl; lia).
  assert (K3' : k3 <= 1) by (unfold k3, Qle; simpl; lia).
  assert (P : 0 < inject_Z (2 ^ 127)) by reflexivity.
  destruct (of_Q_ok 0 (100 * k7) (a * k7)) as [-> [L7 U7]];
    [split; nra | vm_compute; reflexivity |].
  destruct (of_Q_ok (-5 * inject_Z (2 ^ 127)) 100 (fs * k3)) as [-> [L3 U3]];
    [split; nra | vm_compute; reflexivity |].
  assert (E7 : Float.rnd (100 * k7) == 70)
    by (apply Qeq_bool_eq; vm_compute; reflexivity).
  assert (E100 : Float.rnd 100 == 100)
    by (apply Qeq_bool_eq; vm_compute; reflexivity).
  assert (EL : Float.rnd (-5 * inject_Z (2 ^ 127)) == -5 * inject_Z (2 ^ 127))
    by (apply Qeq_bool_eq; vm_compute; reflexivity).
  rewrite rnd_0 in L7. rewrite E7 in U7. rewrite EL in L3. rewrite E100 in U3.
  set (x := Float.rnd (a * k7)) in *. set (y := Float.rnd (fs * k3)) in *.
  unfold Float.add.
  destruct (of_Q_ok (-5 * inject_Z (2 ^ 127)) 170 (x + y)) as [-> _];
    [split; lra | vm_compute; reflexivity |].
  simpl. eexists. reflexivity.
Qed.

End Signed.

Section SignedLoops.

Context (fromisoformat : string -> res Datetime.t).
Context (local_utcoffset : Z -> res Z).

Local Abbreviation parse_timestamp :=
  (parse_timestamp fromisoformat local_utcoffset).
Local Abbreviation add_session := (add_session fromisoformat local_utcoffset).
Local Abbreviation session_fine := (session_fine fromisoformat local_utcoffset).
Local Abbreviation session_ok := (session_ok fromisoformat local_utcoffset).
Local Abbreviation minutes_where := (minutes_where fromisoformat local_utcoffset).
Local Abbreviation parsed := (parsed fromisoformat local_utcoffset).

Lemma session_fine_duration s :
  session_fine s = true ->
  (forall acc,
     int_add acc (get_default s "duration_minutes" (VInt 0))
     = Ok (acc + duration_minutes s))
  /\ - max_int64 - 1 <= duration_minutes s <= max_int64
  /\ is_ok (parse_timestamp (get s "created_at")) = true.
Proof.
  unfold session_fine, duration_minutes. intros H.
  apply andb_true_iff in H as [H1 H2].
  destruct (get_default s "duration_minutes" (VInt 0)) as [|b|n|x];
    try discriminate H1.
  - repeat split; try assumption; destruct b; unfold max_int64; lia.
  - apply andb_true_iff in H1 as [A B].
    apply Z.leb_le in A, B. repeat split; assumption.
Qed.

Lemma session_ok_fine s : session_ok s = true -> session_fine s = true.
Proof.
  unfold session_ok, session_fine. intros H.
  apply andb_true_iff in H as [H1 H2]. rewrite H2, andb_true_r.
  destruct (get_default s "duration_minutes" (VInt 0)) as [|b|n|x];
    try discriminate H1; [reflexivity|].
  apply andb_true_iff in H1 as [A B]. apply Z.leb_le in A, B.
  apply andb_true_iff. split; apply Z.leb_le; unfold max_int64 in *; lia.
Qed.

Lemma add_session_loop_fine st sl l : forall x y z,
  forallb session_fine l = true ->
  exists r, for_each (add_session st sl) l (x, y, z) = Ok r.
Proof.
  induction l as [|s l IH]; intros x y z H.
  - eexists. reflexivity.
  - cbn [forallb] in H. apply andb_true_iff in H as [H1 H2].
    apply session_fine_duration in H1 as (A & _ & P).
    cbn [for_each]. unfold add_session at 1.
    rewrite !A. cbn [mbind res_bind Py.bind].
    destruct (parse_timestamp (get s "created_at")) as [[t|]|e];
      [| |discriminate P]; cbn [mbind res_bind Py.bind].
    + destruct (st <=? t); [|destruct ((sl <=? t) && (t <? st))];
        cbn [mbind res_bind Py.bind]; apply IH; exact H2.
    + apply IH; exact H2.
Qed.

Lemma minutes_signed_bounds p l :
  forallb session_fine l = true ->
  let bound := (max_int64 + 1) * Z.of_nat (length l) in
  - bound <= minutes_where p l <= bound
  /\ - bound <= foldr Z.add 0 (map duration_minutes l) <= bound.
Proof.
  induction l as [|s l IH]; intros H.
  - unfold minutes_where. simpl. lia.
  - cbn [forallb] in H. apply andb_true_iff in H as [H1 H2].
    apply session_fine_duration in H1 as (_ & B & _).
    specialize (IH H2). cbv zeta in IH |- *. rewrite minutes_where_cons.
    cbn [map foldr length]. rewrite Nat2Z.inj_succ.
    pose proof max_int64_pos.
    destruct (parsed _) as [t|]; [destruct (p t)|]; lia.
Qed.

End SignedLoops.

Section SignedWhole.

Context (fromisoformat : string -> res Datetime.t).
Context (local_utcoffset : Z -> res Z).

Local Abbreviation dashboard := (dashboard fromisoformat local_utcoffset).
Local Abbreviation inputs_ok := (inputs_ok fromisoformat local_utcoffset).
Local Abbreviation records_ok := (records_ok fromisoformat local_utcoffset).
Local Abbreviation completion_times :=
  (completion_times fromisoformat local_utcoffset).

Lemma forallb_impl {A} (f g : A -> bool) l :
  (forall x, f x = true -> g x = true) ->
  forallb f l = true -> forallb g l = true.
Proof.
  intros H. induction l as [|x l IH]; [reflexivity|].
  cbn [forallb]. intros E. apply andb_true_iff in E as [E1 E2].
  rewrite (H x E1), (IH E2). reflexivity.
Qed.

Lemma inputs_ok_records_ok today tasks focus_sessions :
  inputs_ok today tasks focus_sessions = true ->
  records_ok today tasks focus_sessions = true.
Proof.
  unfold inputs_ok, records_ok. intros H.
  apply andb_true_iff in H as [H A5]. apply andb_true_iff in H as [H A4].
  apply andb_true_iff in H as [H A3]. apply andb_true_iff in H as [A1 A2].
  rewrite A1, A2, A4, A5.
  rewrite (forallb_impl _ _ _ (session_ok_fine fromisoformat local_utcoffset) A3).
  reflexivity.
Qed.

Lemma max_int64_succ_sq : (max_int64 + 1) * max_int64 <= 2 ^ 126.
Proof. apply Z.leb_le. vm_compute. reflexivity. Qed.

Lemma dashboard_total_signed today tasks focus_sessions :
  records_ok today tasks focus_sessions = true ->
  exists l, dashboard today tasks focus_sessions = Ok l.
Proof.
  unfold records_ok. intros H.
  apply andb_true_iff in H as [H Hlen2]. apply andb_true_iff in H as [H Hlen1].
  apply andb_true_iff in H as [H Hsess]. apply andb_true_iff in H as [Hnow Htasks].
  apply Z.leb_le in Hlen1, Hlen2.
  pose proof max_int64_succ_sq as SQ. pose proof max_int64_le as LE.
  pose proof max_int64_pos as POS.
  set (M := max_int64) in *. set (B := 2 ^ 126) in *.
  unfold dashboard.
  destruct (week_start_ok today Hnow) as [E1 E2].
  rewrite E1. cbn [mbind res_bind Py.bind]. rewrite E2.
  cbn [mbind res_bind Py.bind].
  set (st := today - Datetime.weekday today * Datetime.us_per_day).
  set (sl := st - 7 * Datetime.us_per_day).
  destruct (count_task_loop_ok fromisoformat local_utcoffset st sl _ 0 0 Htasks)
    as [[tw lw] Ec].
  rewrite Ec. cbn [mbind res_bind Py.bind].
  apply count_task_loop in Ec. apply pair_equal_spec in Ec as [Etw Elw].
  pose proof (completed_le_total tasks) as CT.
  pose proof (completion_times_length fromisoformat local_utcoffset
                (List.filter is_complete tasks)) as CL.
  pose proof (count_bounds (in_this_week st)
                (completion_times (List.filter is_complete tasks))) as C1.
  pose proof (count_bounds (in_last_week st sl)
                (completion_times (List.filter is_complete tasks))) as C2.
  destruct (percentage_change_ok tw lw) as [p1 Ep1]; [lia | lia |].
  rewrite Ep1. cbn [mbind res_bind Py.bind].
  destruct (add_session_loop_fine fromisoformat local_utcoffset st sl
              focus_sessions 0 0 0 Hsess) as [[[tot fw] fl] Es].
  rewrite Es. cbn [mbind res_bind Py.bind].
  apply add_session_loop in Es. apply pair_equal_spec in Es as [Es Efl].
  apply pair_equal_spec in Es as [Etot Efw].
  pose proof (minutes_signed_bounds fromisoformat local_utcoffset
                (in_this_week st) focus_sessions Hsess) as (M1 & M2).
  pose proof (minutes_signed_bounds fromisoformat local_utcoffset
                (in_last_week st sl) focus_sessions Hsess) as (M3 & _).
  cbv zeta in M1, M2, M3. fold M in M1, M2, M3.
  assert (TB : (M + 1) * Z.of_nat (length focus_sessions) <= B) by nia.
  destruct (total_focus_hours_signed tot) as (h & Eh & Bh); [lia|].
  rewrite Eh. cbn [mbind res_bind Py.bind].
  destruct (percentage_change_signed fw fl) as [p2 Ep2]; [lia | lia |].
  rewrite Ep2. cbn [mbind res_bind Py.bind].
  destruct (task_score_ok (Z.of_nat (length (List.filter is_complete tasks)))
              (Z.of_nat (length tasks)) CT) as [ts Ets].
  rewrite Ets. cbn [mbind res_bind Py.bind].
  pose proof (task_score_between _ _ _ CT Ets) as Bts.
  destruct (focus_score_signed h Bh) as (fs & Efs & Bfs).
  rewrite Efs.
  destruct (productivity_signed ts fs Bts Bfs) as (z & Ez).
  rewrite Ez. cbn [mbind res_bind Py.bind].
  destruct (add_activity_loop_ok fromisoformat local_utcoffset _ [] Htasks)
    as [acts Ea].
  rewrite Ea. cbn [mbind res_bind Py.bind].
  eexists. reflexivity.
Qed.

Lemma task_ok_spec task :
  task_ok fromisoformat local_utcoffset task = true
  <-> exists o,
        parse_timestamp fromisoformat local_utcoffset (get task "completed_at")
        = Ok o
        /\ (o <> None -> task !! "title" <> None).
Proof.
  unfold task_ok.
  destruct (parse_timestamp fromisoformat local_utcoffset
              (get task "completed_at")) as [[t|]|e].
  - destruct (task !! "title") as [v|]; split.
    + intros _. eexists. split; [reflexivity|]. discriminate.
    + reflexivity.
    + discriminate.
    + intros (o & E & H). injection E as <-. exfalso. apply H; [discriminate|].
      reflexivity.
  - split; [|reflexivity]. intros _. exists None. split; [reflexivity|].
    intros C. contradiction.
  - split; [discriminate|]. intros (o & E & _). discriminate E.
Qed.

Lemma session_fine_spec s :
  session_fine fromisoformat local_utcoffset s = true
  <-> (s !! "duration_minutes" = None
       \/ (exists b, s !! "duration_minutes" = Some (VBool b))
       \/ exists n, s !! "duration_minutes" = Some (VInt n)
                    /\ - max_int64 - 1 <= n <= max_int64)
      /\ is_ok (parse_timestamp fromisoformat local_utcoffset
                  (get s "created_at")) = true.
Proof.
  unfold session_fine, get_default. rewrite andb_true_iff.
  split; intros [H1 H2]; (split; [|exact H2]).
  - destruct (s !! "duration_minutes") as [[|b|n|x]|]; cbn [default] in H1;
      try discriminate H1.
    + right. left. eexists. reflexivity.
    + right. right. exists n. split; [reflexivity|].
      apply andb_true_iff in H1 as [A B]. apply Z.leb_le in A, B. lia.
    + left. reflexivity.
  - destruct H1 as [->|[(b & ->)|(n & -> & Hn)]]; cbn [default].
    + pose proof max_int64_pos. apply andb_true_iff.
      split; apply Z.leb_le; lia.
    + reflexivity.
    + apply andb_true_iff. split; apply Z.leb_le; lia.
Qed.

Lemma records_ok_spec today tasks focus_sessions :
  records_ok today tasks focus_sessions = true
  <-> (7 * Datetime.us_per_day <= today < Datetime.end_us
       /\ Z.of_nat (length tasks) <= max_int64
       /\ Z.of_nat (length focus_sessions) <= max_int64
       /\ (forall task,
             In task tasks -> is_complete task = true ->
             exists o,
               parse_timestamp fromisoformat local_utcoffset
                 (get task "completed_at") = Ok o
               /\ (o <> None -> task !! "title" <> None))
       /\ forall s,
            In s focus_sessions ->
            (s !! "duration_minutes" = None
             \/ (exists b, s !! "duration_minutes" = Some (VBool b))
             \/ exists n, s !! "duration_minutes" = Some (VInt n)
                          /\ - max_int64 - 1 <= n <= max_int64)
            /\ is_ok (parse_timestamp fromisoformat local_utcoffset
                        (get s "created_at")) = true).
Proof.
  unfold records_ok, now_ok.
  rewrite !andb_true_iff, !forallb_forall, !Z.leb_le, Z.ltb_lt.
  split.
  - intros ((((N & T) & S) & L1) & L2).
    split; [exact N|]. split; [exact L1|]. split; [exact L2|]. split.
    + intros task Hin Hc. apply task_ok_spec. apply T.
      apply List.filter_In. split; assumption.
    + intros s Hin. apply session_fine_spec. apply S. exact Hin.
  - intros (N & L1 & L2 & T & S).
    repeat split; try assumption; try apply N.
    + intros task Hin. apply List.filter_In in Hin as [Hin Hc].
      apply task_ok_spec. apply T; assumption.
    + intros s Hin. apply session_fine_spec. apply S. exact Hin.
Qed.

End SignedWhole.

(** * The claims *)

(** C7: for every task list, [tasks_completed_count] is the number of tasks
    whose completion flag is true, [total_tasks] is the length of the list,
    [active_tasks_count] is their difference, the two counts are
    non-negative and add up to the total, the completed count never exceeds
    the total, and [task_score] lies in 0..100 whenever the total is
    positive.  The run completes on well-formed inputs. *)
Theorem task_counts_spec :
  forall (fromisoformat : string -> res Datetime.t)
         (local_utcoffset : Z -> res Z)
         (today : Z) (tasks focus_sessions : list (gmap string value)),
    (inputs_ok fromisoformat local_utcoffset today tasks focus_sessions = true ->
     exists l,
       dashboard fromisoformat local_utcoffset today tasks focus_sessions = Ok l)
    /\ forall l,
        dashboard fromisoformat local_utcoffset today tasks focus_sessions = Ok l ->
        tasks_completed_count l
        = Z.of_nat (length (List.filter (fun task => truthy (get task "is_complete")) tasks))
        /\ total_tasks l = Z.of_nat (length tasks)
        /\ active_tasks_count l = total_tasks l - tasks_completed_count l
        /\ active_tasks_count l + tasks_completed_count l = total_tasks l
        /\ 0 <= active_tasks_count l
        /\ 0 <= tasks_completed_count l
        /\ tasks_completed_count l <= total_tasks l
        /\ (0 < total_tasks l -> Float.between 0 100 (task_score l)).
Proof.
  intros fromisoformat local_utcoffset today tasks focus_sessions.
  split; [apply dashboard_total|].
  intros l H. apply dashboard_inv in H.
  destruct H as (Ktc & Kc & Ka & Kt & _ & _ & _ & _ & _ & _ & _ & Kts & _).
  pose proof (completed_le_total tasks) as CT.
  rewrite Ktc in Kc. fold is_complete.
  repeat split; try lia.
  intros _. rewrite Kc, Kt in Kts.
  eapply task_score_between; [exact CT | exact Kts].
Qed.

Lemma task_counts_witness :
  exists l,
    Sample.run Sample.today Sample.tasks Sample.focus_sessions = Ok l
    /\ tasks_completed_count l = 3
    /\ total_tasks l = 4
    /\ active_tasks_count l = 1
    /\ Float.between 0 100 (task_score l).
Proof.
  destruct (task_counts_spec Iso.fromisoformat Iso.utc_host Sample.today
              Sample.tasks Sample.focus_sessions) as [T P].
  destruct T as [l E]; [vm_compute; reflexivity|].
  exists l. split; [exact E|].
  destruct (P l E) as (A & B & C & _ & _ & _ & _ & D).
  split; [rewrite A; reflexivity|].
  split; [exact B|].
  split; [rewrite C, A, B; reflexivity|].
  apply D. rewrite B. reflexivity.
Defined.

(** A field of a completed run, read off the run. *)
Lemma field_of_run {A} (f : locals -> A) (d : A) (r : res locals) l :
  r = Ok l ->
  f l = match r with
        | Ok l' => f l'
        | Raise _ => d
        end.
Proof. intros ->. reflexivity. Qed.

Section FocusScore.
Local Open Scope Q_scope.

(** Line 308 is the smaller of the two numbers. *)
Lemma focus_score_as_spec h :
  Float.min (Float.mul h Float.c5) Float.c100 = spec_focus_score h.
Proof.
  unfold spec_focus_score.
  destruct (Float.mul h Float.c5) as [x|[|]|]; try reflexivity.
  unfold Float.min, Float.ltb, Float.c100.
  destruct (Qle_bool x 100); reflexivity.
Qed.

(** Line 308 on hours that are not negative. *)
Lemma focus_score_value (h : Q) :
  0 <= h ->
  spec_focus_score (Float.Fin h)
  = Float.Fin (if Qle_bool (Float.rnd (h * 5)) 100
               then Float.rnd (h * 5) else 100).
Proof.
  intros Hh. unfold spec_focus_score, Float.mul, Float.c5, Float.of_Q.
  assert (P : 0 <= h * 5) by nra.
  pose proof (rnd_mono _ _ P) as R. rewrite rnd_0 in R.
  destruct (Qle_bool (Qabs (Float.rnd (h * 5))) Float.max_float) eqn:E;
    [reflexivity|].
  apply Qle_bool_iff in R. rewrite R. cbn [negb].
  destruct (Qle_bool (Float.rnd (h * 5)) 100) eqn:F; [|reflexivity].
  exfalso. apply Qle_bool_iff in F, R.
  assert (A : Qabs (Float.rnd (h * 5)) <= Float.max_float).
  { apply Qabs_Qle_condition.
    assert (100 <= Float.max_float) by (unfold Qle; vm_compute; discriminate).
    split; lra. }
  apply Qle_bool_iff in A. congruence.
Qed.

(** Line 305 in closed form. *)
Lemma task_score_value (c t : Z) x :
  (0 <= c <= t)%Z -> (0 < t)%Z ->
  (if (0 <? t)%Z then
     q ← Float.int_truediv c t; Ok (Float.mul q Float.c100)
   else Ok Float.c0) = Ok x ->
  x = Float.Fin (Float.rnd (Float.rnd (inject_Z c / inject_Z t) * 100)).
Proof.
  intros Hc Ht E.
  pose proof (task_score_between c t x Hc E) as B.
  apply Z.ltb_lt in Ht. rewrite Ht in E.
  destruct (Float.int_truediv c t) as [q|e] eqn:D;
    cbn [mbind res_bind Py.bind] in E; [|discriminate E].
  apply int_truediv_inv in D as [_ ->]. injection E as <-.
  unfold Float.mul, Float.c100 in *.
  destruct (Float.of_Q _) as [r| |] eqn:F; simpl in B; try contradiction.
  apply of_Q_inv in F. subst r. reflexivity.
Qed.

End FocusScore.

(** C1: the aggregator computes [task_score] as the completed fraction times
    100 when there are tasks and 0 otherwise, [focus_score] as the smaller of
    [total_focus_hours * 5] and 100, and [productivity_score] as the rounded
    weighted sum [task_score * 0.7 + focus_score * 0.3]; with non-negative
    focus minutes the focus score is the rounded product when that is at
    most 100 and 100 otherwise, and the productivity score lies in 0..100.
    The run completes on well-formed inputs, whose focus minutes are
    non-negative. *)
Theorem productivity_score_spec :
  forall (fromisoformat : string -> res Datetime.t)
         (local_utcoffset : Z -> res Z)
         (today : Z) (tasks focus_sessions : list (gmap string value)),
    (inputs_ok fromisoformat local_utcoffset today tasks focus_sessions = true ->
     exists l,
       dashboard fromisoformat local_utcoffset today tasks focus_sessions = Ok l
       /\ 0 <= total_focus_minutes l)
    /\ forall l,
        dashboard fromisoformat local_utcoffset today tasks focus_sessions = Ok l ->
        (0 < total_tasks l ->
           exists q,
             Float.int_truediv (tasks_completed_count l) (total_tasks l) = Ok q
             /\ task_score l = Float.mul q Float.c100)
        /\ (0 < total_tasks l ->
            task_score l
            = Float.Fin
                (Float.rnd
                   (Float.rnd (inject_Z (tasks_completed_count l)
                               / inject_Z (total_tasks l)) * 100)))
        /\ (total_tasks l = 0 -> task_score l = Float.c0)
        /\ focus_score l
           = Float.min (Float.mul (total_focus_hours l) Float.c5) Float.c100
        /\ focus_score l = spec_focus_score (total_focus_hours l)
        /\ (0 <= total_focus_minutes l ->
            exists h,
              total_focus_hours l = Float.Fin h
              /\ (0 <= h)%Q
              /\ focus_score l
                 = Float.Fin (if Qle_bool (Float.rnd (h * 5)) 100
                              then Float.rnd (h * 5) else 100%Q)
              /\ Float.between 0 100 (focus_score l))
        /\ Float.round
             (Float.add (Float.mul (task_score l) Float.c0_7)
                        (Float.mul (focus_score l) Float.c0_3))
           = Ok (productivity_score l)
        /\ (0 <= total_focus_minutes l -> 0 <= productivity_score l <= 100).
Proof.
  intros fromisoformat local_utcoffset today tasks focus_sessions.
  split.
  - intros Hok. destruct (dashboard_total _ _ _ _ _ Hok) as [l E].
    exists l. split; [exact E|].
    apply dashboard_inv in E.
    destruct E as (_ & _ & _ & _ & _ & _ & _ & _ & Ks & _).
    apply add_session_loop in Ks.
    apply pair_equal_spec in Ks as [Ks _].
    apply pair_equal_spec in Ks as [Kt _].
    unfold inputs_ok in Hok. do 4 (apply andb_true_iff in Hok as [Hok ?]).
    pose proof (minutes_bounds fromisoformat local_utcoffset (fun _ => true)
                  focus_sessions H1) as (A & B & _).
    lia.
  - intros l H. apply dashboard_inv in H.
    destruct H as (Ktc & Kc & _ & Kt & _ & _ & _ & _ & _ & Kh & _ & Kts & Kfs
                   & Kps & _).
    pose proof (completed_le_total tasks) as CT.
    assert (Bts : Float.between 0 100 (task_score l)).
    { rewrite Ktc in Kc. pose proof Kts as Kts'. rewrite Kc, Kt in Kts'.
      eapply task_score_between; [exact CT | exact Kts']. }
    assert (Fh : 0 <= total_focus_minutes l ->
                 exists h,
                   total_focus_hours l = Float.Fin h
                   /\ (0 <= h)%Q
                   /\ focus_score l
                      = Float.Fin (if Qle_bool (Float.rnd (h * 5)) 100
                                   then Float.rnd (h * 5) else 100%Q)
                   /\ Float.between 0 100 (focus_score l)).
    { intros Hm.
      destruct (total_focus_hours_nonneg _ _ Kh Hm) as (qh & Eh & Hq).
      exists qh. split; [exact Eh|]. split; [exact Hq|]. split.
      - rewrite Kfs, focus_score_as_spec, Eh. apply focus_score_value. exact Hq.
      - rewrite Kfs. apply (focus_score_between _ 0%Q qh).
        + apply Qle_refl.
        + rewrite Eh. simpl. split; [exact Hq | apply Qle_refl]. }
    split; [|split; [|split; [|split; [exact Kfs|split; [|split;
      [exact Fh|split; [exact Kps|]]]]]]].
    + intros Hpos. apply Z.ltb_lt in Hpos. rewrite Hpos in Kts.
      destruct (Float.int_truediv (tasks_completed_count l) (total_tasks l))
        as [q|e]; cbn [mbind res_bind Py.bind] in Kts; [|discriminate Kts].
      inversion Kts.
      exists q. split; reflexivity.
    + intros Hpos.
      assert (Hc : 0 <= tasks_completed_count l <= total_tasks l)
        by (rewrite Kc, Ktc, Kt; exact CT).
      apply (task_score_value _ _ _ Hc Hpos Kts).
    + intros Hz. rewrite Hz in Kts. cbn in Kts. inversion Kts. reflexivity.
    + rewrite Kfs. apply focus_score_as_spec.
    + intros Hm. destruct (Fh Hm) as (h & _ & _ & _ & Bfs).
      destruct (productivity_between _ _ Bts Bfs) as (z & Ez & Hz).
      rewrite Kps in Ez. inversion Ez. lia.
Qed.

Lemma productivity_score_witness :
  exists l1 l2,
    Sample.run Sample.today Sample.tasks Sample.focus_sessions = Ok l1
    /\ total_focus_hours l1 = Float.of_Q (102 # 5)
    /\ task_score l1 = Float.Fin 75
    /\ focus_score l1 = Float.Fin 100
    /\ productivity_score l1 = 82
    /\ 0 <= productivity_score l1 <= 100
    /\ Sample.run Sample.today Sample.tasks [Sample.session_c] = Ok l2
    /\ total_focus_hours l2 = Float.of_Q (4 # 10)
    /\ focus_score l2 = spec_focus_score (total_focus_hours l2)
    /\ focus_score l2 = Float.Fin 2
    /\ productivity_score l2 = 53
    /\ 0 <= productivity_score l2 <= 100.
Proof.
  destruct (productivity_score_spec Iso.fromisoformat Iso.utc_host Sample.today
              Sample.tasks Sample.focus_sessions) as [T P].
  destruct T as (l1 & E1 & Hm1); [vm_compute; reflexivity|].
  destruct (productivity_score_spec Iso.fromisoformat Iso.utc_host Sample.today
              Sample.tasks [Sample.session_c]) as [T' P'].
  destruct T' as (l2 & E2 & Hm2); [vm_compute; reflexivity|].
  exists l1, l2. split; [exact E1|].
  destruct (P l1 E1) as (_ & _ & _ & _ & _ & _ & _ & R1).
  destruct (P' l2 E2) as (_ & _ & _ & _ & S2 & _ & _ & R2).
  specialize (R1 Hm1). specialize (R2 Hm2).
  split; [rewrite (field_of_run total_focus_hours Float.NaN _ _ E1);
          vm_compute; reflexivity|].
  split; [rewrite (field_of_run task_score Float.NaN _ _ E1);
          vm_compute; reflexivity|].
  split; [rewrite (field_of_run focus_score Float.NaN _ _ E1);
          vm_compute; reflexivity|].
  split; [rewrite (field_of_run productivity_score 0 _ _ E1);
          vm_compute; reflexivity|].
  split; [exact R1|]. split; [exact E2|].
  split; [rewrite (field_of_run total_focus_hours Float.NaN _ _ E2);
          vm_compute; reflexivity|].
  split; [exact S2|].
  split; [rewrite (field_of_run focus_score Float.NaN _ _ E2);
          vm_compute; reflexivity|].
  split; [rewrite (field_of_run productivity_score 0 _ _ E2);
          vm_compute; reflexivity|].
  exact R2.
Defined.

Section Changes.

Context (fromisoformat : string -> res Datetime.t).
Context (local_utcoffset : Z -> res Z).

(** The code's rule is the amended one for all figures, and the stated one
    when last week is not negative. *)
Lemma percentage_change_as_amended (this_week last_week : Z) :
  percentage_change this_week last_week
  = amended_percentage_change this_week last_week.
Proof.
  unfold percentage_change, amended_percentage_change.
  rewrite !Z.gtb_ltb.
  destruct (Z.ltb_spec 0 last_week) as [Hpos|Hle]; [reflexivity|].
  replace (last_week <=? 0) with true by (symmetry; apply Z.leb_le; exact Hle).
  reflexivity.
Qed.

(** Weekly minute sums of sessions without a negative duration. *)
Lemma minutes_where_nonneg p l :
  Forall (fun s => 0 <= duration_minutes s) l ->
  0 <= minutes_where fromisoformat local_utcoffset p l.
Proof.
  intros F. induction F as [|s l Hs F IH].
  - unfold minutes_where. simpl. lia.
  - rewrite minutes_where_cons.
    destruct (parsed fromisoformat local_utcoffset (get s "created_at"))
      as [t|]; [destruct (p t)|]; lia.
Qed.

End Changes.

(** C2 as stated fails on the focus change: the weekly minute sums are sums
    of the durations as stored, a negative duration makes last week's sum
    negative, and the code then shows 100 for a positive this week where the
    stated rule gives 0. *)
Lemma negative_minutes_counterexample :
  exists l,
    Sample.run Sample.today [] [Sample.session_short; Sample.session_refund]
    = Ok l
    /\ (focus_this_week_min l, focus_last_week_min l) = (10, -30)
    /\ focus_percentage_change l = 100
    /\ spec_percentage_change (focus_this_week_min l) (focus_last_week_min l)
       = Ok 0
    /\ spec_percentage_change (focus_this_week_min l) (focus_last_week_min l)
       <> Ok (focus_percentage_change l).
Proof.
  eexists. split; [vm_compute; reflexivity|].
  split; [reflexivity|]. split; [reflexivity|]. split; [reflexivity|].
  vm_compute. discriminate.
Qed.

(** C2, amended: for the weekly figures the aggregator produced, the change
    is the rounded relative change [round(((this - last) / last) * 100)]
    when last week is positive, 100 when last week is zero or negative and
    this week is positive, and 0 otherwise.  The weekly task counts are
    never negative, so the task change follows the rule as first stated
    (100 only when last week is 0), and last week 4 and this week 2 give
    -50.  The weekly minute sums follow the rule as first stated when last
    week's sum is not negative, which holds when no session has a negative
    duration; a negative last week with a positive this week gives 100.
    The run completes on well-formed inputs, of either sign. *)
Theorem percentage_change_spec :
  forall (fromisoformat : string -> res Datetime.t)
         (local_utcoffset : Z -> res Z)
         (today : Z) (tasks focus_sessions : list (gmap string value)),
    (inputs_ok fromisoformat local_utcoffset today tasks focus_sessions = true ->
     exists l,
       dashboard fromisoformat local_utcoffset today tasks focus_sessions = Ok l
       /\ 0 <= focus_this_week_min l /\ 0 <= focus_last_week_min l)
    /\ (records_ok fromisoformat local_utcoffset today tasks focus_sessions = true ->
        exists l,
          dashboard fromisoformat local_utcoffset today tasks focus_sessions
          = Ok l)
    /\ (forall l,
          dashboard fromisoformat local_utcoffset today tasks focus_sessions = Ok l ->
          0 <= tasks_this_week_count l
          /\ 0 <= tasks_last_week_count l
          /\ spec_percentage_change (tasks_this_week_count l)
               (tasks_last_week_count l)
             = Ok (task_percentage_change l)
          /\ amended_percentage_change (tasks_this_week_count l)
               (tasks_last_week_count l)
             = Ok (task_percentage_change l)
          /\ amended_percentage_change (focus_this_week_min l)
               (focus_last_week_min l)
             = Ok (focus_percentage_change l)
          /\ (0 <= focus_last_week_min l ->
              spec_percentage_change (focus_this_week_min l)
                (focus_last_week_min l)
              = Ok (focus_percentage_change l))
          /\ (focus_last_week_min l < 0 -> 0 < focus_this_week_min l ->
              focus_percentage_change l = 100
              /\ spec_percentage_change (focus_this_week_min l)
                   (focus_last_week_min l) = Ok 0)
          /\ (Forall (fun s => 0 <= duration_minutes s) focus_sessions ->
              0 <= focus_this_week_min l /\ 0 <= focus_last_week_min l))
    /\ spec_percentage_change 2 4 = Ok (-50)
    /\ percentage_change 2 4 = Ok (-50)
    /\ (forall this_week last_week,
          0 <= last_week ->
          amended_percentage_change this_week last_week
          = spec_percentage_change this_week last_week)
    /\ forall this_week last_week z,
         percentage_change this_week last_week = Ok z ->
         0 < last_week ->
         z = Float.round_half_even
               (Float.rnd
                  (Float.rnd
                     (inject_Z (this_week - last_week) / inject_Z last_week)
                   * 100)).
Proof.
  intros fromisoformat local_utcoffset today tasks focus_sessions.
  split; [|split; [|split; [|split; [|split; [|split]]]]].
  - intros Hok. destruct (dashboard_total _ _ _ _ _ Hok) as [l E].
    exists l. split; [exact E|].
    apply dashboard_inv in E.
    destruct E as (_ & _ & _ & _ & _ & _ & _ & _ & Ks & _).
    apply add_session_loop in Ks.
    apply pair_equal_spec in Ks as [Ks Kl].
    apply pair_equal_spec in Ks as [_ Kt].
    unfold inputs_ok in Hok. do 4 (apply andb_true_iff in Hok as [Hok ?]).
    pose proof (minutes_bounds fromisoformat local_utcoffset
                  (in_this_week (start_of_this_week l)) focus_sessions H1)
      as (A & _).
    pose proof (minutes_bounds fromisoformat local_utcoffset
                  (in_last_week (start_of_this_week l) (start_of_last_week l))
                  focus_sessions H1) as (B & _).
    lia.
  - apply dashboard_total_signed.
  - intros l H. apply dashboard_inv in H.
    destruct H as (_ & _ & _ & _ & _ & _ & Kl & Kp & Ks & _ & Kf & _).
    apply count_task_loop in Kl. apply pair_equal_spec in Kl as [Kw Kv].
    pose proof (count_bounds (in_this_week (start_of_this_week l))
                  (completion_times fromisoformat local_utcoffset
                     (tasks_completed l))) as C1.
    pose proof (count_bounds
                  (in_last_week (start_of_this_week l) (start_of_last_week l))
                  (completion_times fromisoformat local_utcoffset
                     (tasks_completed l))) as C2.
    split; [lia|]. split; [lia|]. split.
    { rewrite <- percentage_change_as_spec by lia. exact Kp. }
    split.
    { rewrite <- percentage_change_as_amended. exact Kp. }
    split.
    { rewrite <- percentage_change_as_amended. exact Kf. }
    split.
    { intros Hf. rewrite <- percentage_change_as_spec by lia. exact Kf. }
    split.
    { intros Hneg Hpos. split.
      - apply percentage_change_inv in Kf as (_ & A & _). apply A; lia.
      - unfold spec_percentage_change.
        replace (focus_last_week_min l >? 0) with false
          by (symmetry; rewrite Z.gtb_ltb; apply Z.ltb_ge; lia).
        replace (focus_last_week_min l =? 0) with false
          by (symmetry; apply Z.eqb_neq; lia).
        reflexivity. }
    intros Hd.
    apply add_session_loop in Ks.
    apply pair_equal_spec in Ks as [Ks Kl'].
    apply pair_equal_spec in Ks as [_ Kt'].
    pose proof (minutes_where_nonneg fromisoformat local_utcoffset
                  (in_this_week (start_of_this_week l)) focus_sessions Hd).
    pose proof (minutes_where_nonneg fromisoformat local_utcoffset
                  (in_last_week (start_of_this_week l) (start_of_last_week l))
                  focus_sessions Hd).
    lia.
  - vm_compute. reflexivity.
  - vm_compute. reflexivity.
  - intros this_week last_week Hl.
    rewrite <- percentage_change_as_amended. apply percentage_change_as_spec.
    exact Hl.
  - intros this_week last_week z H Hpos.
    apply percentage_change_inv in H as (A & _). apply A. exact Hpos.
Qed.

Lemma percentage_change_witness :
  exists l l',
    Sample.run Sample.today Sample.tasks Sample.focus_sessions = Ok l
    /\ (tasks_this_week_count l, tasks_last_week_count l) = (1, 1)
    /\ task_percentage_change l = 0
    /\ (focus_this_week_min l, focus_last_week_min l) = (1200, 25)
    /\ spec_percentage_change 1200 25 = Ok (focus_percentage_change l)
    /\ focus_percentage_change l
       = Float.round_half_even
           (Float.rnd (Float.rnd (inject_Z (1200 - 25) / inject_Z 25) * 100))
    /\ focus_percentage_change l = 4700
    /\ Sample.run Sample.today [] [Sample.session_short; Sample.session_refund]
       = Ok l'
    /\ amended_percentage_change 10 (-30) = Ok (focus_percentage_change l')
    /\ focus_percentage_change l' = 100.
Proof.
  destruct (percentage_change_spec Iso.fromisoformat Iso.utc_host Sample.today
              Sample.tasks Sample.focus_sessions) as (T & _ & P & _ & _ & _ & F).
  destruct T as (l & E & H1 & H2); [vm_compute; reflexivity|].
  destruct (percentage_change_spec Iso.fromisoformat Iso.utc_host Sample.today
              [] [Sample.session_short; Sample.session_refund])
    as (_ & T' & P' & _).
  destruct T' as (l' & E'); [vm_compute; reflexivity|].
  exists l, l'. split; [exact E|].
  destruct (P l E) as (_ & _ & _ & _ & _ & R & _). specialize (R H2).
  destruct (P' l' E') as (_ & _ & _ & _ & R' & _ & N & _).
  assert (Ec : (tasks_this_week_count l, tasks_last_week_count l) = (1, 1)).
  { rewrite (field_of_run
               (fun l => (tasks_this_week_count l, tasks_last_week_count l))
               (0, 0) _ _ E).
    vm_compute. reflexivity. }
  assert (Ef : (focus_this_week_min l, focus_last_week_min l) = (1200, 25)).
  { rewrite (field_of_run
               (fun l => (focus_this_week_min l, focus_last_week_min l))
               (0, 0) _ _ E).
    vm_compute. reflexivity. }
  assert (Ef' : (focus_this_week_min l', focus_last_week_min l') = (10, -30)).
  { rewrite (field_of_run
               (fun l => (focus_this_week_min l, focus_last_week_min l))
               (0, 0) _ _ E').
    vm_compute. reflexivity. }
  apply pair_equal_spec in Ef as [Ef1 Ef2].
  apply pair_equal_spec in Ef' as [Ef1' Ef2'].
  rewrite Ef1, Ef2 in R. rewrite Ef1', Ef2' in R', N.
  split; [exact Ec|].
  split; [rewrite (field_of_run task_percentage_change 0 _ _ E);
          vm_compute; reflexivity|].
  split; [rewrite Ef1, Ef2; reflexivity|].
  split; [exact R|].
  split.
  { apply (F 1200 25); [|reflexivity].
    rewrite percentage_change_as_spec by lia. exact R. }
  split; [rewrite (field_of_run focus_percentage_change 0 _ _ E);
          vm_compute; reflexivity|].
  split; [exact E'|]. split; [exact R'|].
  apply N; lia.
Defined.

(** C3: the window boundary [start_of_this_week] is [today] moved back by its
    weekday index (Monday 0) in whole days, so it falls on a Monday and keeps
    the time of day of [today]; [start_of_last_week] is seven days earlier; a
    parsed timestamp [t] is counted in this week exactly when
    [start_of_this_week <= t], in last week exactly when
    [start_of_last_week <= t < start_of_this_week], and in neither window
    otherwise, while the lifetime totals count every record.  The run
    completes on well-formed inputs. *)
Theorem week_window_spec :
  forall (fromisoformat : string -> res Datetime.t)
         (local_utcoffset : Z -> res Z)
         (today : Z) (tasks focus_sessions : list (gmap string value)),
    (inputs_ok fromisoformat local_utcoffset today tasks focus_sessions = true ->
     exists l,
       dashboard fromisoformat local_utcoffset today tasks focus_sessions = Ok l)
    /\ forall l,
        dashboard fromisoformat local_utcoffset today tasks focus_sessions = Ok l ->
        let this := start_of_this_week l in
        let last := start_of_last_week l in
        let completed := List.filter is_complete tasks in
        this = today - Datetime.weekday today * Datetime.us_per_day
        /\ Datetime.weekday this = 0
        /\ this mod Datetime.us_per_day = today mod Datetime.us_per_day
        /\ last = this - 7 * Datetime.us_per_day
        /\ (forall t,
              (in_this_week this t = true <-> this <= t)
              /\ (in_last_week this last t = true <-> last <= t < this)
              /\ (in_this_week this t = false /\ in_last_week this last t = false
                  <-> t < last))
        /\ tasks_this_week_count l
           = count (in_this_week this)
               (completion_times fromisoformat local_utcoffset completed)
        /\ tasks_last_week_count l
           = count (in_last_week this last)
               (completion_times fromisoformat local_utcoffset completed)
        /\ focus_this_week_min l
           = minutes_where fromisoformat local_utcoffset (in_this_week this)
               focus_sessions
        /\ focus_last_week_min l
           = minutes_where fromisoformat local_utcoffset
               (in_last_week this last) focus_sessions
        /\ tasks_completed_count l = Z.of_nat (length completed)
        /\ total_focus_minutes l
           = foldr Z.add 0 (map duration_minutes focus_sessions).
Proof.
  intros fromisoformat local_utcoffset today tasks focus_sessions.
  split; [apply dashboard_total|].
  intros l H this last completed. apply dashboard_inv in H.
  destruct H as (Ktc & Kc & _ & _ & Kst & Ksl & Kl & _ & Ks & _).
  apply sub_inv in Kst as [Est _]. apply sub_inv in Ksl as [Esl _].
  unfold Datetime.timedelta_days in Est, Esl.
  fold this in Est, Esl, Kl, Ks. fold last in Esl, Kl, Ks.
  apply count_task_loop in Kl. apply pair_equal_spec in Kl as [Kw Kv].
  apply add_session_loop in Ks. apply pair_equal_spec in Ks as [Ks Kfl].
  apply pair_equal_spec in Ks as [Ktot Kfw].
  rewrite Ktc in Kc, Kw, Kv. fold completed in Kc, Kw, Kv.
  pose proof (week_start_monday today) as [M1 M2].
  split; [exact Est|]. split; [rewrite Est; exact M1|].
  split; [rewrite Est; exact M2|]. split; [exact Esl|].
  split.
  { intros t. unfold in_this_week, in_last_week.
    rewrite us_per_day_value in Esl.
    destruct (Z.leb_spec this t), (Z.leb_spec last t), (Z.ltb_spec t this);
      simpl; repeat split; intros; try lia; try discriminate;
      try (destruct H2; discriminate). }
  repeat split; lia.
Qed.

Lemma week_window_witness :
  exists l,
    Sample.run Sample.today Sample.tasks Sample.focus_sessions = Ok l
    /\ Datetime.weekday Sample.today = 3
    /\ start_of_this_week l = Datetime.of_fields 2024 1 1 12 0 0 0
    /\ start_of_last_week l = Datetime.of_fields 2023 12 25 12 0 0 0
    /\ tasks_this_week_count l = 1
    /\ tasks_last_week_count l = 1
    /\ tasks_completed_count l = 3
    /\ (focus_this_week_min l, focus_last_week_min l, total_focus_minutes l)
       = (1200, 25, 1225).
Proof.
  destruct (week_window_spec Iso.fromisoformat Iso.utc_host Sample.today
              Sample.tasks Sample.focus_sessions) as [T P].
  destruct T as [l E]; [vm_compute; reflexivity|].
  exists l. split; [exact E|].
  destruct (P l E) as (A & _ & _ & B & _ & C & D & F & G & H & I).
  split; [reflexivity|].
  split; [rewrite A; reflexivity|].
  split; [rewrite B, A; reflexivity|].
  split; [rewrite C, A; vm_compute; reflexivity|].
  split; [rewrite D, B, A; vm_compute; reflexivity|].
  split; [rewrite H; reflexivity|].
  rewrite F, G, I, B, A. vm_compute. reflexivity.
Defined.

(** C4: [total_focus_minutes] is the sum of [duration_minutes] over all
    sessions, whatever their creation timestamp, a session without the key
    contributing 0 and not stopping the run; [total_focus_hours] is that sum
    divided by 60 and rounded to one decimal.  The run completes on
    well-formed inputs. *)
Theorem focus_totals_spec :
  forall (fromisoformat : string -> res Datetime.t)
         (local_utcoffset : Z -> res Z)
         (today : Z) (tasks focus_sessions : list (gmap string value)),
    (inputs_ok fromisoformat local_utcoffset today tasks focus_sessions = true ->
     exists l,
       dashboard fromisoformat local_utcoffset today tasks focus_sessions = Ok l)
    /\ (forall l,
          dashboard fromisoformat local_utcoffset today tasks focus_sessions = Ok l ->
          total_focus_minutes l
          = foldr Z.add 0 (map duration_minutes focus_sessions)
          /\ total_focus_hours l
             = Float.Fin
                 (Float.rnd
                    (inject_Z
                       (Float.round_half_even
                          (Float.rnd
                             (inject_Z (total_focus_minutes l) / inject_Z 60)
                           * 10)) / 10)))
    /\ forall s : gmap string value,
         s !! "duration_minutes" = None ->
         duration_minutes s = 0
         /\ (forall acc,
               int_add acc (get_default s "duration_minutes" (VInt 0)) = Ok acc)
         /\ session_ok fromisoformat local_utcoffset s
            = is_ok (parse_timestamp fromisoformat local_utcoffset
                       (get s "created_at")).
Proof.
  intros fromisoformat local_utcoffset today tasks focus_sessions.
  split; [apply dashboard_total|]. split.
  - intros l H. apply dashboard_inv in H.
    destruct H as (_ & _ & _ & _ & _ & _ & _ & _ & Ks & Kh & _).
    apply add_session_loop in Ks. apply pair_equal_spec in Ks as [Ks _].
    apply pair_equal_spec in Ks as [Ktot _].
    split; [lia|]. apply total_focus_hours_inv. exact Kh.
  - intros s Hs. unfold duration_minutes, session_ok, get_default.
    rewrite Hs. simpl. repeat split.
    intros acc. f_equal. lia.
Qed.

Lemma focus_totals_witness :
  exists l,
    Sample.run Sample.today Sample.tasks Sample.focus_sessions = Ok l
    /\ total_focus_minutes l = 1200 + 0 + 25
    /\ total_focus_hours l = Float.Fin (2871044762448691 # 140737488355328)
    /\ duration_minutes Sample.session_b = 0.
Proof.
  destruct (focus_totals_spec Iso.fromisoformat Iso.utc_host Sample.today
              Sample.tasks Sample.focus_sessions) as (T & P & S).
  destruct T as [l E]; [vm_compute; reflexivity|].
  exists l. split; [exact E|].
  destruct (P l E) as (A & B).
  split; [rewrite A; reflexivity|].
  split; [rewrite B, A; vm_compute; reflexivity|].
  apply (S Sample.session_b). reflexivity.
Defined.

Section Future.

Context (fromisoformat : string -> res Datetime.t).
Context (local_utcoffset : Z -> res Z).

(** An instant after [today] is in this week and not in last week. *)
Lemma future_in_this_week today tasks focus_sessions l t :
  dashboard fromisoformat local_utcoffset today tasks focus_sessions = Ok l ->
  today < t ->
  start_of_this_week l <= today
  /\ in_this_week (start_of_this_week l) t = true
  /\ in_last_week (start_of_this_week l) (start_of_last_week l) t = false.
Proof.
  intros H Hlt. apply dashboard_inv in H.
  destruct H as (_ & _ & _ & _ & Kst & _).
  apply sub_inv in Kst as [Est _]. unfold Datetime.timedelta_days in Est.
  pose proof (weekday_bounds today) as W.
  assert (Hle : start_of_this_week l <= today)
    by (rewrite Est, us_per_day_value; lia).
  split; [exact Hle|]. split.
  - apply Z.leb_le. lia.
  - unfold in_last_week. apply andb_false_iff. right. apply Z.ltb_ge. lia.
Qed.

End Future.

(** C10: the this-week window has no upper bound.  Each completed task
    whose parsed completion timestamp lies strictly after [today] is counted
    in the this-week count (one more than the other tasks give) and not in
    the last-week count, whatever the sessions are; each focus session whose
    parsed creation timestamp lies strictly after [today] adds its duration
    to the this-week minute sum and nothing to the last-week sum, whatever
    the tasks are.  The run completes on well-formed inputs. *)
Theorem future_records_count_this_week :
  forall (fromisoformat : string -> res Datetime.t)
         (local_utcoffset : Z -> res Z)
         (today : Z),
    (forall (tasks1 tasks2 focus_sessions : list (gmap string value))
            (task : gmap string value),
        let tasks := tasks1 ++ task :: tasks2 in
        (inputs_ok fromisoformat local_utcoffset today tasks focus_sessions
         = true ->
         exists l,
           dashboard fromisoformat local_utcoffset today tasks focus_sessions
           = Ok l)
        /\ forall l t,
            dashboard fromisoformat local_utcoffset today tasks focus_sessions
            = Ok l ->
            is_complete task = true ->
            parse_timestamp fromisoformat local_utcoffset
              (get task "completed_at") = Ok (Some t) ->
            today < t ->
            let this := start_of_this_week l in
            let last := start_of_last_week l in
            let others := List.filter is_complete (tasks1 ++ tasks2) in
            in_this_week this t = true
            /\ in_last_week this last t = false
            /\ tasks_this_week_count l
               = count (in_this_week this)
                   (completion_times fromisoformat local_utcoffset others) + 1
            /\ tasks_last_week_count l
               = count (in_last_week this last)
                   (completion_times fromisoformat local_utcoffset others)
            /\ 1 <= tasks_this_week_count l)
    /\ (forall (tasks sessions1 sessions2 : list (gmap string value))
               (focus_session : gmap string value),
          let focus_sessions := sessions1 ++ focus_session :: sessions2 in
          (inputs_ok fromisoformat local_utcoffset today tasks focus_sessions
           = true ->
           exists l,
             dashboard fromisoformat local_utcoffset today tasks focus_sessions
             = Ok l)
          /\ forall l u,
              dashboard fromisoformat local_utcoffset today tasks focus_sessions
              = Ok l ->
              parse_timestamp fromisoformat local_utcoffset
                (get focus_session "created_at") = Ok (Some u) ->
              today < u ->
              let this := start_of_this_week l in
              let last := start_of_last_week l in
              in_this_week this u = true
              /\ in_last_week this last u = false
              /\ focus_this_week_min l
                 = minutes_where fromisoformat local_utcoffset
                     (in_this_week this) (sessions1 ++ sessions2)
                   + duration_minutes focus_session
              /\ focus_last_week_min l
                 = minutes_where fromisoformat local_utcoffset
                     (in_last_week this last) (sessions1 ++ sessions2))
    /\ forall (tasks focus_sessions : list (gmap string value)) l t,
         dashboard fromisoformat local_utcoffset today tasks focus_sessions
         = Ok l ->
         start_of_this_week l <= t ->
         in_this_week (start_of_this_week l) t = true.
Proof.
  intros fromisoformat local_utcoffset today.
  split; [|split].
  - intros tasks1 tasks2 focus_sessions task tasks.
    split; [apply dashboard_total|].
    intros l t H Hc Ht Hlt this last others.
    destruct (future_in_this_week _ _ _ _ _ _ _ H Hlt) as (_ & It & Lt).
    fold this in It, Lt. fold last in Lt.
    apply dashboard_inv in H.
    destruct H as (Ktc & _ & _ & _ & _ & _ & Kl & _).
    fold this in Kl. fold last in Kl.
    apply count_task_loop in Kl. apply pair_equal_spec in Kl as [Kw Kv].
    rewrite Ktc in Kw, Kv. unfold tasks in Kw, Kv.
    rewrite List.filter_app in Kw, Kv. cbn [List.filter] in Kw, Kv.
    rewrite Hc in Kw, Kv.
    rewrite completion_times_app, completion_times_cons, (parsed_ok _ _ _ _ Ht),
      count_app, count_cons in Kw, Kv.
    rewrite It in Kw. rewrite Lt in Kv.
    unfold others.
    rewrite List.filter_app, completion_times_app, !count_app.
    pose proof (count_bounds (in_this_week this)
                  (completion_times fromisoformat local_utcoffset
                     (List.filter is_complete tasks1))) as B1.
    pose proof (count_bounds (in_this_week this)
                  (completion_times fromisoformat local_utcoffset
                     (List.filter is_complete tasks2))) as B2.
    repeat split; try assumption; lia.
  - intros tasks sessions1 sessions2 focus_session focus_sessions.
    split; [apply dashboard_total|].
    intros l u H Hu Hlu this last.
    destruct (future_in_this_week _ _ _ _ _ _ _ H Hlu) as (_ & Iu & Lu).
    fold this in Iu, Lu. fold last in Lu.
    apply dashboard_inv in H.
    destruct H as (_ & _ & _ & _ & _ & _ & _ & _ & Ks & _).
    fold this in Ks. fold last in Ks.
    apply add_session_loop in Ks. apply pair_equal_spec in Ks as [Ks Kfl].
    apply pair_equal_spec in Ks as [_ Kfw].
    unfold focus_sessions in Kfw, Kfl.
    rewrite minutes_where_app, minutes_where_cons, (parsed_ok _ _ _ _ Hu)
      in Kfw, Kfl.
    rewrite Iu in Kfw. rewrite Lu in Kfl.
    rewrite !minutes_where_app.
    repeat split; try assumption; lia.
  - intros tasks focus_sessions l t _ H. apply Z.leb_le. exact H.
Qed.

Lemma future_records_witness :
  exists l l',
    Sample.run Sample.today [Sample.task_a; Sample.task_f; Sample.task_b]
      [Sample.session_a] = Ok l
    /\ Sample.today < Datetime.of_fields 2031 5 6 7 8 9 0
    /\ tasks_this_week_count l = 1 + 1
    /\ tasks_last_week_count l = 1
    /\ focus_this_week_min l = 1200
    /\ Sample.run Sample.today [Sample.task_a]
         [Sample.session_a; Sample.session_f] = Ok l'
    /\ tasks_this_week_count l' = 1
    /\ focus_this_week_min l' = 1200 + 40
    /\ focus_last_week_min l' = 0.
Proof.
  destruct (future_records_count_this_week Iso.fromisoformat Iso.utc_host
              Sample.today) as (T & S & _).
  destruct (T [Sample.task_a] [Sample.task_b] [Sample.session_a] Sample.task_f)
    as [T1 T2].
  destruct T1 as [l E]; [vm_compute; reflexivity|].
  destruct (S [Sample.task_a] [Sample.session_a] [] Sample.session_f)
    as [S1 S2].
  destruct S1 as [l' E']; [vm_compute; reflexivity|].
  exists l, l'. split; [exact E|].
  split; [reflexivity|].
  destruct (T2 l (Datetime.of_fields 2031 5 6 7 8 9 0) E)
    as (_ & _ & A & B & _);
    [reflexivity | vm_compute; reflexivity | reflexivity |].
  destruct (S2 l' (Datetime.of_fields 2031 5 6 7 8 9 0) E')
    as (_ & _ & C & D); [vm_compute; reflexivity | reflexivity |].
  cbv zeta in A, B, C, D.
  rewrite (field_of_run start_of_this_week 0 _ _ E) in A, B.
  rewrite (field_of_run start_of_last_week 0 _ _ E) in B.
  rewrite (field_of_run start_of_this_week 0 _ _ E') in C, D.
  rewrite (field_of_run start_of_last_week 0 _ _ E') in D.
  split; [rewrite A; vm_compute; reflexivity|].
  split; [rewrite B; vm_compute; reflexivity|].
  split; [rewrite (field_of_run focus_this_week_min 0 _ _ E);
          vm_compute; reflexivity|].
  split; [exact E'|].
  split; [rewrite (field_of_run tasks_this_week_count 0 _ _ E');
          vm_compute; reflexivity|].
  split; [rewrite C; vm_compute; reflexivity|].
  rewrite D. vm_compute. reflexivity.
Defined.

(** ** The activity feed *)

Section Feed.

Context (fromisoformat : string -> res Datetime.t).
Context (local_utcoffset : Z -> res Z).

Local Abbreviation parse_timestamp :=
  (parse_timestamp fromisoformat local_utcoffset).
Local Abbreviation parsed := (parsed fromisoformat local_utcoffset).
Local Abbreviation completion_times :=
  (completion_times fromisoformat local_utcoffset).
Local Abbreviation add_activity := (add_activity fromisoformat local_utcoffset).
Local Abbreviation activity_of := (activity_of fromisoformat local_utcoffset).

Lemma parsed_Some v t : parsed v = Some t -> parse_timestamp v = Ok (Some t).
Proof.
  unfold parsed. destruct (parse_timestamp v) as [[t'|]|e]; intros H;
    inversion H. reflexivity.
Qed.

Lemma add_activity_loop_length l : forall acc r,
  for_each add_activity l acc = Ok r ->
  length r = (length acc + length (completion_times l))%nat.
Proof.
  induction l as [|task l IH]; intros acc r H.
  - inversion H. simpl. lia.
  - cbn [for_each] in H. unfold add_activity at 1 in H.
    rewrite completion_times_cons.
    destruct (parse_timestamp (get task "completed_at")) as [o|e] eqn:E;
      [|discriminate H].
    rewrite (parsed_ok _ _ _ _ E). cbn [mbind res_bind Py.bind] in H.
    destruct o as [t|]; [|apply IH in H; exact H].
    unfold getitem in H.
    destruct (task !! "title") as [title|]; [|discriminate H].
    cbn [Py.bind] in H. apply IH in H. rewrite H, length_app. simpl. lia.
Qed.

Lemma activity_of_inv task a :
  activity_of task = Some a ->
  exists title,
    task !! "title" = Some title
    /\ parse_timestamp (get task "completed_at") = Ok (Some (timestamp a))
    /\ description a
       = String.append "You completed task "
           (String.append dquote (String.append (str title) dquote)).
Proof.
  unfold activity_of. intros H.
  destruct (parsed (get task "completed_at")) as [t|] eqn:E;
    cbn [mbind option_bind] in H; [|discriminate H].
  destruct (task !! "title") as [title|];
    cbn [mbind option_bind] in H; [|discriminate H].
  inversion H. subst a. exists title. cbn [timestamp description].
  split; [reflexivity|]. split; [apply parsed_Some; exact E | reflexivity].
Qed.

End Feed.

(** C5 as stated fails: two tasks completed at the same instant both enter
    the feed, which is then not strictly descending. *)
Lemma feed_ties_counterexample :
  exists l,
    Sample.run Sample.today [Sample.task_a; Sample.task_e] [] = Ok l
    /\ map timestamp (feed l)
       = [Datetime.of_fields 2024 1 3 10 0 0 0;
          Datetime.of_fields 2024 1 3 10 0 0 0]
    /\ ~ strictly_descending (feed l).
Proof.
  eexists. split; [vm_compute; reflexivity|].
  split; [reflexivity|].
  unfold strictly_descending. intros H.
  inversion H as [|a l' _ F]; subst.
  inversion F as [|b l'' Hlt _]; subst.
  vm_compute in Hlt. discriminate Hlt.
Qed.

(** C5, amended: the activity list holds exactly one record, with the
    description [You completed task "<title>"] and the parsed timestamp, per
    completed task with a parseable completion timestamp (tasks without one
    are omitted); the feed is its first ten entries, so it has at most ten
    records, is descending by timestamp with equal timestamps allowed, and
    every record left out is no more recent than any record kept.  The run
    completes on well-formed inputs. *)
Theorem recent_activity_spec :
  forall (fromisoformat : string -> res Datetime.t)
         (local_utcoffset : Z -> res Z)
         (today : Z) (tasks focus_sessions : list (gmap string value)),
    (inputs_ok fromisoformat local_utcoffset today tasks focus_sessions = true ->
     exists l,
       dashboard fromisoformat local_utcoffset today tasks focus_sessions = Ok l)
    /\ forall l,
        dashboard fromisoformat local_utcoffset today tasks focus_sessions = Ok l ->
        let completed := List.filter is_complete tasks in
        Permutation (recent_activities l)
          (omap (activity_of fromisoformat local_utcoffset) completed)
        /\ length (recent_activities l)
           = length (completion_times fromisoformat local_utcoffset completed)
        /\ (forall a,
              In a (recent_activities l) ->
              exists task title,
                In task tasks
                /\ is_complete task = true
                /\ task !! "title" = Some title
                /\ parse_timestamp fromisoformat local_utcoffset
                     (get task "completed_at") = Ok (Some (timestamp a))
                /\ description a
                   = String.append "You completed task "
                       (String.append dquote
                          (String.append (str title) dquote)))
        /\ feed l = firstn 10 (recent_activities l)
        /\ (length (feed l) <= 10)%nat
        /\ descending (feed l)
        /\ (forall a b,
              In a (feed l) -> In b (skipn 10 (recent_activities l)) ->
              timestamp b <= timestamp a).
Proof.
  intros fromisoformat local_utcoffset today tasks focus_sessions.
  split; [apply dashboard_total|].
  intros l H completed. apply dashboard_inv in H.
  destruct H as (Ktc & _ & _ & _ & _ & _ & _ & _ & _ & _ & _ & _ & _ & _
                 & acts & Ka & Kr).
  rewrite Ktc in Ka. fold completed in Ka.
  pose proof (add_activity_loop_length _ _ _ _ _ Ka) as Hlen.
  apply add_activity_loop in Ka. simpl in Ka, Hlen. subst acts.
  assert (Hperm : Permutation (recent_activities l)
                    (omap (activity_of fromisoformat local_utcoffset) completed))
    by (rewrite Kr; apply sort_desc_perm).
  pose proof (sort_desc_sorted
                (omap (activity_of fromisoformat local_utcoffset) completed))
    as Hs.
  rewrite <- Kr in Hs.
  rewrite <- (firstn_skipn 10 (recent_activities l)) in Hs.
  apply descending_app in Hs as (S1 & _ & S3).
  split; [exact Hperm|].
  split; [rewrite (Permutation_length Hperm); exact Hlen|].
  split.
  { intros a Ha.
    apply (Permutation_in _ Hperm) in Ha.
    apply list_elem_of_In, list_elem_of_omap in Ha as (task & Hin & Hact).
    apply list_elem_of_In in Hin. unfold completed in Hin.
    apply List.filter_In in Hin as [Hin Hc].
    apply activity_of_inv in Hact as (title & A & B & C).
    exists task, title. auto. }
  split; [reflexivity|].
  split; [unfold feed; apply List.firstn_le_length|].
  split; [exact S1 | exact S3].
Qed.

Lemma recent_activity_witness :
  exists l,
    Sample.run Sample.today
      [Sample.task_b; Sample.task_d; Sample.task_a; Sample.task_e; Sample.task_c]
      [] = Ok l
    /\ map description (feed l)
       = [String.append "You completed task "
            (String.append dquote (String.append "write report" dquote));
          String.append "You completed task "
            (String.append dquote (String.append "send invoice" dquote));
          String.append "You completed task "
            (String.append dquote (String.append "book room" dquote))]
    /\ length (recent_activities l) = 3%nat
    /\ (length (feed l) <= 10)%nat
    /\ descending (feed l).
Proof.
  destruct (recent_activity_spec Iso.fromisoformat Iso.utc_host Sample.today
              [Sample.task_b; Sample.task_d; Sample.task_a; Sample.task_e;
               Sample.task_c] []) as [T P].
  destruct T as [l E]; [vm_compute; reflexivity|].
  exists l. split; [exact E|].
  destruct (P l E) as (_ & A & _ & _ & B & C & _).
  split; [|split; [rewrite A; reflexivity|split; [exact B|exact C]]].
  unfold Sample.run in E. vm_compute in E. inversion E. reflexivity.
Defined.


(** ** Timestamp parsing *)

Section Parsing.

Context (fromisoformat : string -> res Datetime.t).
Context (local_utcoffset : Z -> res Z).

Local Abbreviation parse_timestamp :=
  (parse_timestamp fromisoformat local_utcoffset).

Lemma append_assoc (a b c : string) :
  String.append (String.append a b) c = String.append a (String.append b c).
Proof.
  induction a as [|x a IH]; [reflexivity|].
  change (String x (String.append (String.append a b) c)
          = String x (String.append a (String.append b c))).
  f_equal. exact IH.
Qed.

Lemma replace_char_app old new s t :
  replace_char old new (String.append s t)
  = String.append (replace_char old new s) (replace_char old new t).
Proof.
  induction s as [|c s IH]; simpl; [reflexivity|].
  destruct (Ascii.eqb c old); rewrite IH;
    [symmetry; apply append_assoc | reflexivity].
Qed.

Lemma append_nonempty s c t :
  String.eqb (String.append s (String c t)) EmptyString = false.
Proof. destruct s; reflexivity. Qed.

Lemma parse_timestamp_falsy :
  parse_timestamp VNone = Ok None /\ parse_timestamp (VStr "") = Ok None.
Proof. split; reflexivity. Qed.

Lemma parse_timestamp_rejected s :
  fromisoformat (replace_char "Z" "+00:00" s) = Raise ValueError ->
  parse_timestamp (VStr s) = Ok None.
Proof.
  intros H. unfold parse_timestamp.
  destruct (truthy (VStr s)); [|reflexivity].
  cbn [negb]. rewrite H. reflexivity.
Qed.

Lemma parse_timestamp_suffix s :
  parse_timestamp (VStr (String.append s "Z"))
  = parse_timestamp (VStr (String.append s "+00:00")).
Proof.
  unfold parse_timestamp, truthy.
  rewrite !append_nonempty, !replace_char_app. reflexivity.
Qed.

End Parsing.

(** C6 as stated fails: a focus session whose duration is null stops the
    aggregation with a [TypeError], and a listed task without a title stops
    it with a [KeyError]. *)
Lemma null_duration_counterexample :
  Sample.run Sample.today Sample.tasks [Sample.session_a; Sample.session_null]
  = Raise TypeError
  /\ Sample.run Sample.today [Sample.task_untitled] [] = Raise KeyError.
Proof. split; vm_compute; reflexivity. Qed.

(** C6, amended: the aggregator completes on every task list and session
    list of at most 2^63-1 rows, read at an instant at least seven days after
    [datetime.min], in which each duration is absent, a boolean or an integer
    from -2^63 to 2^63-1, no creation timestamp and no completion timestamp
    of a completed task makes [parse_timestamp] raise, and each completed
    task whose completion timestamp parses has a title.  A timestamp that is
    absent, null, empty or rejected by [fromisoformat] parses to no value; a
    record carrying one is accepted, is left out of the weekly counts, the
    weekly minute sums and the activity list, and still counts in the
    lifetime totals; an absent duration is accepted and counts as 0. *)
Theorem aggregator_total :
  forall (fromisoformat : string -> res Datetime.t)
         (local_utcoffset : Z -> res Z)
         (today : Z) (tasks focus_sessions : list (gmap string value)),
    (records_ok fromisoformat local_utcoffset today tasks focus_sessions = true ->
     exists l,
       dashboard fromisoformat local_utcoffset today tasks focus_sessions = Ok l
       /\ tasks_completed_count l
          = Z.of_nat (length (List.filter is_complete tasks))
       /\ total_focus_minutes l
          = foldr Z.add 0 (map duration_minutes focus_sessions)
       /\ tasks_this_week_count l
          = count (in_this_week (start_of_this_week l))
              (completion_times fromisoformat local_utcoffset
                 (List.filter is_complete tasks))
       /\ focus_this_week_min l
          = minutes_where fromisoformat local_utcoffset
              (in_this_week (start_of_this_week l)) focus_sessions)
    /\ (records_ok fromisoformat local_utcoffset today tasks focus_sessions = true
        <-> (7 * Datetime.us_per_day <= today < Datetime.end_us
             /\ Z.of_nat (length tasks) <= max_int64
             /\ Z.of_nat (length focus_sessions) <= max_int64
             /\ (forall task,
                   In task tasks -> is_complete task = true ->
                   exists o,
                     parse_timestamp fromisoformat local_utcoffset
                       (get task "completed_at") = Ok o
                     /\ (o <> None -> task !! "title" <> None))
             /\ forall s,
                  In s focus_sessions ->
                  (s !! "duration_minutes" = None
                   \/ (exists b, s !! "duration_minutes" = Some (VBool b))
                   \/ exists n, s !! "duration_minutes" = Some (VInt n)
                                /\ - max_int64 - 1 <= n <= max_int64)
                  /\ is_ok (parse_timestamp fromisoformat local_utcoffset
                              (get s "created_at")) = true))
    /\ (inputs_ok fromisoformat local_utcoffset today tasks focus_sessions = true ->
        records_ok fromisoformat local_utcoffset today tasks focus_sessions = true)
    /\ (forall v,
          v = VNone \/ v = VStr ""
          \/ (exists s,
                v = VStr s
                /\ fromisoformat (replace_char "Z" "+00:00" s) = Raise ValueError) ->
          parse_timestamp fromisoformat local_utcoffset v = Ok None)
    /\ (forall task rest,
          parse_timestamp fromisoformat local_utcoffset (get task "completed_at")
          = Ok None ->
          task_ok fromisoformat local_utcoffset task = true
          /\ completion_times fromisoformat local_utcoffset (task :: rest)
             = completion_times fromisoformat local_utcoffset rest
          /\ omap (activity_of fromisoformat local_utcoffset) (task :: rest)
             = omap (activity_of fromisoformat local_utcoffset) rest)
    /\ (forall s rest p,
          parse_timestamp fromisoformat local_utcoffset (get s "created_at")
          = Ok None ->
          (s !! "duration_minutes" = None
           \/ exists n, s !! "duration_minutes" = Some (VInt n)
                        /\ - max_int64 - 1 <= n <= max_int64) ->
          session_fine fromisoformat local_utcoffset s = true
          /\ minutes_where fromisoformat local_utcoffset p (s :: rest)
             = minutes_where fromisoformat local_utcoffset p rest
          /\ foldr Z.add 0 (map duration_minutes (s :: rest))
             = duration_minutes s + foldr Z.add 0 (map duration_minutes rest))
    /\ (forall s rest p,
          parse_timestamp fromisoformat local_utcoffset (get s "created_at")
          = Ok None ->
          (s !! "duration_minutes" = None
           \/ exists n, s !! "duration_minutes" = Some (VInt n)
                        /\ 0 <= n <= max_int64) ->
          session_ok fromisoformat local_utcoffset s = true
          /\ minutes_where fromisoformat local_utcoffset p (s :: rest)
             = minutes_where fromisoformat local_utcoffset p rest
          /\ foldr Z.add 0 (map duration_minutes (s :: rest))
             = duration_minutes s + foldr Z.add 0 (map duration_minutes rest)).
Proof.
  intros fromisoformat local_utcoffset today tasks focus_sessions.
  split; [|split; [|split; [|split; [|split; [|split]]]]].
  - intros Hok. destruct (dashboard_total_signed _ _ _ _ _ Hok) as [l E].
    exists l. split; [exact E|].
    apply dashboard_inv in E.
    destruct E as (Ktc & Kc & _ & _ & _ & _ & Kl & _ & Ks & _).
    apply count_task_loop in Kl. apply pair_equal_spec in Kl as [Kw _].
    apply add_session_loop in Ks. apply pair_equal_spec in Ks as [Ks _].
    apply pair_equal_spec in Ks as [Kt Kf].
    rewrite Ktc in Kc, Kw. repeat split; lia.
  - apply records_ok_spec.
  - apply inputs_ok_records_ok.
  - intros v [->|[->|(s & -> & H)]].
    + reflexivity.
    + reflexivity.
    + apply parse_timestamp_rejected. exact H.
  - intros task rest H. unfold task_ok. rewrite H.
    split; [reflexivity|]. split.
    + rewrite completion_times_cons, (parsed_ok _ _ _ _ H). reflexivity.
    + change (omap (activity_of fromisoformat local_utcoffset) (task :: rest))
        with (match activity_of fromisoformat local_utcoffset task with
              | Some a => a :: omap (activity_of fromisoformat local_utcoffset) rest
              | None => omap (activity_of fromisoformat local_utcoffset) rest
              end).
      unfold activity_of at 1. rewrite (parsed_ok _ _ _ _ H). reflexivity.
  - intros s rest p H Hd. split; [|split].
    + unfold session_fine, get_default. rewrite H.
      destruct Hd as [->|(n & -> & Hn)]; simpl; [reflexivity|].
      rewrite andb_true_r. apply andb_true_iff.
      split; apply Z.leb_le; lia.
    + rewrite minutes_where_cons, (parsed_ok _ _ _ _ H). lia.
    + reflexivity.
  - intros s rest p H Hd. split; [|split].
    + unfold session_ok, get_default. rewrite H.
      destruct Hd as [->|(n & -> & Hn)]; simpl; [reflexivity|].
      rewrite andb_true_r. apply andb_true_iff.
      split; apply Z.leb_le; lia.
    + rewrite minutes_where_cons, (parsed_ok _ _ _ _ H). lia.
    + reflexivity.
Qed.

Lemma aggregator_total_witness :
  exists l,
    Sample.run Sample.today Sample.tasks
      [Sample.session_a; Sample.session_b; Sample.session_refund] = Ok l
    /\ parse_timestamp Iso.fromisoformat Iso.utc_host (VStr "yesterday") = Ok None
    /\ parse_timestamp Iso.fromisoformat Iso.utc_host
         (get Sample.session_b "created_at") = Ok None
    /\ session_fine Iso.fromisoformat Iso.utc_host Sample.session_b = true
    /\ session_ok Iso.fromisoformat Iso.utc_host Sample.session_b = true
    /\ task_ok Iso.fromisoformat Iso.utc_host Sample.task_d = true
    /\ inputs_ok Iso.fromisoformat Iso.utc_host Sample.today Sample.tasks
         [Sample.session_a; Sample.session_b; Sample.session_refund] = false
    /\ tasks_completed_count l = 3
    /\ tasks_this_week_count l = 1
    /\ total_focus_minutes l = 1170.
Proof.
  destruct (aggregator_total Iso.fromisoformat Iso.utc_host Sample.today
              Sample.tasks
              [Sample.session_a; Sample.session_b; Sample.session_refund])
    as (T & _ & _ & P & K & S & S').
  destruct T as (l & E & A & B & C & _); [vm_compute; reflexivity|].
  exists l. split; [exact E|].
  assert (Py : parse_timestamp Iso.fromisoformat Iso.utc_host (VStr "yesterday")
               = Ok None).
  { apply P. right. right. exists "yesterday"%string.
    split; [reflexivity | vm_compute; reflexivity]. }
  assert (Pg : parse_timestamp Iso.fromisoformat Iso.utc_host
                 (get Sample.session_b "created_at") = Ok None).
  { apply P. right. right. exists "garbage"%string.
    split; [reflexivity | vm_compute; reflexivity]. }
  split; [exact Py|]. split; [exact Pg|].
  split.
  { apply (S Sample.session_b [] (fun _ => true) Pg). left. reflexivity. }
  split.
  { apply (S' Sample.session_b [] (fun _ => true) Pg). left. reflexivity. }
  split.
  { apply (K Sample.task_d []). exact Py. }
  split; [vm_compute; reflexivity|].
  split; [rewrite A; vm_compute; reflexivity|].
  split; [rewrite C; rewrite (field_of_run start_of_this_week 0 _ _ E);
          vm_compute; reflexivity|].
  rewrite B. vm_compute. reflexivity.
Defined.

(** C8: a trailing [Z] is read as the offset [+00:00]:
    [parse_timestamp (s + "Z")] equals [parse_timestamp (s + "+00:00")] for
    every string [s], with any library parser; both spellings of
    2024-01-01T00:00:00 give that instant; an absent or empty value, and a
    string the parser rejects, parse to no value and not to an error. *)
Theorem parse_timestamp_Z_suffix :
  (forall (fromisoformat : string -> res Datetime.t)
          (local_utcoffset : Z -> res Z) (s : string),
     parse_timestamp fromisoformat local_utcoffset (VStr (String.append s "Z"))
     = parse_timestamp fromisoformat local_utcoffset
         (VStr (String.append s "+00:00")))
  /\ (forall local_utcoffset : Z -> res Z,
        parse_timestamp Iso.fromisoformat local_utcoffset
          (VStr "2024-01-01T00:00:00Z")
        = Ok (Some (Datetime.of_fields 2024 1 1 0 0 0 0))
        /\ parse_timestamp Iso.fromisoformat local_utcoffset
             (VStr "2024-01-01T00:00:00+00:00")
           = Ok (Some (Datetime.of_fields 2024 1 1 0 0 0 0)))
  /\ (forall (fromisoformat : string -> res Datetime.t)
             (local_utcoffset : Z -> res Z),
        parse_timestamp fromisoformat local_utcoffset VNone = Ok None
        /\ parse_timestamp fromisoformat local_utcoffset (VStr "") = Ok None
        /\ forall s,
             fromisoformat (replace_char "Z" "+00:00" s) = Raise ValueError ->
             parse_timestamp fromisoformat local_utcoffset (VStr s) = Ok None)
  /\ (forall (local_utcoffset : Z -> res Z) (s : string),
        Iso.parse (replace_char "Z" "+00:00" s) = None ->
        parse_timestamp Iso.fromisoformat local_utcoffset (VStr s) = Ok None).
Proof.
  split; [|split; [|split]].
  - intros. apply parse_timestamp_suffix.
  - intros local_utcoffset. split; vm_compute; reflexivity.
  - intros fromisoformat local_utcoffset.
    split; [reflexivity|]. split; [reflexivity|].
    intros s H. apply parse_timestamp_rejected. exact H.
  - intros local_utcoffset s H. apply parse_timestamp_rejected.
    unfold Iso.fromisoformat. rewrite H. reflexivity.
Qed.

Lemma parse_timestamp_Z_suffix_witness :
  parse_timestamp Iso.fromisoformat Iso.utc_host
    (VStr (String.append "2024-01-03T10:00:00.5" "Z"))
  = parse_timestamp Iso.fromisoformat Iso.utc_host
      (VStr (String.append "2024-01-03T10:00:00.5" "+00:00"))
  /\ parse_timestamp Iso.fromisoformat Iso.utc_host (VStr "2024-01-01T00:00:00ZZ")
     = Ok None
  /\ parse_timestamp Iso.fromisoformat Iso.utc_host (VStr "next Monday") = Ok None.
Proof.
  destruct parse_timestamp_Z_suffix as (A & _ & B & C).
  split; [apply A|]. split.
  - apply (B Iso.fromisoformat Iso.utc_host). vm_compute. reflexivity.
  - apply C. vm_compute. reflexivity.
Defined.

(** C9 fails on the code: [parse_timestamp] raises on a well-formed string.
    The conversion to UTC of a timestamp within its offset of [datetime.min]
    or [datetime.max] leaves the representable range and raises
    [OverflowError], which the handler of lines 213-214 does not catch; the
    exception then leaves [dashboard]. *)
Theorem parse_timestamp_overflow :
  forall local_utcoffset : Z -> res Z,
    Iso.fromisoformat Sample.early
    = Ok (Datetime.mk 0 (Some (3600 * Datetime.us_per_second)))
    /\ parse_timestamp Iso.fromisoformat local_utcoffset (VStr Sample.early)
       = Raise OverflowError
    /\ parse_timestamp Iso.fromisoformat local_utcoffset
         (VStr "9999-12-31T23:59:59-01:00") = Raise OverflowError
    /\ dashboard Iso.fromisoformat local_utcoffset Sample.today
         [Sample.task_early] [] = Raise OverflowError.
Proof.
  intros local_utcoffset. repeat split; vm_compute; reflexivity.
Qed.

(** * Scenarios

    Evaluations of the model on the scenarios of the specification and on
    values where binary64 arithmetic differs from exact arithmetic. *)

(** No tasks and no sessions: every statistic is zero. *)
Example scenario_empty :
  exists l,
    Sample.run Sample.today [] [] = Ok l
    /\ (tasks_completed_count l, active_tasks_count l) = (0, 0)
    /\ (task_percentage_change l, focus_percentage_change l) = (0, 0)
    /\ total_focus_hours l = Float.Fin 0
    /\ productivity_score l = 0.
Proof. eexists. split; [vm_compute; reflexivity|]. repeat split. Qed.

(** One task completed this week and none last week: the change is 100. *)
Example scenario_first_week :
  exists l,
    Sample.run Sample.today [Sample.task_a] [] = Ok l
    /\ (tasks_this_week_count l, tasks_last_week_count l) = (1, 0)
    /\ task_percentage_change l = 100.
Proof. eexists. split; [vm_compute; reflexivity|]. repeat split. Qed.

(** 1200 minutes are 20.0 hours and saturate the focus score. *)
Example scenario_twenty_hours :
  exists l,
    Sample.run Sample.today [] [Sample.session_a] = Ok l
    /\ total_focus_minutes l = 1200
    /\ total_focus_hours l = Float.Fin 20
    /\ focus_score l = Float.Fin 100
    /\ productivity_score l = 30.
Proof. eexists. split; [vm_compute; reflexivity|]. repeat split. Qed.

(** [0.575 * 100] is [57.49999999999999] in binary64: the change from 200
    to 315 rounds to 57, where exact arithmetic would give 57.5 and 58. *)
Example scenario_binary64_rounding :
  percentage_change 315 200 = Ok 57
  /\ Float.mul (Float.of_Q (575 # 1000)) Float.c100
     = Float.Fin (8092405580431359 # 140737488355328).
Proof. split; vm_compute; reflexivity. Qed.

(** Ties go to the even integer: [round(2.5) = 2], [round(3.5) = 4],
    [round(-0.5) = 0], [round(-1.5) = -2]. *)
Example scenario_round_half_even :
  map Float.round_half_even [5 # 2; 7 # 2; -1 # 2; -3 # 2]%Q = [2; 4; 0; -2].
Proof. vm_compute. reflexivity. Qed.

(** Timestamps as the library reads them. *)
Example scenario_fromisoformat :
  Iso.fromisoformat "2024-01-01T00:00:00.123456+05:30"
  = Ok (Datetime.mk (Datetime.of_fields 2024 1 1 0 0 0 123456)
          (Some (19800 * Datetime.us_per_second)))
  /\ Iso.fromisoformat "2024-01-01"
     = Ok (Datetime.mk (Datetime.of_fields 2024 1 1 0 0 0 0) None)
  /\ Iso.fromisoformat "2024-13-01T00:00:00" = Raise ValueError
  /\ parse_timestamp Iso.fromisoformat Iso.utc_host
       (VStr "2024-01-01T00:00:00.123456+05:30")
     = Ok (Some (Datetime.of_fields 2023 12 31 18 30 0 123456))
  /\ parse_timestamp Iso.fromisoformat Iso.utc_host (VInt 5)
     = Raise AttributeError.
Proof. repeat split; vm_compute; reflexivity. Qed.

(** * The statistics, further

    Properties of the aggregator that the sections above do not state:
    how the scores move with their inputs, the ends of the scales, the
    independence from the order of the rows, the stable order of the feed
    and the shape of the two week windows. *)

Section RunFacts.

Context (fromisoformat : string -> res Datetime.t).
Context (local_utcoffset : Z -> res Z).

Local Abbreviation run := (dashboard fromisoformat local_utcoffset).
Local Abbreviation times := (completion_times fromisoformat local_utcoffset).
Local Abbreviation minutes := (minutes_where fromisoformat local_utcoffset).
Local Abbreviation act := (activity_of fromisoformat local_utcoffset).

(** A completed run in closed form. *)
Lemma run_closed_form today tasks focus_sessions l :
  run today tasks focus_sessions = Ok l ->
  let done := List.filter is_complete tasks in
  tasks_completed l = done
  /\ tasks_completed_count l = Z.of_nat (length done)
  /\ active_tasks_count l = Z.of_nat (length tasks) - Z.of_nat (length done)
  /\ total_tasks l = Z.of_nat (length tasks)
  /\ start_of_this_week l
     = today - Datetime.weekday today * Datetime.us_per_day
  /\ start_of_last_week l = start_of_this_week l - 7 * Datetime.us_per_day
  /\ tasks_this_week_count l
     = count (in_this_week (start_of_this_week l)) (times done)
  /\ tasks_last_week_count l
     = count (in_last_week (start_of_this_week l) (start_of_last_week l))
         (times done)
  /\ total_focus_minutes l = foldr Z.add 0 (map duration_minutes focus_sessions)
  /\ focus_this_week_min l
     = minutes (in_this_week (start_of_this_week l)) focus_sessions
  /\ focus_last_week_min l
     = minutes (in_last_week (start_of_this_week l) (start_of_last_week l))
         focus_sessions
  /\ recent_activities l = sort_desc (omap act done).
Proof.
  intros H done. apply dashboard_inv in H.
  destruct H as (K1 & K2 & K3 & K4 & K5 & K6 & K7 & K8 & K9 & K10 & K11 & K12
                 & K13 & K14 & acts & K15 & K16).
  fold done in K1. rewrite K1 in *.
  apply sub_inv in K5 as [K5 _]. apply sub_inv in K6 as [K6 _].
  unfold Datetime.timedelta_days in K5, K6.
  apply count_task_loop in K7. apply pair_equal_spec in K7 as [K7a K7b].
  apply add_session_loop in K9.
  apply pair_equal_spec in K9 as [K9 K9c].
  apply pair_equal_spec in K9 as [K9a K9b].
  apply add_activity_loop in K15. cbn [app] in K15. subst acts.
  repeat split; try assumption; try lia.
Qed.

(** Lines 246-247 read [today] only. *)
Lemma run_same_week today tasks1 sessions1 tasks2 sessions2 l1 l2 :
  run today tasks1 sessions1 = Ok l1 ->
  run today tasks2 sessions2 = Ok l2 ->
  start_of_this_week l2 = start_of_this_week l1
  /\ start_of_last_week l2 = start_of_last_week l1.
Proof.
  intros H1 H2.
  apply run_closed_form in H1 as (_ & _ & _ & _ & A1 & B1 & _).
  apply run_closed_form in H2 as (_ & _ & _ & _ & A2 & B2 & _).
  lia.
Qed.

(** Lines 260-264 and 292-296, 290: equal counts give equal results. *)
Lemma run_same_changes today1 tasks1 sessions1 today2 tasks2 sessions2 l1 l2 :
  run today1 tasks1 sessions1 = Ok l1 ->
  run today2 tasks2 sessions2 = Ok l2 ->
  (tasks_this_week_count l2 = tasks_this_week_count l1 ->
   tasks_last_week_count l2 = tasks_last_week_count l1 ->
   task_percentage_change l2 = task_percentage_change l1)
  /\ (focus_this_week_min l2 = focus_this_week_min l1 ->
      focus_last_week_min l2 = focus_last_week_min l1 ->
      focus_percentage_change l2 = focus_percentage_change l1)
  /\ (total_focus_minutes l2 = total_focus_minutes l1 ->
      total_focus_hours l2 = total_focus_hours l1
      /\ focus_score l2 = focus_score l1).
Proof.
  intros H1 H2. apply dashboard_inv in H1, H2.
  destruct H1 as (_ & _ & _ & _ & _ & _ & _ & P1 & _ & Q1 & R1 & _ & S1 & _).
  destruct H2 as (_ & _ & _ & _ & _ & _ & _ & P2 & _ & Q2 & R2 & _ & S2 & _).
  split; [|split].
  - intros A B. rewrite A, B in P2. congruence.
  - intros A B. rewrite A, B in R2. congruence.
  - intros A. rewrite A in Q2.
    assert (E : total_focus_hours l2 = total_focus_hours l1) by congruence.
    split; [exact E|]. rewrite S1, S2, E. reflexivity.
Qed.

End RunFacts.

Section ScoreOrder.
Local Open Scope Q_scope.

Lemma k7_value : Float.rnd (100 * (3152519739159347 # 4503599627370496)) == 70.
Proof. apply Qeq_bool_eq. vm_compute. reflexivity. Qed.

Lemma k3_value : Float.rnd (100 * (5404319552844595 # 18014398509481984)) == 30.
Proof. apply Qeq_bool_eq. vm_compute. reflexivity. Qed.

Lemma rnd_100 : Float.rnd 100 == 100.
Proof. apply Qeq_bool_eq. vm_compute. reflexivity. Qed.

(** The value of line 310 on scores between 0 and 100. *)
Lemma productivity_value (a b : Q) :
  0 <= a <= 100 -> 0 <= b <= 100 ->
  Float.round
    (Float.add (Float.mul (Float.Fin a) Float.c0_7)
               (Float.mul (Float.Fin b) Float.c0_3))
  = Ok (Float.round_half_even
          (Float.rnd
             (Float.rnd (a * (3152519739159347 # 4503599627370496))
              + Float.rnd (b * (5404319552844595 # 18014398509481984))))).
Proof.
  intros Ha Hb.
  rewrite c0_7_value, c0_3_value. unfold Float.mul.
  set (k7 := 3152519739159347 # 4503599627370496).
  set (k3 := 5404319552844595 # 18014398509481984).
  assert (K7 : 0 <= k7) by (unfold k7, Qle; simpl; lia).
  assert (K3 : 0 <= k3) by (unfold k3, Qle; simpl; lia).
  destruct (of_Q_ok 0 (100 * k7) (a * k7)) as [-> [L7 U7]];
    [split; nra | vm_compute; reflexivity |].
  destruct (of_Q_ok 0 (100 * k3) (b * k3)) as [-> [L3 U3]];
    [split; nra | vm_compute; reflexivity |].
  unfold k7 in U7. unfold k3 in U3. rewrite k7_value in U7. rewrite k3_value in U3.
  rewrite rnd_0 in L7, L3. fold k7 in U7, L7. fold k3 in U3, L3.
  set (x := Float.rnd (a * k7)) in *. set (y := Float.rnd (b * k3)) in *.
  unfold Float.add.
  destruct (of_Q_ok 0 100 (x + y)) as [-> _];
    [split; lra | vm_compute; reflexivity |].
  reflexivity.
Qed.

Lemma between_fin lo hi x :
  Float.between lo hi x -> exists q, x = Float.Fin q /\ lo <= q <= hi.
Proof. destruct x as [q| |]; simpl; intros H; [eauto | contradiction..]. Qed.

Lemma productivity_mono ts1 ts2 fs1 fs2 z1 z2 :
  Float.between 0 100 ts1 -> Float.between 0 100 ts2 ->
  Float.between 0 100 fs1 -> Float.between 0 100 fs2 ->
  float_le ts1 ts2 -> float_le fs1 fs2 ->
  Float.round (Float.add (Float.mul ts1 Float.c0_7) (Float.mul fs1 Float.c0_3))
  = Ok z1 ->
  Float.round (Float.add (Float.mul ts2 Float.c0_7) (Float.mul fs2 Float.c0_3))
  = Ok z2 ->
  (z1 <= z2)%Z.
Proof.
  intros B1 B2 B3 B4 Lt Lf E1 E2.
  apply between_fin in B1 as (a1 & -> & A1). apply between_fin in B2 as (a2 & -> & A2).
  apply between_fin in B3 as (b1 & -> & A3). apply between_fin in B4 as (b2 & -> & A4).
  simpl in Lt, Lf.
  rewrite productivity_value in E1, E2 by assumption.
  inversion E1; inversion E2; subst.
  apply round_half_even_mono, rnd_mono.
  apply Qplus_le_compat; apply rnd_mono.
  - apply Qmult_le_compat_r; [exact Lt | unfold Qle; simpl; lia].
  - apply Qmult_le_compat_r; [exact Lf | unfold Qle; simpl; lia].
Qed.

(** Line 308 is monotone in the hours. *)
Lemma focus_score_mono (x1 x2 : Q) :
  0 <= x1 <= x2 ->
  float_le (Float.min (Float.mul (Float.Fin x1) Float.c5) Float.c100)
           (Float.min (Float.mul (Float.Fin x2) Float.c5) Float.c100).
Proof.
  intros [H0 H12].
  assert (P1 : 0 <= x1 * 5) by nra.
  assert (P12 : x1 * 5 <= x2 * 5) by nra.
  pose proof (rnd_mono _ _ P1) as R1. rewrite rnd_0 in R1.
  pose proof (rnd_mono _ _ P12) as R12.
  assert (B1 : Float.between 0 100
                 (Float.min (Float.mul (Float.Fin x1) Float.c5) Float.c100)).
  { apply (focus_score_between _ 0 x1); [apply Qle_refl|]. simpl. split; [exact H0|apply Qle_refl]. }
  assert (B2 : Float.between 0 100
                 (Float.min (Float.mul (Float.Fin x2) Float.c5) Float.c100)).
  { apply (focus_score_between _ 0 x2); [apply Qle_refl|]. simpl. split; [lra|apply Qle_refl]. }
  unfold Float.mul, Float.c5, Float.c100 in *.
  destruct (of_Q_cases (x2 * 5)) as [E2|(s2 & E2 & Hs2)]; rewrite E2 in *.
  - destruct (of_Q_cases (x1 * 5)) as [E1|(s1 & E1 & Hs1)]; rewrite E1 in *.
    + unfold Float.min, Float.ltb in *.
      destruct (Qle_bool (Float.rnd (x1 * 5)) 100) eqn:C1;
        destruct (Qle_bool (Float.rnd (x2 * 5)) 100) eqn:C2; simpl in *.
      * exact R12.
      * apply Qle_bool_iff in C1. exact C1.
      * apply Qle_bool_iff in C2.
        assert (C : Float.rnd (x1 * 5) <= 100) by lra.
        apply Qle_bool_iff in C. congruence.
      * apply Qle_refl.
    + apply Qle_bool_iff in R1. rewrite R1 in Hs1. subst s1.
      exfalso.
      (* x1*5 overflowed but x2*5 did not *)
      unfold Float.of_Q in E1, E2.
      destruct (Qle_bool (Qabs (Float.rnd (x2 * 5))) Float.max_float) eqn:F2;
        [|discriminate E2].
      destruct (Qle_bool (Qabs (Float.rnd (x1 * 5))) Float.max_float) eqn:F1;
        [discriminate E1|].
      apply Qle_bool_iff in F2, R1.
      apply Qabs_Qle_condition in F2 as [_ F2].
      assert (F : Qabs (Float.rnd (x1 * 5)) <= Float.max_float).
      { apply Qabs_Qle_condition. split; [|lra].
        assert (0 <= Float.max_float) by (unfold Qle; vm_compute; discriminate).
        lra. }
      apply Qle_bool_iff in F. congruence.
  - assert (R2 : 0 <= Float.rnd (x2 * 5)) by lra.
    apply Qle_bool_iff in R2. rewrite R2 in Hs2. subst s2.
    destruct (between_fin _ _ _ B1) as (q & -> & Hq).
    simpl. apply Hq.
Qed.

End ScoreOrder.

Section QuotientOrder.
Local Open Scope Q_scope.

Lemma div_mono (n1 n2 d : Z) :
  (0 < d)%Z -> (n1 <= n2)%Z -> inject_Z n1 / inject_Z d <= inject_Z n2 / inject_Z d.
Proof.
  intros Hd H. apply Qmult_le_compat_r.
  - rewrite <- Zle_Qle. exact H.
  - apply Qlt_le_weak, Qinv_lt_0_compat, inject_Z_pos. exact Hd.
Qed.

(** Line 290 is monotone in the minutes. *)
Lemma total_focus_hours_mono (m1 m2 : Z) h1 h2 :
  (m1 <= m2)%Z ->
  (q ← Float.int_truediv m1 60; Float.round1 q) = Ok h1 ->
  (q ← Float.int_truediv m2 60; Float.round1 q) = Ok h2 ->
  float_le h1 h2.
Proof.
  intros Hm E1 E2.
  apply total_focus_hours_inv in E1, E2. subst h1 h2. simpl.
  apply rnd_mono. apply Qmult_le_compat_r; [|unfold Qle; simpl; lia].
  rewrite <- Zle_Qle. apply round_half_even_mono.
  apply Qmult_le_compat_r; [|unfold Qle; simpl; lia].
  apply rnd_mono. apply div_mono; [lia | exact Hm].
Qed.

(** Line 305 is monotone in the completed count. *)
Lemma task_score_mono (c1 c2 t : Z) x1 x2 :
  (0 <= c1 <= c2)%Z -> (c2 <= t)%Z ->
  (if (0 <? t)%Z then
     q ← Float.int_truediv c1 t; Ok (Float.mul q Float.c100)
   else Ok Float.c0) = Ok x1 ->
  (if (0 <? t)%Z then
     q ← Float.int_truediv c2 t; Ok (Float.mul q Float.c100)
   else Ok Float.c0) = Ok x2 ->
  float_le x1 x2.
Proof.
  intros Hc Ht E1 E2.
  assert (B1 : Float.between 0 100 x1)
    by (eapply task_score_between; [|exact E1]; lia).
  assert (B2 : Float.between 0 100 x2)
    by (eapply task_score_between; [|exact E2]; lia).
  destruct (Z.ltb_spec 0 t) as [Hpos|Hle].
  - destruct (Float.int_truediv c1 t) as [q1|e] eqn:D1;
      cbn [mbind res_bind Py.bind] in E1; [|discriminate E1].
    destruct (Float.int_truediv c2 t) as [q2|e] eqn:D2;
      cbn [mbind res_bind Py.bind] in E2; [|discriminate E2].
    apply int_truediv_inv in D1 as [_ ->]. apply int_truediv_inv in D2 as [_ ->].
    inversion E1; inversion E2; subst x1 x2. clear E1 E2.
    apply between_fin in B1 as (r1 & F1 & _). apply between_fin in B2 as (r2 & F2 & _).
    rewrite F1, F2. simpl.
    unfold Float.mul, Float.c100 in F1, F2.
    apply of_Q_inv in F1, F2. subst r1 r2.
    apply rnd_mono. apply Qmult_le_compat_r; [|unfold Qle; simpl; lia].
    apply rnd_mono. apply div_mono; [exact Hpos | lia].
  - inversion E1; inversion E2. simpl. apply Qle_refl.
Qed.

End QuotientOrder.

(** X1.  More completed tasks out of the same total, and more focus minutes,
    never lower any of the scores. *)
Theorem productivity_score_monotone :
  forall (fromisoformat : string -> res Datetime.t)
         (local_utcoffset : Z -> res Z)
         (today1 today2 : Z)
         (tasks1 sessions1 tasks2 sessions2 : list (gmap string value))
         (l1 l2 : locals),
    dashboard fromisoformat local_utcoffset today1 tasks1 sessions1 = Ok l1 ->
    dashboard fromisoformat local_utcoffset today2 tasks2 sessions2 = Ok l2 ->
    total_tasks l1 = total_tasks l2 ->
    tasks_completed_count l1 <= tasks_completed_count l2 ->
    0 <= total_focus_minutes l1 <= total_focus_minutes l2 ->
    float_le (task_score l1) (task_score l2)
    /\ float_le (total_focus_hours l1) (total_focus_hours l2)
    /\ float_le (focus_score l1) (focus_score l2)
    /\ productivity_score l1 <= productivity_score l2.
Proof.
  intros fromisoformat local_utcoffset today1 today2 tasks1 sessions1 tasks2
    sessions2 l1 l2 H1 H2 Ht Hc Hm.
  apply dashboard_inv in H1, H2.
  destruct H1 as (Ktc1 & Kc1 & _ & Kt1 & _ & _ & _ & _ & _ & Kh1 & _ & Kts1 & Kfs1
                  & Kps1 & _).
  destruct H2 as (Ktc2 & Kc2 & _ & Kt2 & _ & _ & _ & _ & _ & Kh2 & _ & Kts2 & Kfs2
                  & Kps2 & _).
  pose proof (completed_le_total tasks1) as CT1.
  pose proof (completed_le_total tasks2) as CT2.
  rewrite Ktc1 in Kc1. rewrite Ktc2 in Kc2.
  assert (Bts1 : Float.between 0 100 (task_score l1)).
  { eapply task_score_between; [|exact Kts1]. rewrite Kc1, Kt1. exact CT1. }
  assert (Bts2 : Float.between 0 100 (task_score l2)).
  { eapply task_score_between; [|exact Kts2]. rewrite Kc2, Kt2. exact CT2. }
  assert (Lts : float_le (task_score l1) (task_score l2)).
  { rewrite Ht in Kts1.
    eapply task_score_mono; [| |exact Kts1|exact Kts2]; [|rewrite Kc2, Kt2]; lia. }
  assert (Lh : float_le (total_focus_hours l1) (total_focus_hours l2)).
  { eapply total_focus_hours_mono; [|exact Kh1|exact Kh2]. lia. }
  destruct (total_focus_hours_nonneg _ _ Kh1) as (x1 & E1 & P1); [lia|].
  destruct (total_focus_hours_nonneg _ _ Kh2) as (x2 & E2 & P2); [lia|].
  rewrite E1, E2 in Lh. simpl in Lh.
  assert (Bfs1 : Float.between 0 100 (focus_score l1)).
  { rewrite Kfs1, E1. apply (focus_score_between _ 0%Q x1); [apply Qle_refl|].
    simpl. split; [exact P1|apply Qle_refl]. }
  assert (Bfs2 : Float.between 0 100 (focus_score l2)).
  { rewrite Kfs2, E2. apply (focus_score_between _ 0%Q x2); [apply Qle_refl|].
    simpl. split; [exact P2|apply Qle_refl]. }
  assert (Lfs : float_le (focus_score l1) (focus_score l2)).
  { rewrite Kfs1, Kfs2, E1, E2. apply focus_score_mono. split; assumption. }
  split; [exact Lts|]. split; [rewrite E1, E2; exact Lh|]. split; [exact Lfs|].
  eapply productivity_mono; [exact Bts1|exact Bts2|exact Bfs1|exact Bfs2
                            |exact Lts|exact Lfs|exact Kps1|exact Kps2].
Qed.

Lemma productivity_score_monotone_witness :
  exists l1 l2,
    Sample.run Sample.today Sample.tasks [Sample.session_c] = Ok l1
    /\ Sample.run Sample.today Sample.tasks Sample.focus_sessions = Ok l2
    /\ float_le (task_score l1) (task_score l2)
    /\ float_le (focus_score l1) (focus_score l2)
    /\ productivity_score l1 <= productivity_score l2.
Proof.
  destruct (Sample.run Sample.today Sample.tasks [Sample.session_c])
    as [l1|e] eqn:E1; [|vm_compute in E1; discriminate E1].
  destruct (Sample.run Sample.today Sample.tasks Sample.focus_sessions)
    as [l2|e] eqn:E2; [|vm_compute in E2; discriminate E2].
  exists l1, l2. split; [reflexivity|]. split; [reflexivity|].
  pose proof (run_closed_form _ _ _ _ _ _ E1)
    as (_ & A1 & _ & B1 & _ & _ & _ & _ & C1 & _).
  pose proof (run_closed_form _ _ _ _ _ _ E2)
    as (_ & A2 & _ & B2 & _ & _ & _ & _ & C2 & _).
  destruct (productivity_score_monotone Iso.fromisoformat Iso.utc_host
              Sample.today Sample.today Sample.tasks [Sample.session_c]
              Sample.tasks Sample.focus_sessions l1 l2 E1 E2)
    as (M1 & _ & M2 & M3).
  - rewrite B1, B2. reflexivity.
  - rewrite A1, A2. reflexivity.
  - rewrite C1, C2. vm_compute. split; discriminate.
  - split; [exact M1|]. split; [exact M2|exact M3].
Defined.

Section Extremes.
Local Open Scope Q_scope.

Lemma rnd_between lo hi x :
  lo <= x <= hi -> Float.rnd lo <= Float.rnd x <= Float.rnd hi.
Proof. intros [A B]. split; apply rnd_mono; assumption. Qed.

Lemma rnd_20 : Float.rnd 20 == 20.
Proof. apply Qeq_bool_eq. vm_compute. reflexivity. Qed.

Lemma rnd_1 : Float.rnd 1 == 1.
Proof. apply Qeq_bool_eq. vm_compute. reflexivity. Qed.

(** Twenty hours or more saturate line 308. *)
Lemma focus_score_saturates (x : Q) :
  20 <= x ->
  Float.between 100 100 (Float.min (Float.mul (Float.Fin x) Float.c5) Float.c100).
Proof.
  intros Hx.
  assert (P : 100 <= x * 5) by lra.
  pose proof (rnd_mono _ _ P) as R. rewrite rnd_100 in R.
  unfold Float.mul, Float.c5, Float.c100.
  destruct (of_Q_cases (x * 5)) as [->|(s & -> & Hs)].
  - unfold Float.min, Float.ltb.
    destruct (Qle_bool (Float.rnd (x * 5)) 100) eqn:E; simpl.
    + apply Qle_bool_iff in E. split; assumption.
    + split; apply Qle_refl.
  - assert (R0 : 0 <= Float.rnd (x * 5)) by lra.
    apply Qle_bool_iff in R0. rewrite R0 in Hs. subst s.
    simpl. split; apply Qle_refl.
Qed.

Lemma hours_at_least_20 (m : Z) h :
  (1200 <= m)%Z ->
  (q ← Float.int_truediv m 60; Float.round1 q) = Ok h ->
  exists x, h = Float.Fin x /\ 20 <= x.
Proof.
  intros Hm E. apply total_focus_hours_inv in E. subst h.
  eexists. split; [reflexivity|].
  assert (A : 20 <= Float.rnd (inject_Z m / inject_Z 60)).
  { rewrite <- rnd_20. apply rnd_mono.
    change 20 with (inject_Z 20). apply div_ge_bound; lia. }
  set (r := Float.rnd (inject_Z m / inject_Z 60)) in *.
  assert (B : (200 <= Float.round_half_even (r * 10))%Z).
  { rewrite <- (round_half_even_Z 200). apply round_half_even_mono.
    change (inject_Z 200) with 200. lra. }
  rewrite Zle_Qle in B. change (inject_Z 200) with 200 in B.
  rewrite <- rnd_20. apply rnd_mono.
  apply Qle_shift_div_l; [reflexivity|]. lra.
Qed.

Lemma hours_of_zero h :
  (q ← Float.int_truediv 0 60; Float.round1 q) = Ok h -> h = Float.Fin 0.
Proof.
  intros E. apply total_focus_hours_inv in E. subst h. vm_compute. reflexivity.
Qed.

Lemma quotient_one (t : Z) : (0 < t)%Z -> inject_Z t / inject_Z t == 1.
Proof.
  intros Ht. apply Qmult_inv_r. intros C.
  pose proof (inject_Z_pos t Ht) as P. rewrite C in P. discriminate P.
Qed.

Lemma quotient_zero (t : Z) : inject_Z 0 / inject_Z t == 0.
Proof. unfold Qdiv. apply Qmult_0_l. Qed.

(** Line 305 at its two ends. *)
Lemma task_score_ends (c t : Z) x :
  (0 <= c <= t)%Z ->
  (if (0 <? t)%Z then
     q ← Float.int_truediv c t; Ok (Float.mul q Float.c100)
   else Ok Float.c0) = Ok x ->
  ((0 < t)%Z -> c = t -> Float.between 100 100 x)
  /\ (c = 0%Z -> Float.between 0 0 x).
Proof.
  intros Hc E.
  pose proof (task_score_between c t x Hc E) as B.
  apply between_fin in B as (r & -> & _).
  destruct (Z.ltb_spec 0 t) as [Hpos|Hle].
  - destruct (Float.int_truediv c t) as [q|e] eqn:D;
      cbn [mbind res_bind Py.bind] in E; [|discriminate E].
    apply int_truediv_inv in D as [_ ->]. injection E as F.
    unfold Float.mul, Float.c100 in F. apply of_Q_inv in F. subst r.
    split.
    + intros _ ->. unfold Float.between.
      assert (Q1 : Float.rnd (inject_Z t / inject_Z t) == 1).
      { rewrite <- rnd_1. apply rnd_compat. apply quotient_one. exact Hpos. }
      assert (Q2 : Float.rnd (Float.rnd (inject_Z t / inject_Z t) * 100) == 100).
      { rewrite <- rnd_100 at 2. apply rnd_compat. rewrite Q1. reflexivity. }
      rewrite Q2. split; apply Qle_refl.
    + intros ->. unfold Float.between.
      assert (Q1 : Float.rnd (inject_Z 0 / inject_Z t) == 0).
      { rewrite (rnd_compat _ _ (quotient_zero t)), rnd_0. reflexivity. }
      assert (Q2 : Float.rnd (Float.rnd (inject_Z 0 / inject_Z t) * 100) == 0).
      { rewrite (rnd_compat _ 0), rnd_0; [reflexivity|]. rewrite Q1. reflexivity. }
      rewrite Q2. split; apply Qle_refl.
  - inversion E. split; [lia|]. intros _. simpl. split; apply Qle_refl.
Qed.

(** Line 310 between two pairs of scores. *)
Lemma productivity_interval (a1 a2 b1 b2 : Q) ts fs z :
  0 <= a1 -> a2 <= 100 -> 0 <= b1 -> b2 <= 100 ->
  Float.between a1 a2 ts -> Float.between b1 b2 fs ->
  Float.round (Float.add (Float.mul ts Float.c0_7) (Float.mul fs Float.c0_3))
  = Ok z ->
  (Float.round_half_even
     (Float.rnd
        (Float.rnd (a1 * (3152519739159347 # 4503599627370496))
         + Float.rnd (b1 * (5404319552844595 # 18014398509481984))))
   <= z
   <= Float.round_half_even
        (Float.rnd
           (Float.rnd (a2 * (3152519739159347 # 4503599627370496))
            + Float.rnd (b2 * (5404319552844595 # 18014398509481984)))))%Z.
Proof.
  intros A1 A2 B1 B2 Hts Hfs E.
  apply between_fin in Hts as (a & -> & Ha). apply between_fin in Hfs as (b & -> & Hb).
  rewrite productivity_value in E by (split; lra). inversion E. subst z.
  split; apply round_half_even_mono, rnd_mono, Qplus_le_compat; apply rnd_mono;
    (apply Qmult_le_compat_r; [lra | unfold Qle; simpl; lia]).
Qed.

End Extremes.

(** X2.  The ends of the score scale: a full task list scores 100 on tasks and
    an empty record 0; twenty hours of focus (1200 minutes) or more score 100
    on focus and no minutes 0; the productivity score is then 100, 70, 30 or
    0 according to which of the two is full. *)
Theorem score_extremes :
  forall (fromisoformat : string -> res Datetime.t)
         (local_utcoffset : Z -> res Z)
         (today : Z) (tasks focus_sessions : list (gmap string value))
         (l : locals),
    dashboard fromisoformat local_utcoffset today tasks focus_sessions = Ok l ->
    let full := 0 < total_tasks l /\ tasks_completed_count l = total_tasks l in
    let none := tasks_completed_count l = 0 in
    let saturated := 1200 <= total_focus_minutes l in
    let idle := total_focus_minutes l = 0 in
    (full -> Float.between 100 100 (task_score l))
    /\ (none -> Float.between 0 0 (task_score l))
    /\ (saturated -> Float.between 100 100 (focus_score l))
    /\ (idle -> Float.between 0 0 (focus_score l))
    /\ (full -> saturated -> productivity_score l = 100)
    /\ (full -> idle -> productivity_score l = 70)
    /\ (none -> saturated -> productivity_score l = 30)
    /\ (none -> idle -> productivity_score l = 0).
Proof.
  intros fromisoformat local_utcoffset today tasks focus_sessions l H
    full none saturated idle.
  apply dashboard_inv in H.
  destruct H as (Ktc & Kc & _ & Kt & _ & _ & _ & _ & _ & Kh & _ & Kts & Kfs
                 & Kps & _).
  pose proof (completed_le_total tasks) as CT.
  rewrite Ktc in Kc. rewrite <- Kc, <- Kt in CT.
  destruct (task_score_ends _ _ _ CT Kts) as [Tfull Tnone].
  assert (F1 : full -> Float.between 100 100 (task_score l))
    by (intros [A B]; apply Tfull; assumption).
  assert (F2 : none -> Float.between 0 0 (task_score l)) by exact Tnone.
  assert (F3 : saturated -> Float.between 100 100 (focus_score l)).
  { intros S. destruct (hours_at_least_20 _ _ S Kh) as (x & E & Hx).
    rewrite Kfs, E. apply focus_score_saturates. exact Hx. }
  assert (F4 : idle -> Float.between 0 0 (focus_score l)).
  { intros I. unfold idle in I. rewrite I in Kh. apply hours_of_zero in Kh.
    rewrite Kfs, Kh. vm_compute. split; discriminate. }
  split; [exact F1|]. split; [exact F2|]. split; [exact F3|]. split; [exact F4|].
  assert (V : forall a b (z : Z),
            (a = 0 \/ a = 100)%Q -> (b = 0 \/ b = 100)%Q ->
            Float.between a a (task_score l) -> Float.between b b (focus_score l) ->
            Float.round_half_even
              (Float.rnd
                 (Float.rnd (a * (3152519739159347 # 4503599627370496))
                  + Float.rnd (b * (5404319552844595 # 18014398509481984)))) = z ->
            productivity_score l = z).
  { intros a b z Ha Hb Bt Bf Ez.
    assert (R : (0 <= a /\ a <= 100 /\ 0 <= b /\ b <= 100)%Q).
    { destruct Ha as [->| ->], Hb as [->| ->]; repeat split; discriminate. }
    destruct R as (R1 & R2 & R3 & R4).
    pose proof (productivity_interval a a b b _ _ _ R1 R2 R3 R4 Bt Bf Kps) as P.
    rewrite Ez in P. lia. }
  repeat split; intros X Y.
  - apply (V 100%Q 100%Q);
      [right; reflexivity | right; reflexivity | apply F1; exact X
       | apply F3; exact Y | vm_compute; reflexivity].
  - apply (V 100%Q 0%Q);
      [right; reflexivity | left; reflexivity | apply F1; exact X
       | apply F4; exact Y | vm_compute; reflexivity].
  - apply (V 0%Q 100%Q);
      [left; reflexivity | right; reflexivity | apply F2; exact X
       | apply F3; exact Y | vm_compute; reflexivity].
  - apply (V 0%Q 0%Q);
      [left; reflexivity | left; reflexivity | apply F2; exact X
       | apply F4; exact Y | vm_compute; reflexivity].
Qed.

Lemma score_extremes_witness :
  exists l,
    Sample.run Sample.today [Sample.task_a; Sample.task_b] [Sample.session_a]
    = Ok l
    /\ productivity_score l = 100.
Proof.
  destruct (Sample.run Sample.today [Sample.task_a; Sample.task_b]
              [Sample.session_a]) as [l|e] eqn:E;
    [|vm_compute in E; discriminate E].
  exists l. split; [reflexivity|].
  pose proof (run_closed_form _ _ _ _ _ _ E)
    as (_ & A & _ & B & _ & _ & _ & _ & C & _).
  destruct (score_extremes Iso.fromisoformat Iso.utc_host Sample.today
              [Sample.task_a; Sample.task_b] [Sample.session_a] l E)
    as (_ & _ & _ & _ & P & _).
  apply P.
  - rewrite A, B. split; reflexivity.
  - rewrite C. vm_compute. discriminate.
Defined.

Section ChangeSign.
Local Open Scope Q_scope.

Lemma round_half_even_compat x y :
  x == y -> Float.round_half_even x = Float.round_half_even y.
Proof.
  intros E. apply Z.le_antisymm; apply round_half_even_mono; rewrite E;
    apply Qle_refl.
Qed.

Lemma change_value (k : Z) (x : Q) :
  x == inject_Z k ->
  Qeq_bool (Float.rnd (inject_Z k)) (inject_Z k) = true ->
  Qeq_bool (Float.rnd (inject_Z k * 100)) (inject_Z (k * 100)) = true ->
  Float.round_half_even (Float.rnd (Float.rnd x * 100)) = (k * 100)%Z.
Proof.
  intros E A B. apply Qeq_bool_eq in A, B.
  rewrite <- (round_half_even_Z (k * 100)). apply round_half_even_compat.
  rewrite <- B. apply rnd_compat.
  rewrite (rnd_compat _ _ E), A. reflexivity.
Qed.

Lemma quotient_eq (n d k : Z) :
  (0 < d)%Z -> (n = k * d)%Z -> inject_Z n / inject_Z d == inject_Z k.
Proof.
  intros Hd ->. rewrite inject_Z_mult. unfold Qdiv.
  rewrite <- Qmult_assoc, Qmult_inv_r, Qmult_1_r; [reflexivity|].
  intros C. pose proof (inject_Z_pos d Hd) as P. rewrite C in P. discriminate P.
Qed.

End ChangeSign.

(** X3.  With a positive last-week value and a non-negative this-week value,
    the percentage change is never below -100, is -100 exactly when this
    week is empty, 0 when the two weeks are equal, 100 when this week is the
    double, has the sign of the difference, and grows with this week. *)
Theorem percentage_change_sign :
  forall this_week last_week z : Z,
    0 <= this_week -> 0 < last_week ->
    percentage_change this_week last_week = Ok z ->
    -100 <= z
    /\ (this_week = 0 -> z = -100)
    /\ (this_week = last_week -> z = 0)
    /\ (this_week = 2 * last_week -> z = 100)
    /\ (this_week <= last_week -> z <= 0)
    /\ (last_week <= this_week -> 0 <= z)
    /\ forall this_week' z',
         this_week <= this_week' ->
         percentage_change this_week' last_week = Ok z' -> z <= z'.
Proof.
  intros this_week last_week z Ht Hl H.
  apply percentage_change_inv in H as (F & _). specialize (F Hl). subst z.
  assert (M : forall a b : Z,
            (a <= b)%Z ->
            Float.round_half_even
              (Float.rnd (Float.rnd (inject_Z (a - last_week) / inject_Z last_week) * 100))
            <= Float.round_half_even
                 (Float.rnd (Float.rnd (inject_Z (b - last_week) / inject_Z last_week) * 100))).
  { intros a b Hab. apply round_half_even_mono, rnd_mono.
    apply Qmult_le_compat_r; [|unfold Qle; simpl; lia].
    apply rnd_mono, div_mono; lia. }
  assert (V : forall (a k : Z),
            (a - last_week = k * last_week)%Z -> (-1 <= k <= 1)%Z ->
            Float.round_half_even
              (Float.rnd (Float.rnd (inject_Z (a - last_week) / inject_Z last_week) * 100))
            = k * 100).
  { intros a k E Hk. apply change_value.
    - apply quotient_eq; assumption.
    - assert (C : k = -1 \/ k = 0 \/ k = 1) by lia.
      destruct C as [->|[->| ->]]; vm_compute; reflexivity.
    - assert (C : k = -1 \/ k = 0 \/ k = 1) by lia.
      destruct C as [->|[->| ->]]; vm_compute; reflexivity. }
  pose proof (V 0 (-1) ltac:(lia) ltac:(lia)) as V0.
  pose proof (V last_week 0 ltac:(lia) ltac:(lia)) as V1.
  pose proof (V (2 * last_week) 1 ltac:(lia) ltac:(lia)) as V2.
  change (-1 * 100) with (-100) in V0. change (0 * 100) with 0 in V1.
  change (1 * 100) with 100 in V2.
  split; [rewrite <- V0; apply M; lia|].
  split; [intros ->; exact V0|].
  split; [intros ->; exact V1|].
  split; [intros ->; exact V2|].
  split; [intros Hle; rewrite <- V1; apply M; exact Hle|].
  split; [intros Hle; rewrite <- V1; apply M; exact Hle|].
  intros this_week' z' Hle H'.
  apply percentage_change_inv in H' as (F' & _). specialize (F' Hl). subst z'.
  apply M. exact Hle.
Qed.

Lemma percentage_change_sign_witness :
  percentage_change 2 4 = Ok (-50)
  /\ -100 <= -50
  /\ forall this_week' z',
       2 <= this_week' -> percentage_change this_week' 4 = Ok z' -> -50 <= z'.
Proof.
  assert (E : percentage_change 2 4 = Ok (-50)) by (vm_compute; reflexivity).
  split; [exact E|].
  destruct (percentage_change_sign 2 4 (-50) ltac:(lia) ltac:(lia) E)
    as (A & _ & _ & _ & _ & _ & B).
  split; [exact A|exact B].
Defined.

(** ** Order of the rows *)

Section RowOrder.

Context (fromisoformat : string -> res Datetime.t).
Context (local_utcoffset : Z -> res Z).

Local Abbreviation parse_timestamp :=
  (parse_timestamp fromisoformat local_utcoffset).
Local Abbreviation parsed := (parsed fromisoformat local_utcoffset).
Local Abbreviation completion_times :=
  (completion_times fromisoformat local_utcoffset).
Local Abbreviation minutes_where := (minutes_where fromisoformat local_utcoffset).
Local Abbreviation count_task := (count_task fromisoformat local_utcoffset).
Local Abbreviation add_session := (add_session fromisoformat local_utcoffset).
Local Abbreviation add_activity := (add_activity fromisoformat local_utcoffset).
Local Abbreviation activity_of := (activity_of fromisoformat local_utcoffset).
Local Abbreviation task_ok := (task_ok fromisoformat local_utcoffset).
Local Abbreviation dashboard := (dashboard fromisoformat local_utcoffset).

Lemma filter_perm {A} (f : A -> bool) (l l' : list A) :
  Permutation l l' -> Permutation (List.filter f l) (List.filter f l').
Proof.
  induction 1 as [|x l l' _ IH|x y l|l l' l'' _ IH1 _ IH2]; simpl.
  - constructor.
  - destruct (f x); [apply perm_skip|]; exact IH.
  - destruct (f x), (f y); try reflexivity. apply perm_swap.
  - etransitivity; eassumption.
Qed.

Lemma completion_times_perm l l' :
  Permutation l l' -> Permutation (completion_times l) (completion_times l').
Proof.
  induction 1 as [|x l l' _ IH|x y l|l l' l'' _ IH1 _ IH2].
  - constructor.
  - rewrite !completion_times_cons. destruct (parsed _); [apply perm_skip|]; exact IH.
  - rewrite !completion_times_cons.
    destruct (parsed (get x "completed_at")), (parsed (get y "completed_at"));
      try reflexivity. apply perm_swap.
  - etransitivity; eassumption.
Qed.

Lemma count_perm p l l' : Permutation l l' -> count p l = count p l'.
Proof.
  intros H. unfold count. f_equal. apply Permutation_length, filter_perm, H.
Qed.

Lemma minutes_where_perm p l l' :
  Permutation l l' -> minutes_where p l = minutes_where p l'.
Proof.
  induction 1 as [|x l l' _ IH|x y l|l l' l'' _ IH1 _ IH2].
  - reflexivity.
  - rewrite !minutes_where_cons, IH. reflexivity.
  - rewrite !minutes_where_cons. lia.
  - etransitivity; eassumption.
Qed.

Lemma total_minutes_perm (l l' : list (gmap string value)) :
  Permutation l l' ->
  foldr Z.add 0 (map duration_minutes l) = foldr Z.add 0 (map duration_minutes l').
Proof.
  induction 1 as [|x l l' _ IH|x y l|l l' l'' _ IH1 _ IH2]; simpl; lia.
Qed.

Lemma activities_perm l l' :
  Permutation l l' ->
  Permutation (omap activity_of l) (omap activity_of l').
Proof.
  intros H. rewrite H. reflexivity.
Qed.

(** A loop completes exactly when each of its steps does. *)
Lemma count_task_loop_steps st sl l : forall a b,
  is_ok (for_each (count_task st sl) l (a, b))
  = forallb (fun task => is_ok (parse_timestamp (get task "completed_at"))) l.
Proof.
  induction l as [|task l IH]; intros a b; [reflexivity|].
  cbn [for_each forallb]. unfold count_task at 1.
  destruct (parse_timestamp (get task "completed_at")) as [[t|]|e];
    cbn [mbind res_bind Py.bind is_ok andb]; [| |reflexivity].
  - destruct (st <=? t); [|destruct ((sl <=? t) && (t <? st))];
      cbn [Py.bind]; apply IH.
  - apply IH.
Qed.

Lemma add_session_loop_steps st sl l : forall x y z,
  is_ok (for_each (add_session st sl) l (x, y, z))
  = forallb (fun s =>
               is_ok (int_add 0 (get_default s "duration_minutes" (VInt 0)))
               && is_ok (parse_timestamp (get s "created_at"))) l.
Proof.
  induction l as [|s l IH]; intros x y z; [reflexivity|].
  cbn [for_each forallb]. unfold add_session at 1.
  destruct (get_default s "duration_minutes" (VInt 0)) as [|b|n|str];
    cbn [int_add mbind res_bind Py.bind is_ok andb]; try reflexivity.
  - destruct (parse_timestamp (get s "created_at")) as [[t|]|e];
      cbn [mbind res_bind Py.bind is_ok andb]; [| |reflexivity].
    + destruct (st <=? t); [|destruct ((sl <=? t) && (t <? st))];
        cbn [mbind res_bind Py.bind]; apply IH.
    + apply IH.
  - destruct (parse_timestamp (get s "created_at")) as [[t|]|e];
      cbn [mbind res_bind Py.bind is_ok andb]; [| |reflexivity].
    + destruct (st <=? t); [|destruct ((sl <=? t) && (t <? st))];
        cbn [mbind res_bind Py.bind]; apply IH.
    + apply IH.
Qed.

Lemma add_activity_loop_steps l : forall acc,
  is_ok (for_each add_activity l acc) = forallb task_ok l.
Proof.
  induction l as [|task l IH]; intros acc; [reflexivity|].
  cbn [for_each forallb]. unfold add_activity at 1, task_ok at 1.
  destruct (parse_timestamp (get task "completed_at")) as [[t|]|e];
    cbn [mbind res_bind Py.bind is_ok andb]; [| |reflexivity].
  - unfold getitem. destruct (task !! "title");
      cbn [Py.bind is_ok andb]; [apply IH|reflexivity].
  - apply IH.
Qed.

Lemma forallb_perm {A} (f : A -> bool) l l' :
  Permutation l l' -> forallb f l = forallb f l'.
Proof.
  induction 1 as [|x l l' _ IH|x y l|l l' l'' _ IH1 _ IH2]; simpl.
  - reflexivity.
  - rewrite IH. reflexivity.
  - destruct (f x), (f y); reflexivity.
  - congruence.
Qed.

Lemma is_ok_true {A} (m : res A) : is_ok m = true -> exists a, m = Ok a.
Proof. destruct m; [eauto|discriminate]. Qed.

Lemma is_ok_of {A} (m : res A) a : m = Ok a -> is_ok m = true.
Proof. intros ->. reflexivity. Qed.

End RowOrder.

Section SortedLists.

Lemma sorted_perm_eq (l1 l2 : list Z) :
  StronglySorted (fun x y => y <= x) l1 ->
  StronglySorted (fun x y => y <= x) l2 ->
  Permutation l1 l2 -> l1 = l2.
Proof.
  revert l2. induction l1 as [|a l1 IH]; intros l2 S1 S2 P.
  - apply Permutation_nil in P. subst. reflexivity.
  - destruct l2 as [|b l2].
    { apply Permutation_sym, Permutation_nil in P. discriminate P. }
    inversion S1 as [|? ? S1' F1]; subst. inversion S2 as [|? ? S2' F2]; subst.
    rewrite Forall_forall in F1, F2.
    assert (Hb : In b (a :: l1))
      by (apply (Permutation_in _ (Permutation_sym P)); left; reflexivity).
    assert (Ha : In a (b :: l2))
      by (apply (Permutation_in _ P); left; reflexivity).
    assert (E : a = b).
    { destruct Hb as [Hb|Hb]; [exact Hb|].
      destruct Ha as [Ha|Ha]; [symmetry; exact Ha|].
      apply list_elem_of_In in Ha, Hb.
      specialize (F1 b Hb). specialize (F2 a Ha). lia. }
    subst b. f_equal. apply IH; [exact S1'|exact S2'|].
    eapply Permutation_cons_inv. exact P.
Qed.

Lemma descending_timestamps l :
  descending l -> StronglySorted (fun x y => y <= x) (map timestamp l).
Proof.
  unfold descending. induction 1 as [|a l S IH F]; simpl; constructor.
  - exact IH.
  - apply List.Forall_forall. intros t Ht.
    apply in_map_iff in Ht as (b & <- & Hb).
    rewrite List.Forall_forall in F. apply F. exact Hb.
Qed.

Lemma sort_desc_timestamps l l' :
  Permutation l l' ->
  map timestamp (sort_desc l) = map timestamp (sort_desc l').
Proof.
  intros P. apply sorted_perm_eq.
  - apply descending_timestamps, sort_desc_sorted.
  - apply descending_timestamps, sort_desc_sorted.
  - apply Permutation_map.
    rewrite (sort_desc_perm l), (sort_desc_perm l'). exact P.
Qed.

End SortedLists.

(** X4.  The statistics do not depend on the order in which the store
    returns the rows: if the dashboard completes on the task and session
    lists it also completes on any reordering of them, with the same counts,
    weekly buckets, percentage changes, hours, scores and the same
    timestamps in the activity list and in the feed. *)
Theorem statistics_order_independent :
  forall (fromisoformat : string -> res Datetime.t)
         (local_utcoffset : Z -> res Z)
         (today : Z)
         (tasks tasks' focus_sessions focus_sessions' : list (gmap string value))
         (l : locals),
    Permutation tasks tasks' ->
    Permutation focus_sessions focus_sessions' ->
    dashboard fromisoformat local_utcoffset today tasks focus_sessions = Ok l ->
    exists l',
      dashboard fromisoformat local_utcoffset today tasks' focus_sessions' = Ok l'
      /\ (tasks_completed_count l', active_tasks_count l', total_tasks l')
         = (tasks_completed_count l, active_tasks_count l, total_tasks l)
      /\ (tasks_this_week_count l', tasks_last_week_count l',
          task_percentage_change l')
         = (tasks_this_week_count l, tasks_last_week_count l,
            task_percentage_change l)
      /\ (total_focus_minutes l', focus_this_week_min l', focus_last_week_min l',
          focus_percentage_change l')
         = (total_focus_minutes l, focus_this_week_min l, focus_last_week_min l,
            focus_percentage_change l)
      /\ (total_focus_hours l', task_score l', focus_score l',
          productivity_score l')
         = (total_focus_hours l, task_score l, focus_score l,
            productivity_score l)
      /\ Permutation (recent_activities l') (recent_activities l)
      /\ map timestamp (recent_activities l') = map timestamp (recent_activities l)
      /\ map timestamp (feed l') = map timestamp (feed l).
Proof.
  intros fromisoformat local_utcoffset today tasks tasks' focus_sessions
    focus_sessions' l Pt Ps H.
  apply dashboard_inv in H.
  destruct H as (Ktc & Kc & Ka & Kt & Kst & Ksl & Kl & Kp & Ks & Kh & Kf & Kts
                 & Kfs & Kps & acts & Kacts & Kr).
  rewrite Ktc in Kc, Kl, Kacts.
  rewrite Kc, Kt in Kts. rewrite Kc in Ka.
  pose proof (filter_perm is_complete _ _ Pt) as Pf.
  pose proof (Permutation_length Pt) as Lt.
  pose proof (Permutation_length Pf) as Lf.
  set (st := start_of_this_week l) in *. set (sl := start_of_last_week l) in *.
  (* the loop over the completed tasks *)
  assert (Ol : exists r,
             for_each (count_task fromisoformat local_utcoffset st sl)
               (List.filter is_complete tasks') (0, 0) = Ok r).
  { apply is_ok_true. rewrite count_task_loop_steps.
    rewrite <- (forallb_perm _ _ _ Pf), <- (count_task_loop_steps _ _ st sl _ 0 0).
    eapply is_ok_of. exact Kl. }
  destruct Ol as [r' Kl'].
  assert (Er : r' = (tasks_this_week_count l, tasks_last_week_count l)).
  { apply count_task_loop in Kl, Kl'. rewrite Kl, Kl'.
    rewrite (count_perm (in_this_week st) _ _
               (completion_times_perm _ _ _ _ Pf)).
    rewrite (count_perm (in_last_week st sl) _ _
               (completion_times_perm _ _ _ _ Pf)).
    reflexivity. }
  subst r'.
  (* the loop over the sessions *)
  assert (Os : exists r,
             for_each (add_session fromisoformat local_utcoffset st sl)
               focus_sessions' (0, 0, 0) = Ok r).
  { apply is_ok_true. rewrite add_session_loop_steps.
    rewrite <- (forallb_perm _ _ _ Ps),
      <- (add_session_loop_steps _ _ st sl _ 0 0 0).
    eapply is_ok_of. exact Ks. }
  destruct Os as [r' Ks'].
  assert (Er : r' = (total_focus_minutes l, focus_this_week_min l,
                     focus_last_week_min l)).
  { apply add_session_loop in Ks, Ks'. rewrite Ks, Ks'.
    rewrite (total_minutes_perm _ _ Ps).
    rewrite (minutes_where_perm _ _ (in_this_week st) _ _ Ps).
    rewrite (minutes_where_perm _ _ (in_last_week st sl) _ _ Ps).
    reflexivity. }
  subst r'.
  (* the activity list *)
  assert (Oa : exists r,
             for_each (add_activity fromisoformat local_utcoffset)
               (List.filter is_complete tasks') [] = Ok r).
  { apply is_ok_true. rewrite add_activity_loop_steps.
    rewrite <- (forallb_perm _ _ _ Pf), <- (add_activity_loop_steps _ _ _ []).
    eapply is_ok_of. exact Kacts. }
  destruct Oa as [acts' Kacts'].
  assert (Pa : Permutation acts' acts).
  { apply add_activity_loop in Kacts, Kacts'. subst acts acts'. simpl.
    symmetry. apply activities_perm. exact Pf. }
  eexists. split.
  { unfold dashboard. fold st.
    rewrite Kst. cbn [mbind res_bind Py.bind]. fold sl. rewrite Ksl.
    cbn [mbind res_bind Py.bind]. rewrite Kl'. cbn [mbind res_bind Py.bind].
    rewrite Kp. cbn [mbind res_bind Py.bind]. rewrite Ks'.
    cbn [mbind res_bind Py.bind]. rewrite Kh. cbn [mbind res_bind Py.bind].
    rewrite Kf. cbn [mbind res_bind Py.bind].
    rewrite <- Lt, <- Lf. rewrite Kts. cbn [mbind res_bind Py.bind].
    rewrite <- Kfs, Kps. cbn [mbind res_bind Py.bind].
    rewrite Kacts'. cbn [mbind res_bind Py.bind]. reflexivity. }
  cbn [tasks_completed_count active_tasks_count total_tasks
       tasks_this_week_count tasks_last_week_count task_percentage_change
       total_focus_minutes focus_this_week_min focus_last_week_min
       focus_percentage_change total_focus_hours task_score focus_score
       productivity_score recent_activities feed].
  rewrite Kr.
  split; [rewrite Kc, Ka, Kt; reflexivity|].
  split; [reflexivity|]. split; [reflexivity|]. split; [reflexivity|].
  split; [rewrite !sort_desc_perm; exact Pa|].
  split; [apply sort_desc_timestamps; exact Pa|].
  unfold feed. cbn [recent_activities]. rewrite Kr, <- !firstn_map.
  f_equal. apply sort_desc_timestamps. exact Pa.
Qed.

Lemma statistics_order_independent_witness :
  exists l l',
    Sample.run Sample.today Sample.tasks Sample.focus_sessions = Ok l
    /\ Sample.run Sample.today
         [Sample.task_d; Sample.task_c; Sample.task_b; Sample.task_a]
         [Sample.session_c; Sample.session_b; Sample.session_a] = Ok l'
    /\ productivity_score l' = productivity_score l
    /\ map timestamp (feed l') = map timestamp (feed l).
Proof.
  destruct (Sample.run Sample.today Sample.tasks Sample.focus_sessions)
    as [l|e] eqn:E; [|vm_compute in E; discriminate E].
  destruct (statistics_order_independent Iso.fromisoformat Iso.utc_host
              Sample.today Sample.tasks
              [Sample.task_d; Sample.task_c; Sample.task_b; Sample.task_a]
              Sample.focus_sessions
              [Sample.session_c; Sample.session_b; Sample.session_a] l)
    as (l' & E' & _ & _ & _ & S & _ & _ & F).
  - apply Permutation_rev.
  - apply Permutation_rev.
  - exact E.
  - exists l, l'. split; [reflexivity|]. split; [exact E'|].
    split; [congruence|exact F].
Defined.

Section Stability.

Lemma insert_desc_filter a l t :
  List.filter (fun b => timestamp b =? t) (insert_desc a l)
  = List.filter (fun b => timestamp b =? t) (a :: l).
Proof.
  induction l as [|b l IH]; [reflexivity|].
  cbn [insert_desc].
  destruct (Z.leb_spec (timestamp b) (timestamp a)) as [L|L]; [reflexivity|].
  cbn [List.filter] in *. rewrite IH.
  destruct (Z.eqb_spec (timestamp a) t) as [Ea|Na];
    destruct (Z.eqb_spec (timestamp b) t) as [Eb|Nb]; try reflexivity.
  lia.
Qed.

Lemma sort_desc_filter l t :
  List.filter (fun b => timestamp b =? t) (sort_desc l)
  = List.filter (fun b => timestamp b =? t) l.
Proof.
  induction l as [|a l IH]; [reflexivity|].
  unfold sort_desc in *. cbn [foldr]. rewrite insert_desc_filter.
  cbn [List.filter]. rewrite IH. reflexivity.
Qed.

End Stability.

(** X5.  The sort of line 321 is stable: the activity records that carry the
    same timestamp appear in the order of their tasks in the fetched list. *)
Theorem feed_order_stable :
  forall (fromisoformat : string -> res Datetime.t)
         (local_utcoffset : Z -> res Z)
         (today : Z) (tasks focus_sessions : list (gmap string value))
         (l : locals) (t : Z),
    dashboard fromisoformat local_utcoffset today tasks focus_sessions = Ok l ->
    List.filter (fun a => timestamp a =? t) (recent_activities l)
    = List.filter (fun a => timestamp a =? t)
        (omap (activity_of fromisoformat local_utcoffset)
           (List.filter is_complete tasks)).
Proof.
  intros fromisoformat local_utcoffset today tasks focus_sessions l t H.
  apply dashboard_inv in H.
  destruct H as (Ktc & _ & _ & _ & _ & _ & _ & _ & _ & _ & _ & _ & _ & _
                 & acts & Kacts & Kr).
  apply add_activity_loop in Kacts. simpl in Kacts. subst acts.
  rewrite Kr, Ktc. apply sort_desc_filter.
Qed.

Lemma feed_order_stable_witness :
  exists l,
    Sample.run Sample.today
      [Sample.task_b; Sample.task_a; Sample.task_e] [] = Ok l
    /\ map description
         (List.filter
            (fun a => timestamp a =? Datetime.of_fields 2024 1 3 10 0 0 0)
            (recent_activities l))
       = [String.append "You completed task "
            (String.append dquote (String.append "write report" dquote));
          String.append "You completed task "
            (String.append dquote (String.append "send invoice" dquote))].
Proof.
  destruct (Sample.run Sample.today
              [Sample.task_b; Sample.task_a; Sample.task_e] [])
    as [l|e] eqn:E; [|vm_compute in E; discriminate E].
  exists l. split; [reflexivity|].
  rewrite (feed_order_stable Iso.fromisoformat Iso.utc_host Sample.today
             [Sample.task_b; Sample.task_a; Sample.task_e] [] l _ E).
  vm_compute. reflexivity.
Defined.

(** X6.  The two windows seen from [today]: this week starts between zero and
    six days and keeps less than seven days behind [today] (on a Monday it
    starts at [today] itself, so a record of earlier that Monday falls in
    last week); last week is the seven days before it; every record of the
    past seven days is in one of the two windows, and no record older than
    fourteen days is. *)
Theorem week_window_coverage :
  forall (fromisoformat : string -> res Datetime.t)
         (local_utcoffset : Z -> res Z)
         (today : Z) (tasks focus_sessions : list (gmap string value))
         (l : locals),
    dashboard fromisoformat local_utcoffset today tasks focus_sessions = Ok l ->
    let this := start_of_this_week l in
    let last := start_of_last_week l in
    let day := Datetime.us_per_day in
    this <= today < this + 7 * day
    /\ last + 7 * day = this
    /\ (Datetime.weekday today = 0 -> this = today)
    /\ (forall t,
          today - 7 * day <= t ->
          in_this_week this t = true \/ in_last_week this last t = true)
    /\ (forall t,
          t <= today - 14 * day ->
          in_this_week this t = false /\ in_last_week this last t = false)
    /\ (forall t,
          Datetime.weekday today = 0 -> today - 7 * day <= t < today ->
          in_this_week this t = false /\ in_last_week this last t = true).
Proof.
  intros fromisoformat local_utcoffset today tasks focus_sessions l H
    this last day.
  apply dashboard_inv in H.
  destruct H as (_ & _ & _ & _ & Kst & Ksl & _).
  apply sub_inv in Kst as [Est _]. apply sub_inv in Ksl as [Esl _].
  unfold Datetime.timedelta_days in Est, Esl.
  fold this in Est, Esl. fold last in Esl.
  pose proof (weekday_bounds today) as W.
  unfold day. rewrite us_per_day_value in *.
  unfold in_this_week, in_last_week.
  split; [lia|]. split; [lia|]. split; [intros E; rewrite E in Est; lia|].
  split; [|split].
  - intros t Ht. destruct (Z.leb_spec this t) as [A|A]; [left; reflexivity|].
    right. apply andb_true_iff. split; [apply Z.leb_le | apply Z.ltb_lt]; lia.
  - intros t Ht. split; [apply Z.leb_gt; lia|].
    apply andb_false_iff. left. apply Z.leb_gt. lia.
  - intros t E Ht. rewrite E in Est. split; [apply Z.leb_gt; lia|].
    apply andb_true_iff. split; [apply Z.leb_le | apply Z.ltb_lt]; lia.
Qed.

Lemma week_window_coverage_witness :
  exists l,
    Sample.run Sample.today Sample.tasks Sample.focus_sessions = Ok l
    /\ start_of_this_week l <= Sample.today
       < start_of_this_week l + 7 * Datetime.us_per_day
    /\ start_of_last_week l + 7 * Datetime.us_per_day = start_of_this_week l.
Proof.
  destruct (Sample.run Sample.today Sample.tasks Sample.focus_sessions)
    as [l|e] eqn:E; [|vm_compute in E; discriminate E].
  exists l. split; [reflexivity|].
  destruct (week_window_coverage Iso.fromisoformat Iso.utc_host Sample.today
              Sample.tasks Sample.focus_sessions l E) as (A & B & _).
  split; [exact A|exact B].
Defined.

(** * Writing and reading timestamps *)

(** ** The calendar *)

Section Calendar.

Lemma dby_step y :
  Datetime.days_before_year (y + 1)
  = Datetime.days_before_year y + 365 + (if Datetime.is_leap y then 1 else 0).
Proof.
  unfold Datetime.days_before_year, Datetime.is_leap.
  replace (y + 1 - 1) with y by lia.
  destruct (Z.eqb_spec (y mod 4) 0), (Z.eqb_spec (y mod 100) 0),
    (Z.eqb_spec (y mod 400) 0); cbn [negb andb orb];
    Z.div_mod_to_equations; lia.
Qed.

Lemma dby_mono y y' :
  y <= y' -> Datetime.days_before_year y <= Datetime.days_before_year y'.
Proof.
  intros H. unfold Datetime.days_before_year. Z.div_mod_to_equations. lia.
Qed.

Lemma dby_1 : Datetime.days_before_year 1 = 0.
Proof. reflexivity. Qed.

Lemma dby_10000 : Datetime.days_before_year 10000 = Datetime.max_ordinal.
Proof. reflexivity. Qed.

Lemma year_from_spec fuel : forall y n,
  n < Datetime.days_before_year (y + 1) ->
  Datetime.days_before_year (y - Z.of_nat fuel) <= n ->
  Datetime.days_before_year (Isoformat.year_from fuel y n) <= n
  /\ n < Datetime.days_before_year (Isoformat.year_from fuel y n + 1).
Proof.
  induction fuel as [|k IH]; intros y n Hu Hl.
  - cbn [Isoformat.year_from]. replace (y - Z.of_nat 0) with y in Hl by lia.
    split; assumption.
  - cbn [Isoformat.year_from].
    destruct (Z.leb_spec (Datetime.days_before_year y) n) as [L|L];
      [split; assumption|].
    apply IH.
    + replace (y - 1 + 1) with y by lia. exact L.
    + replace (y - 1 - Z.of_nat k) with (y - Z.of_nat (S k)) by lia. exact Hl.
Qed.

Lemma year_of_spec n :
  0 <= n < Datetime.max_ordinal ->
  let y := Isoformat.year_of n in
  1 <= y <= 9999
  /\ Datetime.days_before_year y <= n < Datetime.days_before_year (y + 1).
Proof.
  intros Hn y.
  assert (S : Datetime.days_before_year y <= n
              /\ n < Datetime.days_before_year (y + 1)).
  { apply year_from_spec.
    - unfold Datetime.days_before_year, Datetime.max_ordinal in *.
      Z.div_mod_to_equations. lia.
    - unfold Datetime.days_before_year, Datetime.max_ordinal in *.
      change (Z.of_nat 8) with 8. Z.div_mod_to_equations. lia. }
  split; [|exact S]. destruct S as [S1 S2].
  split.
  - destruct (Z.lt_ge_cases y 1) as [C|C]; [|exact C].
    pose proof (dby_mono (y + 1) 1 ltac:(lia)) as M. rewrite dby_1 in M. lia.
  - destruct (Z.lt_ge_cases 9999 y) as [C|C]; [|exact C].
    pose proof (dby_mono 10000 y ltac:(lia)) as M. rewrite dby_10000 in M. lia.
Qed.

Lemma dbm_table y :
  let lp := if Datetime.is_leap y then 1 else 0 in
  Datetime.days_before_month y 0 = 0
  /\ Datetime.days_before_month y 1 = 31
  /\ Datetime.days_before_month y 2 = 59 + lp
  /\ Datetime.days_before_month y 3 = 90 + lp
  /\ Datetime.days_before_month y 4 = 120 + lp
  /\ Datetime.days_before_month y 5 = 151 + lp
  /\ Datetime.days_before_month y 6 = 181 + lp
  /\ Datetime.days_before_month y 7 = 212 + lp
  /\ Datetime.days_before_month y 8 = 243 + lp
  /\ Datetime.days_before_month y 9 = 273 + lp
  /\ Datetime.days_before_month y 10 = 304 + lp
  /\ Datetime.days_before_month y 11 = 334 + lp
  /\ Datetime.days_before_month y 12 = 365 + lp.
Proof.
  unfold Datetime.days_before_month, Datetime.days_in_month.
  destruct (Datetime.is_leap y); cbn; repeat split; reflexivity.
Qed.

Lemma dim_table y :
  let lp := if Datetime.is_leap y then 1 else 0 in
  Datetime.days_in_month y 1 = 31 /\ Datetime.days_in_month y 2 = 28 + lp
  /\ Datetime.days_in_month y 3 = 31 /\ Datetime.days_in_month y 4 = 30
  /\ Datetime.days_in_month y 5 = 31 /\ Datetime.days_in_month y 6 = 30
  /\ Datetime.days_in_month y 7 = 31 /\ Datetime.days_in_month y 8 = 31
  /\ Datetime.days_in_month y 9 = 30 /\ Datetime.days_in_month y 10 = 31
  /\ Datetime.days_in_month y 11 = 30 /\ Datetime.days_in_month y 12 = 31.
Proof.
  unfold Datetime.days_in_month.
  destruct (Datetime.is_leap y); cbn; repeat split; reflexivity.
Qed.

Lemma month_of_spec y r :
  0 <= r < 365 + (if Datetime.is_leap y then 1 else 0) ->
  let m := Isoformat.month_from 11 y 12 r in
  1 <= m <= 12
  /\ Datetime.days_before_month y (Z.to_nat (m - 1)) <= r
  /\ r - Datetime.days_before_month y (Z.to_nat (m - 1))
     < Datetime.days_in_month y m.
Proof.
  intros Hr.
  destruct (dbm_table y) as (B0 & B1 & B2 & B3 & B4 & B5 & B6 & B7 & B8 & B9
                             & B10 & B11 & B12).
  destruct (dim_table y) as (D1 & D2 & D3 & D4 & D5 & D6 & D7 & D8 & D9 & D10
                             & D11 & D12).
  set (lp := if Datetime.is_leap y then 1 else 0) in *.
  assert (Hlp : 0 <= lp <= 1) by (unfold lp; destruct (Datetime.is_leap y); lia).
  unfold Isoformat.month_from.
  change (Z.to_nat (12 - 1)) with 11%nat.
  change (Z.to_nat (12 - 1 - 1)) with 10%nat.
  change (Z.to_nat (12 - 1 - 1 - 1)) with 9%nat.
  change (Z.to_nat (12 - 1 - 1 - 1 - 1)) with 8%nat.
  change (Z.to_nat (12 - 1 - 1 - 1 - 1 - 1)) with 7%nat.
  change (Z.to_nat (12 - 1 - 1 - 1 - 1 - 1 - 1)) with 6%nat.
  change (Z.to_nat (12 - 1 - 1 - 1 - 1 - 1 - 1 - 1)) with 5%nat.
  change (Z.to_nat (12 - 1 - 1 - 1 - 1 - 1 - 1 - 1 - 1)) with 4%nat.
  change (Z.to_nat (12 - 1 - 1 - 1 - 1 - 1 - 1 - 1 - 1 - 1)) with 3%nat.
  change (Z.to_nat (12 - 1 - 1 - 1 - 1 - 1 - 1 - 1 - 1 - 1 - 1)) with 2%nat.
  change (Z.to_nat (12 - 1 - 1 - 1 - 1 - 1 - 1 - 1 - 1 - 1 - 1 - 1)) with 1%nat.
  change (12 - 1 - 1 - 1 - 1 - 1 - 1 - 1 - 1 - 1 - 1 - 1) with 1.
  change (12 - 1 - 1 - 1 - 1 - 1 - 1 - 1 - 1 - 1 - 1) with 2.
  change (12 - 1 - 1 - 1 - 1 - 1 - 1 - 1 - 1 - 1) with 3.
  change (12 - 1 - 1 - 1 - 1 - 1 - 1 - 1 - 1) with 4.
  change (12 - 1 - 1 - 1 - 1 - 1 - 1 - 1) with 5.
  change (12 - 1 - 1 - 1 - 1 - 1 - 1) with 6.
  change (12 - 1 - 1 - 1 - 1 - 1) with 7.
  change (12 - 1 - 1 - 1 - 1) with 8.
  change (12 - 1 - 1 - 1) with 9.
  change (12 - 1 - 1) with 10.
  change (12 - 1) with 11.
  rewrite B11, B10, B9, B8, B7, B6, B5, B4, B3, B2, B1.
  repeat match goal with
         | |- context [?a <=? r] => destruct (Z.leb_spec a r)
         end;
    match goal with
    | |- 1 <= ?m <= 12 /\ _ =>
        let k := eval cbv in (Z.to_nat (m - 1)) in
        change (Z.to_nat (m - 1)) with k
    end;
    rewrite ?B0, ?B1, ?B2, ?B3, ?B4, ?B5, ?B6, ?B7, ?B8, ?B9, ?B10, ?B11,
      ?D1, ?D2, ?D3, ?D4, ?D5, ?D6, ?D7, ?D8, ?D9, ?D10, ?D11, ?D12; lia.
Qed.

Lemma civil_from_days_spec n :
  0 <= n < Datetime.max_ordinal ->
  let '(y, m, d) := Isoformat.civil_from_days n in
  Datetime.valid_date y m d = true /\ Datetime.days_from_civil y m d = n.
Proof.
  intros Hn. unfold Isoformat.civil_from_days.
  destruct (year_of_spec n Hn) as [Hy [Y1 Y2]].
  set (y := Isoformat.year_of n) in *.
  rewrite dby_step in Y2.
  assert (Hr : 0 <= n - Datetime.days_before_year y
               < 365 + (if Datetime.is_leap y then 1 else 0)) by lia.
  destruct (month_of_spec y _ Hr) as [Hm [M1 M2]].
  set (m := Isoformat.month_from 11 y 12 (n - Datetime.days_before_year y)) in *.
  split.
  - unfold Datetime.valid_date.
    repeat (apply andb_true_iff; split); apply Z.leb_le; lia.
  - unfold Datetime.days_from_civil. lia.
Qed.

End Calendar.

(** ** Digits *)

Section Digits.

Lemma append_cons c s r :
  String.append (String c s) r = String c (String.append s r).
Proof. reflexivity. Qed.

Lemma append_nil r : String.append EmptyString r = r.
Proof. reflexivity. Qed.

Lemma digit_char_cases k :
  exists d, 0 <= d < 10 /\ k mod 10 = d
            /\ Isoformat.digit_char k = ascii_of_N (Z.to_N (48 + d)).
Proof.
  exists (k mod 10). split; [apply Z.mod_pos_bound; lia|]. split; reflexivity.
Qed.

Lemma small_cases d :
  0 <= d < 10 ->
  d = 0 \/ d = 1 \/ d = 2 \/ d = 3 \/ d = 4 \/ d = 5 \/ d = 6 \/ d = 7
  \/ d = 8 \/ d = 9.
Proof. lia. Qed.

Lemma digit_digit_char k : Iso.digit (Isoformat.digit_char k) = Some (k mod 10).
Proof.
  destruct (digit_char_cases k) as (d & H & E & C). rewrite C, E.
  destruct (small_cases d H) as
    [-> | [-> | [-> | [-> | [-> | [-> | [-> | [-> | [-> | ->]]]]]]]]];
    reflexivity.
Qed.

Lemma digit_char_plain k :
  Ascii.eqb (Isoformat.digit_char k) "+" = false
  /\ Ascii.eqb (Isoformat.digit_char k) "-" = false
  /\ Ascii.eqb (Isoformat.digit_char k) "Z" = false.
Proof.
  destruct (digit_char_cases k) as (d & H & E & C). rewrite C.
  destruct (small_cases d H) as
    [-> | [-> | [-> | [-> | [-> | [-> | [-> | [-> | [-> | ->]]]]]]]]];
    repeat split; reflexivity.
Qed.

Lemma digits_pad n : forall v acc rest,
  0 <= v < 10 ^ Z.of_nat n ->
  Iso.digits n acc (String.append (Isoformat.pad n v) rest)
  = Some (acc * 10 ^ Z.of_nat n + v, rest).
Proof.
  induction n as [|k IH]; intros v acc rest Hv.
  - cbn [Iso.digits Isoformat.pad]. rewrite append_nil.
    change (10 ^ Z.of_nat 0) with 1 in *. do 2 f_equal. lia.
  - cbn [Isoformat.pad]. rewrite append_cons. cbn [Iso.digits].
    rewrite digit_digit_char. cbn [mbind option_bind].
    assert (P : 0 < 10 ^ Z.of_nat k) by (apply Z.pow_pos_nonneg; lia).
    assert (S : 10 ^ Z.of_nat (S k) = 10 * 10 ^ Z.of_nat k).
    { rewrite Nat2Z.inj_succ, Z.pow_succ_r by lia. reflexivity. }
    rewrite IH by (apply Z.mod_pos_bound; exact P).
    do 2 f_equal. rewrite S in *.
    assert (Q : 0 <= v / 10 ^ Z.of_nat k < 10).
    { split; [apply Z.div_pos; lia|apply Z.div_lt_upper_bound; lia]. }
    rewrite (Z.mod_small _ 10 Q).
    pose proof (Z.div_mod v (10 ^ Z.of_nat k) ltac:(lia)). nia.
Qed.

Lemma split_sign_pad n : forall v s,
  Iso.split_sign (String.append (Isoformat.pad n v) s)
  = (String.append (Isoformat.pad n v) (fst (Iso.split_sign s)),
     snd (Iso.split_sign s)).
Proof.
  induction n as [|k IH]; intros v s.
  - cbn [Isoformat.pad]. rewrite !append_nil.
    destruct (Iso.split_sign s); reflexivity.
  - cbn [Isoformat.pad]. rewrite append_cons. cbn [Iso.split_sign].
    destruct (digit_char_plain (v / 10 ^ Z.of_nat k)) as (P & M & _).
    rewrite P, M, IH. reflexivity.
Qed.

Lemma replace_char_pad new n : forall v s,
  replace_char "Z" new (String.append (Isoformat.pad n v) s)
  = String.append (Isoformat.pad n v) (replace_char "Z" new s).
Proof.
  induction n as [|k IH]; intros v s.
  - reflexivity.
  - cbn [Isoformat.pad]. rewrite append_cons. cbn [replace_char].
    destruct (digit_char_plain (v / 10 ^ Z.of_nat k)) as (_ & _ & Z).
    rewrite Z, IH. reflexivity.
Qed.

Lemma length_pad n : forall v s,
  String.length (String.append (Isoformat.pad n v) s)
  = (n + String.length s)%nat.
Proof.
  induction n as [|k IH]; intros v s; [reflexivity|].
  cbn [Isoformat.pad]. rewrite append_cons. cbn [String.length].
  rewrite IH. reflexivity.
Qed.

End Digits.

(** ** Reading back what [isoformat] writes *)

Section RoundTrip.

Lemma dim_le y m : Datetime.days_in_month y m <= 31.
Proof.
  unfold Datetime.days_in_month.
  destruct (m =? 2); [destruct (Datetime.is_leap y); lia|].
  destruct ((m =? 4) || (m =? 6) || (m =? 9) || (m =? 11)); lia.
Qed.

Lemma expect_cons c s : Iso.expect c (String c s) = Some s.
Proof. cbn [Iso.expect]. rewrite Ascii.eqb_refl. reflexivity. Qed.

Lemma split_sign_time h mi s us :
  Iso.split_sign
    (String.append (Isoformat.pad 2 h)
       (String ":" (String.append (Isoformat.pad 2 mi)
       (String ":" (String.append (Isoformat.pad 2 s)
       (String.append
          (if us =? 0 then EmptyString else String "." (Isoformat.pad 6 us))
          "+00:00"))))))
  = (String.append (Isoformat.pad 2 h)
       (String ":" (String.append (Isoformat.pad 2 mi)
       (String ":" (String.append (Isoformat.pad 2 s)
          (if us =? 0 then EmptyString
           else String "." (String.append (Isoformat.pad 6 us) EmptyString)))))),
     Some (false, "00:00"%string)).
Proof.
  rewrite split_sign_pad. cbn [Iso.split_sign].
  change (Ascii.eqb ":" "+") with false. change (Ascii.eqb ":" "-") with false.
  cbn iota. rewrite split_sign_pad. cbn [Iso.split_sign].
  change (Ascii.eqb ":" "+") with false. change (Ascii.eqb ":" "-") with false.
  cbn iota. rewrite split_sign_pad.
  destruct (us =? 0).
  - rewrite append_nil. reflexivity.
  - rewrite append_cons. cbn [Iso.split_sign].
    change (Ascii.eqb "." "+") with false. change (Ascii.eqb "." "-") with false.
    cbn iota. rewrite split_sign_pad. reflexivity.
Qed.

Lemma hh_mm_ss_ff_time h mi s us :
  0 <= h < 24 -> 0 <= mi < 60 -> 0 <= s < 60 ->
  0 <= us < Datetime.us_per_second ->
  Iso.hh_mm_ss_ff
    (String.append (Isoformat.pad 2 h)
       (String ":" (String.append (Isoformat.pad 2 mi)
       (String ":" (String.append (Isoformat.pad 2 s)
          (if us =? 0 then EmptyString
           else String "." (String.append (Isoformat.pad 6 us) EmptyString)))))))
  = Some (h, mi, s, us).
Proof.
  intros Hh Hmi Hs Hus. unfold Iso.hh_mm_ss_ff.
  rewrite digits_pad by (change (10 ^ Z.of_nat 2) with 100; lia).
  cbn [mbind option_bind]. change (Ascii.eqb ":" ":") with true. cbn [negb].
  rewrite digits_pad by (change (10 ^ Z.of_nat 2) with 100; lia).
  cbn [mbind option_bind]. change (Ascii.eqb ":" ":") with true. cbn [negb].
  rewrite digits_pad by (change (10 ^ Z.of_nat 2) with 100; lia).
  cbn [mbind option_bind].
  rewrite !Z.mul_0_l, !Z.add_0_l.
  destruct (Z.eqb_spec us 0) as [->|N]; [reflexivity|].
  change (Ascii.eqb "." ".") with true. cbn [negb].
  unfold Iso.fraction. rewrite length_pad. cbn [String.length Nat.add].
  rewrite digits_pad
    by (change (10 ^ Z.of_nat 6) with Datetime.us_per_second; lia).
  cbn [Iso.all_of mbind option_bind]. rewrite Z.mul_0_l, Z.add_0_l.
  reflexivity.
Qed.

Lemma parse_write y m d h mi s us :
  Datetime.valid_date y m d = true ->
  0 <= h < 24 -> 0 <= mi < 60 -> 0 <= s < 60 ->
  0 <= us < Datetime.us_per_second ->
  Iso.parse (Isoformat.write y m d h mi s us)
  = Some (Datetime.mk (Datetime.of_fields y m d h mi s us) (Some 0)).
Proof.
  intros V Hh Hmi Hs Hus.
  pose proof V as V'. unfold Datetime.valid_date in V'.
  repeat (apply andb_true_iff in V' as [V' ?]).
  repeat match goal with
         | H : (_ <=? _) = true |- _ => apply Z.leb_le in H
         end.
  pose proof (dim_le y m) as Dm.
  unfold Iso.parse, Isoformat.write.
  rewrite digits_pad by (change (10 ^ Z.of_nat 4) with 10000; lia).
  cbn [mbind option_bind]. rewrite expect_cons. cbn [mbind option_bind].
  rewrite digits_pad by (change (10 ^ Z.of_nat 2) with 100; lia).
  cbn [mbind option_bind]. rewrite expect_cons. cbn [mbind option_bind].
  rewrite digits_pad by (change (10 ^ Z.of_nat 2) with 100; lia).
  cbn [mbind option_bind].
  rewrite !Z.mul_0_l, !Z.add_0_l, V. cbn [negb].
  rewrite split_sign_time, hh_mm_ss_ff_time by assumption.
  cbn [mbind option_bind].
  assert (T : Datetime.valid_time h mi s us = true).
  { unfold Datetime.valid_time.
    repeat (apply andb_true_iff; split); apply Z.ltb_lt; lia. }
  rewrite T. cbn [negb]. reflexivity.
Qed.

Lemma isoformat_parse t :
  Datetime.in_range t = true ->
  Iso.parse (Isoformat.isoformat t) = Some (Datetime.mk t (Some 0)).
Proof.
  intros R. unfold Datetime.in_range in R.
  apply andb_true_iff in R as [R0 R1].
  apply Z.leb_le in R0. apply Z.ltb_lt in R1.
  assert (U : Datetime.us_per_day = 86400000000) by reflexivity.
  assert (E : Datetime.end_us = 3652059 * 86400000000) by reflexivity.
  assert (Hn : 0 <= t / Datetime.us_per_day < Datetime.max_ordinal).
  { unfold Datetime.max_ordinal. rewrite U. rewrite E in R1.
    Z.div_mod_to_equations. lia. }
  pose proof (civil_from_days_spec _ Hn) as C.
  unfold Isoformat.isoformat.
  destruct (Isoformat.civil_from_days (t / Datetime.us_per_day)) as [[y m] d].
  destruct C as [V D].
  rewrite parse_write.
  - f_equal. f_equal. unfold Datetime.of_fields. rewrite D.
    unfold Datetime.us_per_second in *. rewrite U.
    Z.div_mod_to_equations. lia.
  - exact V.
  - unfold Datetime.us_per_second. rewrite U. Z.div_mod_to_equations. lia.
  - Z.div_mod_to_equations. lia.
  - Z.div_mod_to_equations. lia.
  - apply Z.mod_pos_bound. reflexivity.
Qed.

Lemma replace_char_write new y m d h mi s us :
  replace_char "Z" new (Isoformat.write y m d h mi s us)
  = Isoformat.write y m d h mi s us.
Proof.
  unfold Isoformat.write.
  repeat (rewrite replace_char_pad; cbn [replace_char];
          match goal with
          | |- context [Ascii.eqb ?c "Z"] =>
              change (Ascii.eqb c "Z") with false; cbn iota
          end).
  rewrite replace_char_pad.
  destruct (us =? 0).
  - rewrite append_nil. reflexivity.
  - rewrite append_cons. cbn [replace_char].
    change (Ascii.eqb "." "Z") with false. cbn iota.
    rewrite replace_char_pad. reflexivity.
Qed.

Lemma replace_char_isoformat new t :
  replace_char "Z" new (Isoformat.isoformat t) = Isoformat.isoformat t.
Proof.
  unfold Isoformat.isoformat.
  destruct (Isoformat.civil_from_days (t / Datetime.us_per_day)) as [[y m] d].
  apply replace_char_write.
Qed.

Lemma isoformat_truthy t : truthy (VStr (Isoformat.isoformat t)) = true.
Proof.
  unfold Isoformat.isoformat.
  destruct (Isoformat.civil_from_days (t / Datetime.us_per_day)) as [[y m] d].
  reflexivity.
Qed.

End RoundTrip.

Lemma parse_timestamp_isoformat (local_utcoffset : Z -> res Z) (t : Z) :
  Datetime.in_range t = true ->
  parse_timestamp Iso.fromisoformat local_utcoffset
    (VStr (Isoformat.isoformat t)) = Ok (Some t).
Proof.
  intros R. unfold parse_timestamp.
  rewrite isoformat_truthy. cbn [negb].
  rewrite replace_char_isoformat. unfold Iso.fromisoformat.
  rewrite (isoformat_parse t R). reflexivity.
Qed.

(** X7.  [parse_timestamp] reads back what [isoformat()] wrote: the text of
    an aware UTC datetime parses to the same instant, whatever the zone of
    the host, so two instants with the same text are equal. *)
Theorem isoformat_round_trip :
  forall (local_utcoffset : Z -> res Z) (t : Z),
    Datetime.in_range t = true ->
    parse_timestamp Iso.fromisoformat local_utcoffset
      (VStr (Isoformat.isoformat t)) = Ok (Some t)
    /\ forall t',
         Datetime.in_range t' = true ->
         Isoformat.isoformat t' = Isoformat.isoformat t -> t' = t.
Proof.
  intros local_utcoffset t R.
  split; [apply parse_timestamp_isoformat; exact R|].
  intros t' R' E.
  pose proof (parse_timestamp_isoformat local_utcoffset t' R') as P'.
  rewrite E, (parse_timestamp_isoformat local_utcoffset t R) in P'.
  congruence.
Qed.

Lemma isoformat_round_trip_witness :
  Isoformat.isoformat Sample.today = "2024-01-04T12:00:00+00:00"%string
  /\ parse_timestamp Iso.fromisoformat Iso.utc_host
       (VStr (Isoformat.isoformat Sample.today)) = Ok (Some Sample.today).
Proof.
  split; [vm_compute; reflexivity|].
  apply (isoformat_round_trip Iso.utc_host Sample.today).
  vm_compute. reflexivity.
Defined.

(** * The handlers and the dashboard *)

Section ScoreFacts.

Context (fromisoformat : string -> res Datetime.t).
Context (local_utcoffset : Z -> res Z).

Local Abbreviation run := (dashboard fromisoformat local_utcoffset).

(** Lines 290 and 303-310: a task score and focus minutes that are not
    lower give scores that are not lower. *)
Lemma score_order today1 tasks1 sessions1 today2 tasks2 sessions2 l1 l2 :
  run today1 tasks1 sessions1 = Ok l1 ->
  run today2 tasks2 sessions2 = Ok l2 ->
  float_le (task_score l1) (task_score l2) ->
  0 <= total_focus_minutes l1 <= total_focus_minutes l2 ->
  float_le (total_focus_hours l1) (total_focus_hours l2)
  /\ float_le (focus_score l1) (focus_score l2)
  /\ productivity_score l1 <= productivity_score l2.
Proof.
  intros H1 H2 Lts Hm.
  apply dashboard_inv in H1, H2.
  destruct H1 as (Ktc1 & Kc1 & _ & Kt1 & _ & _ & _ & _ & _ & Kh1 & _ & Kts1 & Kfs1
                  & Kps1 & _).
  destruct H2 as (Ktc2 & Kc2 & _ & Kt2 & _ & _ & _ & _ & _ & Kh2 & _ & Kts2 & Kfs2
                  & Kps2 & _).
  pose proof (completed_le_total tasks1) as CT1.
  pose proof (completed_le_total tasks2) as CT2.
  rewrite Ktc1 in Kc1. rewrite Ktc2 in Kc2.
  assert (Bts1 : Float.between 0 100 (task_score l1)).
  { eapply task_score_between; [|exact Kts1]. rewrite Kc1, Kt1. exact CT1. }
  assert (Bts2 : Float.between 0 100 (task_score l2)).
  { eapply task_score_between; [|exact Kts2]. rewrite Kc2, Kt2. exact CT2. }
  assert (Lh : float_le (total_focus_hours l1) (total_focus_hours l2)).
  { eapply total_focus_hours_mono; [|exact Kh1|exact Kh2]. lia. }
  destruct (total_focus_hours_nonneg _ _ Kh1) as (x1 & E1 & P1); [lia|].
  destruct (total_focus_hours_nonneg _ _ Kh2) as (x2 & E2 & P2); [lia|].
  rewrite E1, E2 in Lh. simpl in Lh.
  assert (Bfs1 : Float.between 0 100 (focus_score l1)).
  { rewrite Kfs1, E1. apply (focus_score_between _ 0%Q x1); [apply Qle_refl|].
    simpl. split; [exact P1|apply Qle_refl]. }
  assert (Bfs2 : Float.between 0 100 (focus_score l2)).
  { rewrite Kfs2, E2. apply (focus_score_between _ 0%Q x2); [apply Qle_refl|].
    simpl. split; [exact P2|apply Qle_refl]. }
  assert (Lfs : float_le (focus_score l1) (focus_score l2)).
  { rewrite Kfs1, Kfs2, E1, E2. apply focus_score_mono. split; assumption. }
  split; [rewrite E1, E2; exact Lh|]. split; [exact Lfs|].
  eapply productivity_mono; [exact Bts1|exact Bts2|exact Bfs1|exact Bfs2
                            |exact Lts|exact Lfs|exact Kps1|exact Kps2].
Qed.

End ScoreFacts.

Section TaskScore.
Local Open Scope Q_scope.

Lemma div_antitone (n d1 d2 : Z) :
  (0 <= n)%Z -> (0 < d1 <= d2)%Z ->
  inject_Z n / inject_Z d2 <= inject_Z n / inject_Z d1.
Proof.
  intros Hn Hd.
  assert (P1 : 0 < inject_Z d1) by (apply inject_Z_pos; lia).
  assert (P2 : 0 < inject_Z d2) by (apply inject_Z_pos; lia).
  apply Qle_shift_div_l; [exact P1|].
  unfold Qdiv. rewrite <- Qmult_assoc, (Qmult_comm (/ _)), Qmult_assoc.
  apply Qle_shift_div_r; [exact P2|].
  rewrite <- !inject_Z_mult, <- Zle_Qle. nia.
Qed.

(** Line 305 does not grow with the total, and grows with the count. *)
Lemma task_score_order (c1 c2 t1 t2 : Z) x1 x2 :
  (0 <= c1 <= c2)%Z -> (c2 <= t2 <= t1)%Z ->
  (if (0 <? t1)%Z then
     q ← Float.int_truediv c1 t1; Ok (Float.mul q Float.c100)
   else Ok Float.c0) = Ok x1 ->
  (if (0 <? t2)%Z then
     q ← Float.int_truediv c2 t2; Ok (Float.mul q Float.c100)
   else Ok Float.c0) = Ok x2 ->
  float_le x1 x2.
Proof.
  intros Hc Ht E1 E2.
  assert (B1 : Float.between 0 100 x1)
    by (eapply task_score_between; [|exact E1]; lia).
  assert (B2 : Float.between 0 100 x2)
    by (eapply task_score_between; [|exact E2]; lia).
  destruct (Z.ltb_spec 0 t2) as [Hpos|Hle].
  - destruct (Z.ltb_spec 0 t1) as [Hpos1|]; [|lia].
    destruct (Float.int_truediv c1 t1) as [q1|e] eqn:D1;
      cbn [mbind res_bind Py.bind] in E1; [|discriminate E1].
    destruct (Float.int_truediv c2 t2) as [q2|e] eqn:D2;
      cbn [mbind res_bind Py.bind] in E2; [|discriminate E2].
    apply int_truediv_inv in D1 as [_ ->]. apply int_truediv_inv in D2 as [_ ->].
    inversion E1; inversion E2; subst x1 x2. clear E1 E2.
    apply between_fin in B1 as (r1 & F1 & _). apply between_fin in B2 as (r2 & F2 & _).
    rewrite F1, F2. simpl.
    unfold Float.mul, Float.c100 in F1, F2.
    apply of_Q_inv in F1, F2. subst r1 r2.
    apply rnd_mono. apply Qmult_le_compat_r; [|unfold Qle; simpl; lia].
    apply rnd_mono.
    apply Qle_trans with (inject_Z c1 / inject_Z t2).
    + apply div_antitone; lia.
    + apply div_mono; [exact Hpos | lia].
  - assert (c1 = 0%Z) by lia. subst c1.
    destruct (task_score_ends 0 t1 x1 ltac:(lia) E1) as [_ Z1].
    specialize (Z1 eq_refl).
    apply between_fin in Z1 as (r1 & -> & R1).
    apply between_fin in B2 as (r2 & -> & R2). simpl. lra.
Qed.

End TaskScore.

Section Writers.

Lemma add_task_row_incomplete data user_id row stored :
  add_task_row data user_id = Some row ->
  row ⊆ stored ->
  is_complete stored = false.
Proof.
  unfold add_task_row. intros H S.
  destruct (bool_decide (data = ∅)
            || negb (bool_decide (is_Some (data !! "title")))); [discriminate|].
  destruct (data !! "title") as [title|]; [|discriminate].
  cbn [mbind option_bind] in H. injection H as <-.
  unfold is_complete, get.
  rewrite (lookup_weaken _ stored "is_complete" (VBool false) eq_refl S).
  reflexivity.
Qed.

Lemma add_focus_session_row_duration data user_id row stored :
  add_focus_session_row data user_id = Some row ->
  row ⊆ stored ->
  stored !! "duration_minutes" = data !! "duration_minutes".
Proof.
  unfold add_focus_session_row. intros H S.
  destruct (bool_decide (data = ∅)
            || negb (bool_decide (is_Some (data !! "duration_minutes"))));
    [discriminate|].
  destruct (data !! "duration_minutes") as [duration|]; [|discriminate].
  cbn [mbind option_bind] in H. injection H as <-.
  cbv zeta in S.
  destruct (truthy (get data "task_id")), (truthy (get data "project_id"));
    exact (lookup_weaken _ stored "duration_minutes" duration eq_refl S).
Qed.

Section Update.

Context (now : Z) (row : gmap string value).

Local Abbreviation row' := (update_row (complete_task_update now) row).

Lemma completed_row_flag : is_complete row' = true.
Proof.
  unfold is_complete, get, update_row.
  rewrite (lookup_union_Some_l (complete_task_update now) row "is_complete" (VBool true) eq_refl).
  reflexivity.
Qed.

Lemma completed_row_stamp :
  get row' "completed_at" = VStr (Isoformat.isoformat now).
Proof.
  unfold get, update_row.
  rewrite (lookup_union_Some_l (complete_task_update now) row "completed_at"
             (VStr (Isoformat.isoformat now)) eq_refl).
  reflexivity.
Qed.

Lemma completed_row_title : row' !! "title" = row !! "title".
Proof. unfold update_row. apply lookup_union_r. reflexivity. Qed.

End Update.

End Writers.

(** X8.  A task created by [add_task] enters the dashboard as an active task:
    one more task in the total and among the active ones, the completed
    count, both weekly counts, the focus figures and the feed unchanged,
    and a productivity score that is not higher than before. *)
Theorem new_task_is_active :
  forall (fromisoformat : string -> res Datetime.t)
         (local_utcoffset : Z -> res Z) (today : Z)
         (tasks focus_sessions : list (gmap string value))
         (data : gmap string value) (user_id : value)
         (row stored : gmap string value),
    add_task_row data user_id = Some row ->
    row ⊆ stored ->
    inputs_ok fromisoformat local_utcoffset today (stored :: tasks)
      focus_sessions = true ->
    exists l l',
      dashboard fromisoformat local_utcoffset today tasks focus_sessions = Ok l
      /\ dashboard fromisoformat local_utcoffset today (stored :: tasks)
           focus_sessions = Ok l'
      /\ total_tasks l' = total_tasks l + 1
      /\ active_tasks_count l' = active_tasks_count l + 1
      /\ tasks_completed_count l' = tasks_completed_count l
      /\ tasks_this_week_count l' = tasks_this_week_count l
      /\ tasks_last_week_count l' = tasks_last_week_count l
      /\ task_percentage_change l' = task_percentage_change l
      /\ total_focus_hours l' = total_focus_hours l
      /\ focus_percentage_change l' = focus_percentage_change l
      /\ recent_activities l' = recent_activities l
      /\ float_le (task_score l') (task_score l)
      /\ productivity_score l' <= productivity_score l.
Proof.
  intros fromisoformat local_utcoffset today tasks focus_sessions data user_id
    row stored Hrow Hsub Hok.
  pose proof (add_task_row_incomplete _ _ _ _ Hrow Hsub) as Hinc.
  assert (Hf : List.filter is_complete (stored :: tasks)
               = List.filter is_complete tasks).
  { cbn [List.filter]. rewrite Hinc. reflexivity. }
  assert (Hok0 : inputs_ok fromisoformat local_utcoffset today tasks
                   focus_sessions = true).
  { unfold inputs_ok in *. rewrite Hf in Hok.
    apply andb_true_iff in Hok as [Hok A5].
    apply andb_true_iff in Hok as [Hok A4].
    apply andb_true_iff in Hok as [Hok A3].
    apply andb_true_iff in Hok as [Hok A2].
    rewrite Hok, A2, A3, A5. cbn [andb]. rewrite andb_true_r.
    apply Z.leb_le. apply Z.leb_le in A4. cbn [length] in A4. lia. }
  destruct (dashboard_total _ _ _ _ _ Hok0) as [l Hl].
  destruct (dashboard_total _ _ _ _ _ Hok) as [l' Hl'].
  exists l, l'. split; [exact Hl|]. split; [exact Hl'|].
  destruct (run_same_week _ _ _ _ _ _ _ _ _ Hl Hl') as [W1 W2].
  destruct (run_same_changes _ _ _ _ _ _ _ _ _ _ Hl Hl') as (C1 & C2 & C3).
  pose proof (run_closed_form _ _ _ _ _ _ Hl) as F.
  pose proof (run_closed_form _ _ _ _ _ _ Hl') as F'.
  cbv zeta in F, F'. rewrite Hf in F'.
  destruct F as (F1 & F2 & F3 & F4 & F5 & F6 & F7 & F8 & F9 & F10 & F11 & F12).
  destruct F' as (G1 & G2 & G3 & G4 & G5 & G6 & G7 & G8 & G9 & G10 & G11 & G12).
  cbn [length] in G3, G4.
  assert (T1 : tasks_this_week_count l' = tasks_this_week_count l)
    by (rewrite G7, F7, W1; reflexivity).
  assert (T2 : tasks_last_week_count l' = tasks_last_week_count l)
    by (rewrite G8, F8, W1, W2; reflexivity).
  assert (M0 : total_focus_minutes l' = total_focus_minutes l) by congruence.
  assert (M1 : focus_this_week_min l' = focus_this_week_min l)
    by (rewrite G10, F10, W1; reflexivity).
  assert (M2 : focus_last_week_min l' = focus_last_week_min l)
    by (rewrite G11, F11, W1, W2; reflexivity).
  assert (Lts : float_le (task_score l') (task_score l)).
  { pose proof (dashboard_inv _ _ _ _ _ _ Hl) as K.
    pose proof (dashboard_inv _ _ _ _ _ _ Hl') as K'.
    destruct K as (_ & _ & _ & _ & _ & _ & _ & _ & _ & _ & _ & Kts & _).
    destruct K' as (_ & _ & _ & _ & _ & _ & _ & _ & _ & _ & _ & Kts' & _).
    pose proof (completed_le_total tasks) as CT.
    eapply task_score_order; [| |exact Kts'|exact Kts]; lia. }
  repeat (split; [first [lia | congruence | tauto | exact Lts]|]).
  assert (Hm : 0 <= total_focus_minutes l).
  { unfold inputs_ok in Hok0. do 4 (apply andb_true_iff in Hok0 as [Hok0 ?]).
    rewrite F9.
    match goal with
    | H : forallb _ focus_sessions = true |- _ =>
        pose proof (minutes_bounds fromisoformat local_utcoffset (fun _ => true)
                      focus_sessions H) as MB
    end.
    lia. }
  eapply (score_order _ _ _ _ _ _ _ _ _ _ Hl' Hl Lts). lia.
Qed.

Lemma new_task_is_active_witness :
  exists l l',
    Sample.run Sample.today Sample.tasks Sample.focus_sessions = Ok l
    /\ Sample.run Sample.today
         ({[ "title" := VStr "plan trip"; "user_id" := VStr "u1";
             "is_complete" := VBool false; "priority" := VStr "Medium";
             "created_at" := VStr "2024-01-04T11:00:00+00:00" ]}
          :: Sample.tasks)
         Sample.focus_sessions = Ok l'
    /\ active_tasks_count l' = active_tasks_count l + 1
    /\ productivity_score l' <= productivity_score l.
Proof.
  destruct (new_task_is_active Iso.fromisoformat Iso.utc_host Sample.today
              Sample.tasks Sample.focus_sessions
              {[ "title" := VStr "plan trip" ]} (VStr "u1")
              {[ "title" := VStr "plan trip"; "user_id" := VStr "u1";
                 "is_complete" := VBool false; "priority" := VStr "Medium" ]}
              {[ "title" := VStr "plan trip"; "user_id" := VStr "u1";
                 "is_complete" := VBool false; "priority" := VStr "Medium";
                 "created_at" := VStr "2024-01-04T11:00:00+00:00" ]})
    as (l & l' & E & E' & _ & A & _ & _ & _ & _ & _ & _ & _ & _ & B).
  - reflexivity.
  - apply map_subseteq_spec. intros k v.
    rewrite !lookup_insert_Some, !lookup_singleton_Some. intuition congruence.
  - vm_compute. reflexivity.
  - exists l, l'. split; [exact E|]. split; [exact E'|].
    split; [exact A|exact B].
Defined.

Lemma omap_cons_Some {A B} (f : A -> option B) x l y :
  f x = Some y -> omap f (x :: l) = y :: omap f l.
Proof. intros H. cbn. rewrite H. reflexivity. Qed.

Section Completing.

Context (local_utcoffset : Z -> res Z).

Local Abbreviation run := (dashboard Iso.fromisoformat local_utcoffset).
Local Abbreviation times := (completion_times Iso.fromisoformat local_utcoffset).
Local Abbreviation act := (activity_of Iso.fromisoformat local_utcoffset).

Lemma completed_row_parsed now row :
  Datetime.in_range now = true ->
  parsed Iso.fromisoformat local_utcoffset
    (get (update_row (complete_task_update now) row) "completed_at")
  = Some now.
Proof.
  intros R. unfold parsed.
  rewrite completed_row_stamp, (parse_timestamp_isoformat _ _ R). reflexivity.
Qed.

Lemma completed_row_ok now row title :
  Datetime.in_range now = true ->
  row !! "title" = Some title ->
  task_ok Iso.fromisoformat local_utcoffset
    (update_row (complete_task_update now) row) = true.
Proof.
  intros R T. unfold task_ok.
  rewrite completed_row_stamp, (parse_timestamp_isoformat _ _ R).
  rewrite completed_row_title, T. reflexivity.
Qed.

Lemma completed_row_activity now row title :
  Datetime.in_range now = true ->
  row !! "title" = Some title ->
  act (update_row (complete_task_update now) row)
  = Some {| description :=
              String.append "You completed task "
                (String.append dquote (String.append (str title) dquote));
            timestamp := now |}.
Proof.
  intros R T. unfold activity_of.
  rewrite (completed_row_parsed _ _ R). cbn [mbind option_bind].
  rewrite completed_row_title, T. reflexivity.
Qed.

End Completing.

(** X9.  Completing a task through [complete_task] and looking at the
    dashboard afterwards: the task moves from active to completed, it is
    counted in the week its completion instant falls in (this week when the
    dashboard is read at that very instant), it appears in the activity
    list with its title and that instant, and no score goes down. *)
Theorem completed_task_is_counted :
  forall (local_utcoffset : Z -> res Z) (today now : Z)
         (before after focus_sessions : list (gmap string value))
         (row : gmap string value) (title : value),
    is_complete row = false ->
    row !! "title" = Some title ->
    Datetime.in_range now = true ->
    inputs_ok Iso.fromisoformat local_utcoffset today
      (before ++ row :: after) focus_sessions = true ->
    let row' := update_row (complete_task_update now) row in
    exists l l',
      dashboard Iso.fromisoformat local_utcoffset today
        (before ++ row :: after) focus_sessions = Ok l
      /\ dashboard Iso.fromisoformat local_utcoffset today
           (before ++ row' :: after) focus_sessions = Ok l'
      /\ total_tasks l' = total_tasks l
      /\ tasks_completed_count l' = tasks_completed_count l + 1
      /\ active_tasks_count l' = active_tasks_count l - 1
      /\ tasks_this_week_count l'
         = tasks_this_week_count l
           + (if in_this_week (start_of_this_week l) now then 1 else 0)
      /\ tasks_last_week_count l'
         = tasks_last_week_count l
           + (if in_last_week (start_of_this_week l) (start_of_last_week l) now
              then 1 else 0)
      /\ (now = today ->
          tasks_this_week_count l' = tasks_this_week_count l + 1)
      /\ Permutation (recent_activities l')
           ({| description :=
                 String.append "You completed task "
                   (String.append dquote (String.append (str title) dquote));
               timestamp := now |} :: recent_activities l)
      /\ total_focus_hours l' = total_focus_hours l
      /\ focus_percentage_change l' = focus_percentage_change l
      /\ float_le (task_score l) (task_score l')
      /\ productivity_score l <= productivity_score l'.
Proof.
  intros local_utcoffset today now before after focus_sessions row title
    Hinc Htitle Hnow Hok row'.
  pose proof (completed_row_flag now row) as Hflag. fold row' in Hflag.
  pose proof (completed_row_parsed local_utcoffset now row Hnow) as Hpar.
  fold row' in Hpar.
  pose proof (completed_row_ok local_utcoffset now row title Hnow Htitle)
    as Hrow.
  fold row' in Hrow.
  pose proof (completed_row_activity local_utcoffset now row title Hnow Htitle)
    as Hact.
  fold row' in Hact.
  assert (Hf : List.filter is_complete (before ++ row :: after)
               = List.filter is_complete before
                 ++ List.filter is_complete after).
  { rewrite List.filter_app. cbn [List.filter]. rewrite Hinc. reflexivity. }
  assert (Hf' : List.filter is_complete (before ++ row' :: after)
                = List.filter is_complete before
                  ++ row' :: List.filter is_complete after).
  { rewrite List.filter_app. cbn [List.filter]. rewrite Hflag. reflexivity. }
  assert (Hlen : length (before ++ row' :: after)
                 = length (before ++ row :: after)).
  { rewrite !List.length_app. reflexivity. }
  assert (Hok' : inputs_ok Iso.fromisoformat local_utcoffset today
                   (before ++ row' :: after) focus_sessions = true).
  { unfold inputs_ok in *. rewrite Hf in Hok. rewrite Hf', Hlen.
    apply andb_true_iff in Hok as [Hok A5].
    apply andb_true_iff in Hok as [Hok A4].
    apply andb_true_iff in Hok as [Hok A3].
    apply andb_true_iff in Hok as [Hok A2].
    rewrite Hok, A3, A4, A5. cbn [andb]. rewrite !andb_true_r.
    rewrite forallb_app in A2 |- *. apply andb_true_iff in A2 as [B1 B2].
    cbn [forallb]. rewrite B1, B2, Hrow. reflexivity. }
  destruct (dashboard_total _ _ _ _ _ Hok) as [l Hl].
  destruct (dashboard_total _ _ _ _ _ Hok') as [l' Hl'].
  exists l, l'. split; [exact Hl|]. split; [exact Hl'|].
  destruct (run_same_week _ _ _ _ _ _ _ _ _ Hl Hl') as [W1 W2].
  destruct (run_same_changes _ _ _ _ _ _ _ _ _ _ Hl Hl') as (C1 & C2 & C3).
  pose proof (run_closed_form _ _ _ _ _ _ Hl) as F.
  pose proof (run_closed_form _ _ _ _ _ _ Hl') as F'.
  cbv zeta in F, F'. rewrite Hf in F. rewrite Hf', Hlen in F'.
  destruct F as (F1 & F2 & F3 & F4 & F5 & F6 & F7 & F8 & F9 & F10 & F11 & F12).
  destruct F' as (G1 & G2 & G3 & G4 & G5 & G6 & G7 & G8 & G9 & G10 & G11 & G12).
  repeat rewrite List.length_app in F2. repeat rewrite List.length_app in F3.
  repeat rewrite List.length_app in F4. repeat rewrite List.length_app in G2.
  repeat rewrite List.length_app in G3. repeat rewrite List.length_app in G4.
  cbn [length] in F2, F3, F4, G2, G3, G4.
  rewrite completion_times_app in F7, F8, G7, G8.
  rewrite completion_times_cons, Hpar in G7, G8.
  rewrite count_app in F7, F8, G7, G8. rewrite count_cons in G7, G8.
  rewrite W1 in G7, G8. rewrite W2 in G8.
  assert (T1 : tasks_this_week_count l'
               = tasks_this_week_count l
                 + (if in_this_week (start_of_this_week l) now then 1 else 0))
    by lia.
  assert (T2 : tasks_last_week_count l'
               = tasks_last_week_count l
                 + (if in_last_week (start_of_this_week l)
                         (start_of_last_week l) now then 1 else 0))
    by lia.
  assert (M0 : total_focus_minutes l' = total_focus_minutes l) by congruence.
  assert (M1 : focus_this_week_min l' = focus_this_week_min l)
    by (rewrite G10, F10, W1; reflexivity).
  assert (M2 : focus_last_week_min l' = focus_last_week_min l)
    by (rewrite G11, F11, W1, W2; reflexivity).
  assert (Lts : float_le (task_score l) (task_score l')).
  { pose proof (dashboard_inv _ _ _ _ _ _ Hl) as K.
    pose proof (dashboard_inv _ _ _ _ _ _ Hl') as K'.
    destruct K as (_ & _ & _ & _ & _ & _ & _ & _ & _ & _ & _ & Kts & _).
    destruct K' as (_ & _ & _ & _ & _ & _ & _ & _ & _ & _ & _ & Kts' & _).
    pose proof (completed_le_total (before ++ row' :: after)) as CT.
    rewrite Hf', Hlen in CT. repeat rewrite List.length_app in CT.
    cbn [length] in CT.
    eapply task_score_order; [| |exact Kts|exact Kts']; lia. }
  assert (Hm : 0 <= total_focus_minutes l).
  { unfold inputs_ok in Hok.
    apply andb_true_iff in Hok as [Hok _].
    apply andb_true_iff in Hok as [Hok _].
    apply andb_true_iff in Hok as [_ A3].
    pose proof (minutes_bounds Iso.fromisoformat local_utcoffset
                  (fun _ => true) focus_sessions A3) as MB.
    rewrite F9. lia. }
  split; [congruence|]. split; [lia|]. split; [lia|].
  split; [exact T1|]. split; [exact T2|].
  split.
  { intros ->. rewrite T1. unfold in_this_week.
    pose proof (weekday_bounds today) as Wd.
    assert (today - Datetime.weekday today * Datetime.us_per_day <= today)
      by (rewrite us_per_day_value; lia).
    rewrite F5. destruct (Z.leb_spec
      (today - Datetime.weekday today * Datetime.us_per_day) today); lia. }
  split.
  { rewrite G12, F12.
    etransitivity; [apply sort_desc_perm|].
    rewrite !omap_app. rewrite (omap_cons_Some _ _ _ _ Hact).
    symmetry. etransitivity; [apply perm_skip, sort_desc_perm|].
    apply Permutation_middle. }
  split; [tauto|]. split; [tauto|]. split; [exact Lts|].
  eapply (score_order _ _ _ _ _ _ _ _ _ _ Hl Hl' Lts). lia.
Qed.

Lemma completed_task_is_counted_witness :
  exists l l',
    Sample.run Sample.today Sample.tasks Sample.focus_sessions = Ok l
    /\ Sample.run Sample.today
         [Sample.task_a; Sample.task_b;
          update_row (complete_task_update Sample.today) Sample.task_c;
          Sample.task_d]
         Sample.focus_sessions = Ok l'
    /\ tasks_completed_count l' = tasks_completed_count l + 1
    /\ tasks_this_week_count l' = tasks_this_week_count l + 1
    /\ productivity_score l <= productivity_score l'.
Proof.
  destruct (completed_task_is_counted Iso.utc_host Sample.today Sample.today
              [Sample.task_a; Sample.task_b] [Sample.task_d]
              Sample.focus_sessions Sample.task_c (VStr "call back"))
    as (l & l' & E & E' & _ & A & _ & _ & _ & B & _ & _ & _ & _ & C);
    [reflexivity | reflexivity | vm_compute; reflexivity
    | vm_compute; reflexivity |].
  exists l, l'. split; [exact E|]. split; [exact E'|].
  split; [exact A|]. split; [apply B; reflexivity|exact C].
Defined.



(** * The focus page *)

Section FocusPage.

Lemma select_lookup columns column row :
  column ∈ columns -> select columns row !! column = row !! column.
Proof.
  intros Hc. unfold select. destruct (row !! column) as [v|] eqn:E.
  - apply map_lookup_filter_Some. split; [exact E|exact Hc].
  - apply map_lookup_filter_None. left. exact E.
Qed.

Lemma select_get columns column row :
  column ∈ columns -> get (select columns row) column = get row column.
Proof. intros Hc. unfold get. rewrite select_lookup by exact Hc. reflexivity. Qed.

Lemma select_complete columns row :
  "is_complete" ∈ columns ->
  is_complete (select columns row) = is_complete row.
Proof.
  intros Hc. unfold is_complete. rewrite select_get by exact Hc. reflexivity.
Qed.

Lemma select_duration columns row :
  "duration_minutes" ∈ columns ->
  get_default (select columns row) "duration_minutes" (VInt 0)
  = get_default row "duration_minutes" (VInt 0).
Proof.
  intros Hc. unfold get_default. rewrite select_lookup by exact Hc.
  reflexivity.
Qed.

Lemma filter_select l :
  length (List.filter is_complete (map (select ["is_complete"]) l))
  = length (List.filter is_complete l).
Proof.
  induction l as [|r l IH]; [reflexivity|].
  cbn [map List.filter]. rewrite select_complete by (repeat constructor).
  destruct (is_complete r); cbn [length]; rewrite IH; reflexivity.
Qed.

Lemma sum_ones {A} (l : list A) : forall acc,
  fold_left Z.add (map (fun _ => 1) l) acc = acc + Z.of_nat (length l).
Proof.
  induction l as [|x l IH]; intros acc; cbn [map fold_left length].
  - lia.
  - rewrite IH. lia.
Qed.

(** The count of line 358 is the length of the filtered list. *)
Lemma count_complete (l : list (gmap string value)) :
  (if nonempty l then sum_Z (map (fun _ => 1) (List.filter is_complete l))
   else 0)
  = Z.of_nat (length (List.filter is_complete l)).
Proof.
  destruct l as [|r l]; [reflexivity|]. cbn [nonempty].
  unfold sum_Z. rewrite sum_ones. lia.
Qed.

Lemma sum_durations_from l : forall acc,
  forallb
    (fun s => is_ok (int_add 0 (get_default s "duration_minutes" (VInt 0)))) l
  = true ->
  for_each
    (fun acc sess => int_add acc (get_default sess "duration_minutes" (VInt 0)))
    l acc
  = Ok (acc + foldr Z.add 0 (map duration_minutes l)).
Proof.
  induction l as [|s l IH]; intros acc F.
  - cbn. f_equal. lia.
  - cbn [forallb] in F. apply andb_true_iff in F as [F0 F].
    cbn [for_each map foldr]. unfold duration_minutes at 1.
    destruct (get_default s "duration_minutes" (VInt 0)) as [|b|n|str];
      cbn [int_add is_ok] in F0 |- *; try discriminate F0;
      cbn [Py.bind]; rewrite (IH _ F); f_equal; lia.
Qed.

Lemma sum_durations_raises l s :
  In s l ->
  is_ok (int_add 0 (get_default s "duration_minutes" (VInt 0))) = false ->
  forall acc,
    is_ok (for_each
             (fun acc sess =>
                int_add acc (get_default sess "duration_minutes" (VInt 0)))
             l acc) = false.
Proof.
  induction l as [|x l IH]; intros Hin Hs acc; [destruct Hin|].
  cbn [for_each].
  destruct (get_default x "duration_minutes" (VInt 0)) as [|b|n|str] eqn:E;
    cbn [int_add Py.bind is_ok]; try reflexivity.
  - destruct Hin as [->|Hin]; [rewrite E in Hs; discriminate Hs|].
    apply IH; assumption.
  - destruct Hin as [->|Hin]; [rewrite E in Hs; discriminate Hs|].
    apply IH; assumption.
Qed.

Lemma map_select_durations l :
  map duration_minutes (map (select ["duration_minutes"]) l)
  = map duration_minutes l.
Proof.
  induction l as [|s l IH]; [reflexivity|].
  cbn [map]. rewrite IH. f_equal. unfold duration_minutes.
  rewrite select_duration by (repeat constructor). reflexivity.
Qed.

Lemma forallb_select (p : value -> bool) l :
  forallb (fun s => p (get_default s "duration_minutes" (VInt 0)))
    (map (select ["duration_minutes"]) l)
  = forallb (fun s => p (get_default s "duration_minutes" (VInt 0))) l.
Proof.
  induction l as [|s l IH]; [reflexivity|].
  cbn [map forallb]. rewrite IH, select_duration by (repeat constructor). reflexivity.
Qed.

Lemma run_durations_ok fromisoformat local_utcoffset today tasks sessions l :
  dashboard fromisoformat local_utcoffset today tasks sessions = Ok l ->
  forallb
    (fun s => is_ok (int_add 0 (get_default s "duration_minutes" (VInt 0))))
    sessions = true.
Proof.
  intros H. apply dashboard_inv in H.
  destruct H as (_ & _ & _ & _ & _ & _ & _ & _ & K & _).
  apply is_ok_of in K. rewrite add_session_loop_steps in K.
  apply forallb_forall. intros s Hs.
  rewrite forallb_forall in K. specialize (K s Hs).
  apply andb_true_iff in K as [K _]. exact K.
Qed.

End FocusPage.

(** X11.  The focus page and the dashboard show the same lifetime figures:
    whenever the dashboard is computed, the focus page, which reads the
    same rows through its two one-column queries, shows the dashboard's
    completed-task count and total focus minutes, and the number of
    sessions. *)
Theorem focus_page_agrees_with_dashboard :
  forall (fromisoformat : string -> res Datetime.t)
         (local_utcoffset : Z -> res Z) (today : Z)
         (tasks focus_sessions : list (gmap string value)) (l : locals),
    dashboard fromisoformat local_utcoffset today tasks focus_sessions = Ok l ->
    focus_stats (Ok (map (select ["is_complete"]) tasks))
      (Ok (map (select ["duration_minutes"]) focus_sessions))
    = (tasks_completed_count l, Z.of_nat (length focus_sessions),
       total_focus_minutes l).
Proof.
  intros fromisoformat local_utcoffset today tasks focus_sessions l H.
  pose proof (run_durations_ok _ _ _ _ _ _ H) as D.
  pose proof (run_closed_form _ _ _ _ _ _ H) as F. cbv zeta in F.
  destruct F as (_ & F2 & _ & _ & _ & _ & _ & _ & F9 & _).
  unfold focus_stats. cbv zeta.
  rewrite count_complete, filter_select, <- F2.
  destruct focus_sessions as [|s rest] eqn:E.
  - cbn [map nonempty length]. rewrite F9. reflexivity.
  - rewrite <- E in *. replace (nonempty (map _ focus_sessions)) with true
      by (rewrite E; reflexivity).
    unfold sum_durations. rewrite sum_durations_from.
    + rewrite map_select_durations, List.length_map, <- F9. reflexivity.
    + rewrite (forallb_select
                 (fun v => is_ok (int_add 0 v)) focus_sessions). exact D.
Qed.

Lemma focus_page_agrees_with_dashboard_witness :
  focus_stats (Ok (map (select ["is_complete"]) Sample.tasks))
    (Ok (map (select ["duration_minutes"]) Sample.focus_sessions))
  = (3, 3, 1225).
Proof.
  destruct (Sample.run Sample.today Sample.tasks Sample.focus_sessions)
    as [l|e] eqn:E; [|vm_compute in E; discriminate E].
  rewrite (focus_page_agrees_with_dashboard Iso.fromisoformat Iso.utc_host
             Sample.today Sample.tasks Sample.focus_sessions l E).
  pose proof (run_closed_form _ _ _ _ _ _ E)
    as (_ & A & _ & _ & _ & _ & _ & _ & C & _).
  rewrite A, C. reflexivity.
Defined.

(** X12.  [add_focus_session] takes any value under [duration_minutes].  A
    session stored with a null or a text duration stops the dashboard,
    while the focus page still counts the sessions and shows zero focus
    minutes, whatever the other sessions hold. *)
Theorem unchecked_duration_breaks_dashboard :
  forall (fromisoformat : string -> res Datetime.t)
         (local_utcoffset : Z -> res Z) (today : Z)
         (tasks focus_sessions : list (gmap string value))
         (data : gmap string value) (user_id v : value),
    data !! "duration_minutes" = Some v ->
    is_ok (int_add 0 v) = false ->
    exists row,
      add_focus_session_row data user_id = Some row
      /\ forall stored,
           row ⊆ stored ->
           In stored focus_sessions ->
           is_ok (dashboard fromisoformat local_utcoffset today tasks
                    focus_sessions) = false
           /\ focus_stats (Ok (map (select ["is_complete"]) tasks))
                (Ok (map (select ["duration_minutes"]) focus_sessions))
              = (Z.of_nat (length (List.filter is_complete tasks)),
                 Z.of_nat (length focus_sessions), 0).
Proof.
  intros fromisoformat local_utcoffset today tasks focus_sessions data user_id
    v Hv Hbad.
  assert (Hne : data <> ∅).
  { intros ->. rewrite lookup_empty in Hv. discriminate Hv. }
  destruct (add_focus_session_row data user_id) as [row|] eqn:Hrow.
  2:{ exfalso. unfold add_focus_session_row in Hrow.
      rewrite bool_decide_eq_false_2 in Hrow by exact Hne.
      rewrite bool_decide_eq_true_2 in Hrow by (rewrite Hv; eauto).
      cbn [negb orb] in Hrow. rewrite Hv in Hrow.
      cbn [mbind option_bind] in Hrow. discriminate Hrow. }
  exists row. split; [reflexivity|].
  intros stored Hsub Hin.
  pose proof (add_focus_session_row_duration _ _ _ _ Hrow Hsub) as Hd.
  rewrite Hv in Hd.
  assert (Hs : is_ok (int_add 0 (get_default stored "duration_minutes" (VInt 0)))
               = false).
  { unfold get_default. rewrite Hd. exact Hbad. }
  split.
  - destruct (dashboard fromisoformat local_utcoffset today tasks focus_sessions)
      as [l|e] eqn:H; [|reflexivity].
    pose proof (run_durations_ok _ _ _ _ _ _ H) as D.
    rewrite forallb_forall in D. specialize (D stored Hin). congruence.
  - unfold focus_stats. cbv zeta.
    rewrite count_complete, filter_select.
    destruct focus_sessions as [|s rest] eqn:E; [destruct Hin|].
    rewrite <- E in *. replace (nonempty (map _ focus_sessions)) with true
      by (rewrite E; reflexivity).
    rewrite List.length_map.
    assert (R : is_ok (sum_durations
                         (map (select ["duration_minutes"]) focus_sessions))
                = false).
    { unfold sum_durations.
      apply (sum_durations_raises _ (select ["duration_minutes"] stored)).
      - apply in_map. exact Hin.
      - rewrite select_duration by (repeat constructor). exact Hs. }
    destruct (sum_durations _); [discriminate R|reflexivity].
Qed.

Lemma unchecked_duration_breaks_dashboard_witness :
  exists row,
    add_focus_session_row {[ "duration_minutes" := VNone ]} (VStr "u1")
    = Some row
    /\ is_ok (Sample.run Sample.today Sample.tasks
                [Sample.session_a; row]) = false
    /\ focus_stats (Ok (map (select ["is_complete"]) Sample.tasks))
         (Ok (map (select ["duration_minutes"]) [Sample.session_a; row]))
       = (3, 2, 0).
Proof.
  destruct (unchecked_duration_breaks_dashboard Iso.fromisoformat Iso.utc_host
              Sample.today Sample.tasks
              [Sample.session_a;
               {[ "user_id" := VStr "u1"; "duration_minutes" := VNone ]}]
              {[ "duration_minutes" := VNone ]} (VStr "u1") VNone)
    as (row & R & P); [reflexivity | reflexivity |].
  assert (Er : Some row
               = Some {[ "user_id" := VStr "u1"; "duration_minutes" := VNone ]}).
  { rewrite <- R. reflexivity. }
  injection Er as ->.
  eexists. split; [reflexivity|].
  destruct (P {[ "user_id" := VStr "u1"; "duration_minutes" := VNone ]})
    as [A B]; [reflexivity | right; left; reflexivity|].
  split; [exact A|exact B].
Defined.

(** * The outcomes of [parse_timestamp] *)

(** ** What the parser returns *)

Section Parsed.

Lemma digit_bounds c d : Iso.digit c = Some d -> 0 <= d <= 9.
Proof.
  unfold Iso.digit.
  destruct ((48 <=? Z.of_N (N_of_ascii c)) && (Z.of_N (N_of_ascii c) <=? 57))
    eqn:E; [|discriminate].
  apply andb_true_iff in E as [A B]. apply Z.leb_le in A, B.
  intros [= <-]. lia.
Qed.

Lemma digits_nonneg n : forall acc s v r,
  Iso.digits n acc s = Some (v, r) -> 0 <= acc -> 0 <= v.
Proof.
  induction n as [|k IH]; intros acc s v r H Hacc.
  - cbn [Iso.digits] in H. injection H as <- _. exact Hacc.
  - cbn [Iso.digits] in H. destruct s as [|c s']; [discriminate|].
    destruct (Iso.digit c) as [d|] eqn:D; [|discriminate].
    cbn [mbind option_bind] in H. apply digit_bounds in D.
    apply IH in H; [exact H|lia].
Qed.

Lemma fraction_nonneg s us : Iso.fraction s = Some us -> 0 <= us.
Proof.
  unfold Iso.fraction, Iso.all_of.
  destruct (String.length s) as [|[|[|[|[|[|[|]]]]]]]; try discriminate.
  - destruct (Iso.digits 3 0 s) as [[n r]|] eqn:D; [|discriminate].
    apply digits_nonneg in D; [|lia].
    destruct r; [|discriminate]. cbn [mbind option_bind]. intros [= <-]. lia.
  - destruct (Iso.digits 6 0 s) as [[n r]|] eqn:D; [|discriminate].
    apply digits_nonneg in D; [|lia].
    destruct r; [|discriminate]. intros [= <-]. lia.
Qed.

Lemma hh_mm_ss_ff_nonneg s h mi sec us :
  Iso.hh_mm_ss_ff s = Some (h, mi, sec, us) ->
  0 <= h /\ 0 <= mi /\ 0 <= sec /\ 0 <= us.
Proof.
  unfold Iso.hh_mm_ss_ff.
  destruct (Iso.digits 2 0 s) as [[h0 s1]|] eqn:D1; [|discriminate].
  apply digits_nonneg in D1; [|lia]. cbn [mbind option_bind].
  destruct s1 as [|c1 s2]; [intros [= <- <- <- <-]; lia|].
  destruct (negb (Ascii.eqb c1 ":")); [discriminate|].
  destruct (Iso.digits 2 0 s2) as [[mi0 s3]|] eqn:D2; [|discriminate].
  apply digits_nonneg in D2; [|lia]. cbn [mbind option_bind].
  destruct s3 as [|c2 s4]; [intros [= <- <- <- <-]; lia|].
  destruct (negb (Ascii.eqb c2 ":")); [discriminate|].
  destruct (Iso.digits 2 0 s4) as [[sec0 s5]|] eqn:D3; [|discriminate].
  apply digits_nonneg in D3; [|lia]. cbn [mbind option_bind].
  destruct s5 as [|c3 s6]; [intros [= <- <- <- <-]; lia|].
  destruct (negb (Ascii.eqb c3 ".")); [discriminate|].
  destruct (Iso.fraction s6) as [us0|] eqn:D4; [|discriminate].
  apply fraction_nonneg in D4. cbn [mbind option_bind].
  intros [= <- <- <- <-]. lia.
Qed.

Lemma offset_bounds negative s o :
  Iso.offset negative s = Some o ->
  - Datetime.us_per_day < o < Datetime.us_per_day.
Proof.
  unfold Iso.offset.
  destruct (negb _); [discriminate|].
  destruct (Iso.hh_mm_ss_ff s) as [[[[h mi] sec] us]|] eqn:T; [|discriminate].
  apply hh_mm_ss_ff_nonneg in T as (Hh & Hmi & Hs & Hus).
  cbn [mbind option_bind].
  destruct ((h * 60 + mi) * 60 + sec =? 0).
  { intros [= <-]. rewrite us_per_day_value. lia. }
  destruct (Z.ltb_spec
              (((h * 60 + mi) * 60 + sec) * Datetime.us_per_second + us)
              Datetime.us_per_day) as [L|]; [|discriminate].
  assert (0 <= ((h * 60 + mi) * 60 + sec) * Datetime.us_per_second + us)
    by (unfold Datetime.us_per_second; lia).
  intros [= <-]. destruct negative; lia.
Qed.

Lemma days_from_civil_bounds y m d :
  Datetime.valid_date y m d = true ->
  0 <= Datetime.days_from_civil y m d < Datetime.max_ordinal.
Proof.
  intros V. unfold Datetime.valid_date in V.
  repeat (apply andb_true_iff in V as [V ?]).
  repeat match goal with
         | H : (_ <=? _) = true |- _ => apply Z.leb_le in H
         end.
  pose proof (dby_mono 1 y ltac:(lia)) as L. rewrite dby_1 in L.
  pose proof (dby_mono (y + 1) 10000 ltac:(lia)) as U. rewrite dby_10000 in U.
  rewrite dby_step in U.
  destruct (dbm_table y) as (B0 & B1 & B2 & B3 & B4 & B5 & B6 & B7 & B8 & B9
                             & B10 & B11 & B12).
  destruct (dim_table y) as (D1 & D2 & D3 & D4 & D5 & D6 & D7 & D8 & D9 & D10
                             & D11 & D12).
  set (lp := if Datetime.is_leap y then 1 else 0) in *.
  assert (Hlp : 0 <= lp <= 1) by (unfold lp; destruct (Datetime.is_leap y); lia).
  unfold Datetime.days_from_civil.
  assert (C : m = 1 \/ m = 2 \/ m = 3 \/ m = 4 \/ m = 5 \/ m = 6 \/ m = 7
              \/ m = 8 \/ m = 9 \/ m = 10 \/ m = 11 \/ m = 12) by lia.
  destruct C as [-> | [-> | [-> | [-> | [-> | [-> | [-> | [-> | [-> | [-> |
                [-> | ->]]]]]]]]]]];
    match goal with
    | |- context [Z.to_nat (?k - 1)] =>
        let n := eval cbv in (Z.to_nat (k - 1)) in
        change (Z.to_nat (k - 1)) with n
    end;
    rewrite ?B0, ?B1, ?B2, ?B3, ?B4, ?B5, ?B6, ?B7, ?B8, ?B9, ?B10, ?B11;
    lia.
Qed.

Lemma of_fields_bounds y m d h mi s us :
  Datetime.valid_date y m d = true ->
  Datetime.valid_time h mi s us = true ->
  0 <= h -> 0 <= mi -> 0 <= s -> 0 <= us ->
  Datetime.in_range (Datetime.of_fields y m d h mi s us) = true.
Proof.
  intros V T Hh Hmi Hs Hus.
  apply days_from_civil_bounds in V.
  unfold Datetime.valid_time in T.
  repeat (apply andb_true_iff in T as [T ?]).
  repeat match goal with
         | H : (_ <? _) = true |- _ => apply Z.ltb_lt in H
         end.
  unfold Datetime.in_range, Datetime.of_fields, Datetime.end_us,
    Datetime.us_per_day, Datetime.us_per_second, Datetime.max_ordinal in *.
  apply andb_true_iff. split; [apply Z.leb_le|apply Z.ltb_lt]; lia.
Qed.

(** The wall clock of a parsed datetime is a calendar instant and its
    offset, if any, is shorter than a day. *)
Lemma parse_bounds s d :
  Iso.parse s = Some d ->
  Datetime.in_range (Datetime.wall d) = true
  /\ forall o, Datetime.utcoffset d = Some o ->
               - Datetime.us_per_day < o < Datetime.us_per_day.
Proof.
  unfold Iso.parse.
  destruct (Iso.digits 4 0 s) as [[y s1]|]; [|discriminate].
  cbn [mbind option_bind].
  destruct (Iso.expect "-" s1) as [s2|]; [|discriminate].
  cbn [mbind option_bind].
  destruct (Iso.digits 2 0 s2) as [[m s3]|]; [|discriminate].
  cbn [mbind option_bind].
  destruct (Iso.expect "-" s3) as [s4|]; [|discriminate].
  cbn [mbind option_bind].
  destruct (Iso.digits 2 0 s4) as [[dd s5]|]; [|discriminate].
  cbn [mbind option_bind].
  destruct (Datetime.valid_date y m dd) eqn:V; [|discriminate]. cbn [negb].
  destruct s5 as [|sep ts].
  - intros [= <-]. cbn [Datetime.wall Datetime.utcoffset].
    split; [|discriminate].
    apply of_fields_bounds; [exact V|reflexivity|lia..].
  - destruct (Iso.split_sign ts) as [tpart tz].
    destruct (Iso.hh_mm_ss_ff tpart) as [[[[h mi] sec] us]|] eqn:T;
      [|discriminate].
    cbn [mbind option_bind].
    apply hh_mm_ss_ff_nonneg in T as (Hh & Hmi & Hs & Hus).
    destruct (Datetime.valid_time h mi sec us) eqn:VT; [|discriminate].
    cbn [negb].
    destruct tz as [[negative zs]|].
    + destruct (Iso.offset negative zs) as [o|] eqn:O; [|discriminate].
      cbn [mbind option_bind]. intros [= <-].
      cbn [Datetime.wall Datetime.utcoffset].
      split; [apply of_fields_bounds; assumption|].
      intros o' [= <-]. eapply offset_bounds. exact O.
    + intros [= <-]. cbn [Datetime.wall Datetime.utcoffset].
      split; [apply of_fields_bounds; assumption|discriminate].
Qed.

End Parsed.

(** X13.  Everything [parse_timestamp] can do, whatever the library parser
    and the host, provided the parser returns datetimes of the calendar
    with offsets shorter than a day and the host gives offsets shorter than
    a day.  It answers [None], or an instant of the calendar, or it raises:
    [AttributeError] on a truthy value that is not text; an exception of the
    parser or of the host's zone lookup other than [ValueError] and
    [TypeError]; [OverflowError] from the conversion to UTC, only for a
    non-zero or missing offset and a wall-clock reading in the first or the
    last day of the calendar. *)
Theorem parse_timestamp_outcomes :
  forall (fromisoformat : string -> res Datetime.t)
         (local_utcoffset : Z -> res Z) (v : value),
    (forall s d,
        fromisoformat s = Ok d ->
        Datetime.in_range (Datetime.wall d) = true
        /\ forall o, Datetime.utcoffset d = Some o ->
                     - Datetime.us_per_day < o < Datetime.us_per_day) ->
    (forall w o,
        local_utcoffset w = Ok o ->
        - Datetime.us_per_day < o < Datetime.us_per_day) ->
    match parse_timestamp fromisoformat local_utcoffset v with
    | Ok None => True
    | Ok (Some t) => Datetime.in_range t = true
    | Raise e =>
        (e = AttributeError /\ forall s, v <> VStr s)
        \/ exists s,
             v = VStr s /\ e <> ValueError /\ e <> TypeError
             /\ (fromisoformat (replace_char "Z" "+00:00" s) = Raise e
                 \/ exists d,
                      fromisoformat (replace_char "Z" "+00:00" s) = Ok d
                      /\ ((Datetime.utcoffset d = None
                           /\ local_utcoffset (Datetime.wall d) = Raise e)
                          \/ (e = OverflowError
                              /\ Datetime.utcoffset d <> Some 0
                              /\ (Datetime.wall d < Datetime.us_per_day
                                  \/ Datetime.end_us - Datetime.us_per_day
                                     <= Datetime.wall d))))
    end.
Proof.
  intros fromisoformat local_utcoffset v Hparser Hhost. unfold parse_timestamp.
  destruct (truthy v) eqn:Tv; cbn [negb]; [|exact I].
  destruct v as [|b|n|s]; try (left; split; [reflexivity|discriminate]).
  destruct (fromisoformat (replace_char "Z" "+00:00" s)) as [d|e] eqn:P;
    cbn [mbind res_bind Py.bind].
  2:{ destruct e; try exact I; right; exists s;
        (split; [reflexivity|]); (split; [discriminate|]);
        (split; [discriminate|]); left; first [reflexivity|assumption]. }
  destruct (Hparser _ _ P) as [W O].
  unfold Datetime.in_range in W. apply andb_true_iff in W as [W0 W1].
  apply Z.leb_le in W0. apply Z.ltb_lt in W1.
  assert (Sub : forall off,
             - Datetime.us_per_day < off < Datetime.us_per_day ->
             match Datetime.sub (Datetime.wall d) off with
             | Ok t => Datetime.in_range t = true
             | Raise e =>
                 e = OverflowError
                 /\ (Datetime.wall d < Datetime.us_per_day
                     \/ Datetime.end_us - Datetime.us_per_day
                        <= Datetime.wall d)
             end).
  { intros off Hoff. unfold Datetime.sub.
    destruct (Datetime.in_range (Datetime.wall d - off)) eqn:R; [exact R|].
    split; [reflexivity|].
    unfold Datetime.in_range in R. apply andb_false_iff in R as [R|R].
    - apply Z.leb_gt in R. lia.
    - apply Z.ltb_ge in R. lia. }
  unfold astimezone_utc.
  destruct (Datetime.utcoffset d) as [off|] eqn:U.
  - destruct (Z.eqb_spec off 0) as [->|N].
    + unfold Datetime.in_range. apply andb_true_iff.
      split; [apply Z.leb_le|apply Z.ltb_lt]; assumption.
    + specialize (Sub off (O off eq_refl)).
      destruct (Datetime.sub (Datetime.wall d) off) as [t|e]; [exact Sub|].
      destruct Sub as [-> Hw]. right. exists s.
      split; [reflexivity|]. split; [discriminate|]. split; [discriminate|].
      right. exists d. split; [first [reflexivity|assumption]|]. right.
      split; [reflexivity|]. split; [|exact Hw].
      rewrite U. intros [= E]. exact (N E).
  - destruct (local_utcoffset (Datetime.wall d)) as [o|e] eqn:L;
      cbn [mbind res_bind Py.bind].
    + specialize (Sub o (Hhost _ _ L)).
      destruct (Datetime.sub (Datetime.wall d) o) as [t|e]; [exact Sub|].
      destruct Sub as [-> Hw]. right. exists s.
      split; [reflexivity|]. split; [discriminate|]. split; [discriminate|].
      right. exists d. split; [first [reflexivity|assumption]|]. right.
      split; [reflexivity|]. split; [rewrite U; discriminate|exact Hw].
    + destruct e; try exact I; right; exists s;
        (split; [reflexivity|]); (split; [discriminate|]);
        (split; [discriminate|]); right; exists d;
        (split; [first [reflexivity|assumption]|]); left;
        split; first [reflexivity|assumption].
Qed.

Lemma parse_timestamp_outcomes_witness :
  parse_timestamp Iso.fromisoformat Iso.utc_host (VStr Sample.early)
  = Raise OverflowError
  /\ parse_timestamp Iso.fromisoformat Iso.utc_host
       (get Sample.task_naive "completed_at") = Ok None
  /\ match parse_timestamp Iso.fromisoformat Iso.utc_host
             (VStr "2024-01-03T10:00:00+05:30") with
     | Ok (Some t) => Datetime.in_range t = true
     | _ => False
     end.
Proof.
  assert (Hp : forall s d,
             Iso.fromisoformat s = Ok d ->
             Datetime.in_range (Datetime.wall d) = true
             /\ forall o, Datetime.utcoffset d = Some o ->
                          - Datetime.us_per_day < o < Datetime.us_per_day).
  { intros s d H. unfold Iso.fromisoformat in H.
    destruct (Iso.parse s) as [d'|] eqn:P; [|discriminate H].
    injection H as <-. exact (parse_bounds s d' P). }
  assert (Hh : forall w o,
             Iso.utc_host w = Ok o ->
             - Datetime.us_per_day < o < Datetime.us_per_day).
  { intros w o H. unfold Iso.utc_host in H.
    destruct (w <? Datetime.us_per_day); [discriminate H|].
    injection H as <-. rewrite us_per_day_value. lia. }
  split; [vm_compute; reflexivity|].
  split; [vm_compute; reflexivity|].
  pose proof (parse_timestamp_outcomes Iso.fromisoformat Iso.utc_host
                (VStr "2024-01-03T10:00:00+05:30") Hp Hh) as P.
  destruct (parse_timestamp Iso.fromisoformat Iso.utc_host
              (VStr "2024-01-03T10:00:00+05:30")) as [[t|]|e] eqn:E.
  - exact P.
  - vm_compute in E. discriminate E.
  - vm_compute in E. discriminate E.
Defined.

(** * What the dashboard reads and what it counts *)

(** ** The columns the dashboard reads *)

Section Columns.

Context (fromisoformat : string -> res Datetime.t).
Context (local_utcoffset : Z -> res Z).

Lemma for_each_map {A B S} (f : A -> B) (body : S -> B -> res S) l : forall s,
  for_each body (map f l) s = for_each (fun s x => body s (f x)) l s.
Proof.
  induction l as [|x l IH]; intros s; [reflexivity|].
  cbn [map for_each]. destruct (body s (f x)); cbn [Py.bind]; [apply IH|].
  reflexivity.
Qed.

Lemma for_each_ext {A S} (body body' : S -> A -> res S) l :
  (forall s x, body s x = body' s x) ->
  forall s, for_each body l s = for_each body' l s.
Proof.
  intros H. induction l as [|x l IH]; intros s; [reflexivity|].
  cbn [for_each]. rewrite H. destruct (body' s x); cbn [Py.bind]; [apply IH|].
  reflexivity.
Qed.

Lemma filter_complete_select columns l :
  "is_complete" ∈ columns ->
  List.filter is_complete (map (select columns) l)
  = map (select columns) (List.filter is_complete l).
Proof.
  intros Hc. induction l as [|r l IH]; [reflexivity|].
  cbn [map List.filter]. rewrite select_complete by exact Hc.
  destruct (is_complete r); cbn [map]; rewrite IH; reflexivity.
Qed.

Lemma add_session_select columns st sl sums s :
  "duration_minutes" ∈ columns -> "created_at" ∈ columns ->
  add_session fromisoformat local_utcoffset st sl sums (select columns s)
  = add_session fromisoformat local_utcoffset st sl sums s.
Proof.
  intros H1 H2. unfold add_session.
  rewrite select_duration, select_get by assumption. reflexivity.
Qed.

Lemma count_task_select columns st sl counts task :
  "completed_at" ∈ columns ->
  count_task fromisoformat local_utcoffset st sl counts (select columns task)
  = count_task fromisoformat local_utcoffset st sl counts task.
Proof.
  intros H. unfold count_task. rewrite select_get by assumption. reflexivity.
Qed.

Lemma add_activity_select columns acc task :
  "completed_at" ∈ columns -> "title" ∈ columns ->
  add_activity fromisoformat local_utcoffset acc (select columns task)
  = add_activity fromisoformat local_utcoffset acc task.
Proof.
  intros H1 H2. unfold add_activity, getitem.
  rewrite select_get, select_lookup by assumption. reflexivity.
Qed.

End Columns.

(** X14.  The dashboard reads two columns of a session and three of a task.
    Narrowing the session rows to [duration_minutes] and [created_at], as
    the query of line 268 does, changes nothing; narrowing the task rows to
    [is_complete], [completed_at] and [title] changes no figure and no
    exception, only the rows kept in [tasks_completed]. *)
Theorem dashboard_reads_named_columns :
  forall (fromisoformat : string -> res Datetime.t)
         (local_utcoffset : Z -> res Z) (today : Z)
         (tasks focus_sessions : list (gmap string value)),
    dashboard fromisoformat local_utcoffset today tasks
      (map (select ["duration_minutes"; "created_at"]) focus_sessions)
    = dashboard fromisoformat local_utcoffset today tasks focus_sessions
    /\ dashboard fromisoformat local_utcoffset today
         (map (select ["is_complete"; "completed_at"; "title"]) tasks)
         focus_sessions
       = (l ← dashboard fromisoformat local_utcoffset today tasks
                focus_sessions;
          Ok (with_tasks_completed
                (map (select ["is_complete"; "completed_at"; "title"])
                   (tasks_completed l)) l)).
Proof.
  intros fromisoformat local_utcoffset today tasks focus_sessions. split.
  - unfold dashboard.
    destruct (Datetime.sub today _) as [st|e]; [|reflexivity].
    cbn [mbind res_bind Py.bind].
    destruct (Datetime.sub st _) as [sl|e]; [|reflexivity].
    cbn [mbind res_bind Py.bind].
    rewrite for_each_map.
    rewrite (for_each_ext _
               (add_session fromisoformat local_utcoffset st sl)
               focus_sessions); [reflexivity|].
    intros s x. apply add_session_select; repeat constructor.
  - unfold dashboard.
    rewrite filter_complete_select by (repeat constructor).
    rewrite !List.length_map.
    destruct (Datetime.sub today _) as [st|e]; [|reflexivity].
    cbn [mbind res_bind Py.bind].
    destruct (Datetime.sub st _) as [sl|e]; [|reflexivity].
    cbn [mbind res_bind Py.bind].
    rewrite !for_each_map.
    rewrite (for_each_ext _
               (count_task fromisoformat local_utcoffset st sl)
               (List.filter is_complete tasks))
      by (intros s x; apply count_task_select; repeat constructor).
    rewrite (for_each_ext _
               (add_activity fromisoformat local_utcoffset)
               (List.filter is_complete tasks))
      by (intros s x; apply add_activity_select; repeat constructor).
    repeat match goal with
           | |- mbind _ ?m = _ =>
               destruct m as [?|?]; cbn [mbind res_bind Py.bind];
               [|reflexivity]
           | p : (_ * _)%type |- _ => destruct p
           end.
    reflexivity.
Qed.

(** ** The two weeks and the totals *)

Section Buckets.

Context (fromisoformat : string -> res Datetime.t).
Context (local_utcoffset : Z -> res Z).

Lemma windows_disjoint this last t :
  in_this_week this t && in_last_week this last t = false.
Proof.
  unfold in_this_week, in_last_week.
  destruct (Z.leb_spec this t), (Z.leb_spec last t), (Z.ltb_spec t this);
    cbn [andb]; try reflexivity; lia.
Qed.

Lemma count_disjoint (p q : Z -> bool) l :
  (forall t, p t && q t = false) ->
  count p l + count q l <= Z.of_nat (length l).
Proof.
  intros D. induction l as [|t l IH].
  - unfold count. cbn. lia.
  - rewrite !count_cons. cbn [length]. specialize (D t).
    destruct (p t), (q t); cbn [andb] in D; try discriminate D; lia.
Qed.

Lemma minutes_disjoint (p q : Z -> bool) l :
  (forall t, p t && q t = false) ->
  Forall (fun s => 0 <= duration_minutes s) l ->
  0 <= minutes_where fromisoformat local_utcoffset p l
  /\ 0 <= minutes_where fromisoformat local_utcoffset q l
  /\ minutes_where fromisoformat local_utcoffset p l
     + minutes_where fromisoformat local_utcoffset q l
     <= foldr Z.add 0 (map duration_minutes l).
Proof.
  intros D F. induction F as [|s l Hs F IH].
  - unfold minutes_where. cbn. lia.
  - rewrite !minutes_where_cons. cbn [map foldr].
    destruct (parsed fromisoformat local_utcoffset (get s "created_at"))
      as [t|]; [|lia].
    specialize (D t).
    destruct (p t), (q t); cbn [andb] in D; try discriminate D; lia.
Qed.

End Buckets.

(** X15.  No record is counted in both weeks.  The two weekly task counts
    are not negative and together do not exceed the completed count; when
    no session has a negative duration the two weekly minute sums are not
    negative and together do not exceed the total focus minutes. *)
Theorem weekly_figures_within_totals :
  forall (fromisoformat : string -> res Datetime.t)
         (local_utcoffset : Z -> res Z) (today : Z)
         (tasks focus_sessions : list (gmap string value)) (l : locals),
    dashboard fromisoformat local_utcoffset today tasks focus_sessions = Ok l ->
    0 <= tasks_this_week_count l
    /\ 0 <= tasks_last_week_count l
    /\ tasks_this_week_count l + tasks_last_week_count l
       <= tasks_completed_count l
    /\ (Forall (fun s => 0 <= duration_minutes s) focus_sessions ->
        0 <= focus_this_week_min l
        /\ 0 <= focus_last_week_min l
        /\ focus_this_week_min l + focus_last_week_min l
           <= total_focus_minutes l).
Proof.
  intros fromisoformat local_utcoffset today tasks focus_sessions l H.
  pose proof (run_closed_form _ _ _ _ _ _ H) as F. cbv zeta in F.
  destruct F as (_ & F2 & _ & _ & _ & _ & F7 & F8 & F9 & F10 & F11 & _).
  set (times := completion_times fromisoformat local_utcoffset
                  (List.filter is_complete tasks)) in *.
  pose proof (count_bounds (in_this_week (start_of_this_week l)) times) as B1.
  pose proof (count_bounds
                (in_last_week (start_of_this_week l) (start_of_last_week l))
                times) as B2.
  pose proof (count_disjoint _ _ times
                (windows_disjoint (start_of_this_week l)
                   (start_of_last_week l))) as B3.
  pose proof (completion_times_length fromisoformat local_utcoffset
                (List.filter is_complete tasks)) as B4.
  fold times in B4.
  split; [lia|]. split; [lia|]. split; [lia|].
  intros Hd. rewrite F9, F10, F11.
  apply minutes_disjoint; [apply windows_disjoint|exact Hd].
Qed.

Lemma weekly_figures_within_totals_witness :
  exists l,
    Sample.run Sample.today Sample.tasks Sample.focus_sessions = Ok l
    /\ tasks_this_week_count l + tasks_last_week_count l
       <= tasks_completed_count l
    /\ focus_this_week_min l + focus_last_week_min l <= total_focus_minutes l.
Proof.
  destruct (Sample.run Sample.today Sample.tasks Sample.focus_sessions)
    as [l|e] eqn:E; [|vm_compute in E; discriminate E].
  exists l. split; [reflexivity|].
  destruct (weekly_figures_within_totals Iso.fromisoformat Iso.utc_host
              Sample.today Sample.tasks Sample.focus_sessions l E)
    as (_ & _ & A & B).
  split; [exact A|]. apply B.
  repeat constructor; vm_compute; discriminate.
Defined.
